(** * LUIZ: Contextual Cueing Task (tarefa3) and Iowa Gambling Task (tarefa4)

  A shallow embedding of the trial generators, the session controllers and
  the result aggregators of [tarefa3/tarefa3.py] and [tarefa4/tarefa4.py],
  followed by the properties of the specification that are checked on it.

  Python [int]s are [Z] (counters and indices that are never negative are
  [nat]), Python [dict]s are [gmap]s, or lists of items in insertion order
  where the iteration order matters. Python [float]s are binary64 numbers,
  held as the rationals ([Q]) they denote: the readings of [time.time()]
  are given by the environment, their differences are rounded to binary64
  ([fsub]), and [round(_, 3)] gives the decimal that is written out. The
  means of the analysis of tarefa3 are exact rationals. *)

From Stdlib Require Import ZArith QArith Qround Lia Lqa String.
From stdpp Require Import base list gmap strings.

Local Open Scope Z_scope.

(** ** The Python and pygame runtime the two programs run on *)

Module Py.

(** Exceptions of the interpreter that the programs can meet.
    [sys.exit()] raises [SystemExit]. [Blocked] is not a Python exception:
    it marks a blocking loop that is still waiting for input when the bound
    on the number of its iterations is reached. *)
Inductive exn : Type :=
| ValueError | IndexError | KeyError | AttributeError | ZeroDivisionError
| TypeError | OSError
| SystemExit | Blocked.

Inductive result (A : Type) : Type :=
| Ok (a : A)
| Raise (e : exn).
Arguments Ok {A} a.
Arguments Raise {A} e.

(** pygame key and event kinds the handlers test for. *)
Inductive key : Type := K_SPACE | K_ESCAPE | K_RETURN | K_BACKSPACE | K_other.

Inductive event : Type :=
| QUIT
| KEYDOWN (k : key)
| MOUSEBUTTONDOWN (button : Z) (pos : Z * Z)
| OtherEvent.

(** One cell of a written table, and the files a program leaves behind. *)
Inductive cell : Type :=
| CInt (z : Z) | CNum (q : Q) | CBool (b : bool) | CStr (s : string)
| CPair (p : Z * Z).

Inductive file : Type :=
| Csv (header : list string) (rows : list (list cell))
| Report (entries : list (string * list cell)).

(** The environment: the generator of [random], the wall clock read by
    [time.time()], the batches returned by [pygame.event.get()], the
    pointer position returned by [pygame.mouse.get_pos()], and the files
    written so far. Each oracle is a sequence with a cursor. *)
Record world : Type := World {
  tape : nat -> N;  cursor : nat;
  clock : nat -> Q; ticks : nat;
  queue : nat -> list event; polls : nat;
  pointer : nat -> Z * Z;
  files : list file
}.

Definition M (A : Type) : Type := world -> result A * world.

Definition ret {A} (a : A) : M A := fun w => (Ok a, w).
Definition raise {A} (e : exn) : M A := fun w => (Raise e, w).
Definition bind {A B} (m : M A) (f : A -> M B) : M B :=
  fun w => match m w with
           | (Ok a, w') => f a w'
           | (Raise e, w') => (Raise e, w')
           end.

(** [try: m except Exception: h]. [SystemExit] is not an [Exception]. *)
Definition try_except {A} (m : M A) (h : exn -> M A) : M A :=
  fun w => match m w with
           | (Raise SystemExit, w') => (Raise SystemExit, w')
           | (Raise Blocked, w') => (Raise Blocked, w')
           | (Raise e, w') => h e w'
           | r => r
           end.

Declare Scope py_scope.
Delimit Scope py_scope with py.
Notation "x <- m ;; k" := (bind m (fun x => k))
  (at level 100, m at next level, right associativity) : py_scope.
Notation "m ;;; k" := (bind m (fun _ => k))
  (at level 100, right associativity) : py_scope.
Local Open Scope py_scope.

(** [seq[i]] on a list. *)
Definition getitem {A} (l : list A) (i : nat) : M A :=
  match l !! i with Some a => ret a | None => raise IndexError end.

(** [d[k]] on a dict. *)
Definition getkey {A} (d : gmap string A) (k : string) : M A :=
  match d !! k with Some a => ret a | None => raise KeyError end.

(** [range(n)] and [range(a, b)]. *)
Definition range (n : nat) : list Z := Z.of_nat <$> seq 0 n.
Definition range_from (a b : nat) : list nat := seq a (b - a).

(** [for x in xs: acc = body(acc, x)]. *)
Fixpoint for_each {A S} (xs : list A) (body : S -> A -> M S) (acc : S) : M S :=
  match xs with
  | [] => ret acc
  | x :: xs' => acc' <- body acc x ;; for_each xs' body acc'
  end.

(** *** random *)

Definition next_raw : M N :=
  fun w => (Ok (tape w (cursor w)),
            World (tape w) (S (cursor w)) (clock w) (ticks w)
                  (queue w) (polls w) (pointer w) (files w)).

(** [Random._randbelow(n)]: an integer in [0, n). *)
Definition randbelow (n : nat) : M nat :=
  r <- next_raw ;; ret (N.to_nat (r mod N.of_nat n)).

(** [random.random()]: a multiple of 2^-53 in [0, 1). *)
Definition two53 : positive := 9007199254740992.
Definition random : M Q :=
  r <- next_raw ;; ret (Z.of_N r mod Zpos two53 # two53).

(** [random.choice(seq)]; fails with [IndexError] on an empty sequence. *)
Definition choice {A} (l : list A) : M A :=
  match l with
  | [] => raise IndexError
  | _ => i <- randbelow (length l) ;; getitem l i
  end.

(** [random.sample(population, k)], by the pool of CPython (the branch
    taken for populations of at most [21 + 4 ** ceil(log(3k, 4))] items):
    the items not yet selected are kept at [pool[0 : m]]. *)
Fixpoint sample_pool {A} (pool : list A) (m k : nat) : M (list A) :=
  match k with
  | O => ret []
  | S k' =>
      j <- randbelow m ;;
      x <- getitem pool j ;;
      y <- getitem pool (m - 1) ;;
      rest <- sample_pool (<[j := y]> pool) (m - 1) k' ;;
      ret (x :: rest)
  end.

Definition sample {A} (population : list A) (k : nat) : M (list A) :=
  if (length population <? k)%nat then raise ValueError
  else sample_pool population (length population) k.

(** [random.shuffle(x)]: for i from len-1 down to 1, swap x[i] and
    x[randbelow(i+1)]. *)
Fixpoint shuffle_from {A} (i : nat) (x : list A) : M (list A) :=
  match i with
  | O => ret x
  | S i' =>
      j <- randbelow (S i) ;;
      xi <- getitem x i ;;
      xj <- getitem x j ;;
      shuffle_from i' (<[j := xi]> (<[i := xj]> x))
  end.

Definition shuffle {A} (x : list A) : M (list A) :=
  shuffle_from (length x - 1) x.

(** *** time *)

Definition time : M Q :=
  fun w => (Ok (clock w (ticks w)),
            World (tape w) (cursor w) (clock w) (S (ticks w))
                  (queue w) (polls w) (pointer w) (files w)).

(** *** pygame *)

Definition event_get : M (list event) :=
  fun w => (Ok (queue w (polls w)),
            World (tape w) (cursor w) (clock w) (ticks w)
                  (queue w) (S (polls w)) (pointer w) (files w)).

Definition mouse_get_pos : M (Z * Z) :=
  fun w => (Ok (pointer w (polls w)), w).

Definition write_file (f : file) : M unit :=
  fun w => (Ok tt,
            World (tape w) (cursor w) (clock w) (ticks w)
                  (queue w) (polls w) (pointer w) (files w ++ [f])).

(** [d[k] = v] on a dict held as the list of its items in insertion
    order: the value of a key that is present is replaced where it stands,
    a new key goes to the end. *)
Fixpoint dict_set {A} (k : string) (v : A) (d : list (string * A))
  : list (string * A) :=
  match d with
  | [] => [(k, v)]
  | (k', v') :: d' =>
      if String.eqb k' k then (k', v) :: d' else (k', v') :: dict_set k v d'
  end.

(** A [pygame.Rect] keeps its four fields in C [int]s. [pygame.Rect(x, y,
    w, h)] takes each argument through a C [long] (of 64 bits): a Python
    int that fits is cut to its low 32 bits, one that does not is refused
    with [TypeError]. *)
Record Rect : Type := mkRect { left : Z; top : Z; width : Z; height : Z }.

Definition c_int (z : Z) : Z := (z + 2 ^ 31) mod 2 ^ 32 - 2 ^ 31.

Definition fits_long (z : Z) : bool := (- 2 ^ 63 <=? z) && (z <? 2 ^ 63).

Definition Rect_init (x y w h : Z) : M Rect :=
  if fits_long x && fits_long y && fits_long w && fits_long h
  then ret (mkRect (c_int x) (c_int y) (c_int w) (c_int h))
  else raise TypeError.

(** [Rect.collidepoint] *)

Definition collidepoint (r : Rect) (p : Z * Z) : bool :=
  (left r <=? fst p) && (fst p <? left r + width r) &&
  (top r <=? snd p) && (snd p <? top r + height r).

(** *** Numbers *)

Definition Qltb (x y : Q) : bool := negb (Qle_bool y x).

(** [round(x, 3)]: the nearest multiple of 1/1000, ties to even. *)
Definition round_half_even (x : Q) : Z :=
  let f := Qfloor x in
  let r := (x - inject_Z f)%Q in
  if Qltb r (1 # 2) then f
  else if Qltb (1 # 2) r then f + 1
  else if Z.even f then f else f + 1.

Definition round3 (x : Q) : Q := round_half_even (x * 1000) # 1000.

(** Binary64: a number with a significand of 53 bits and an exponent of
    at least -1074. [ilog2 x] is the integer part of the binary logarithm
    of a positive [x], and [b64 x] is the binary64 number nearest to [x],
    a tie going to the even significand (the exponent is not bounded
    above: the differences of clock readings are far from 2^1024). *)
Definition pow2 (e : Z) : Q := (2 ^ e)%Q.

Definition ilog2 (x : Q) : Z :=
  let e := Z.log2 (Qnum x) - Z.log2 (Zpos (Qden x)) in
  if Qltb x (pow2 e) then e - 1 else e.

Definition b64_pos (x : Q) : Q :=
  let k := Z.max (ilog2 x - 52) (-1074) in
  (inject_Z (round_half_even (x / pow2 k)) * pow2 k)%Q.

Definition b64 (x : Q) : Q :=
  match Qnum x with
  | Z0 => 0%Q
  | Zpos _ => b64_pos x
  | Zneg _ => (- b64_pos (- x))%Q
  end.

(** [a - b] on floats. *)
Definition fsub (a b : Q) : Q := b64 (a - b).

End Py.

(** ** tarefa3/tarefa3.py: the Contextual Cueing Task *)

Module CCT.
Import Py.
Local Open Scope py_scope.

Definition WIDTH : Z := 800.
Definition HEIGHT : Z := 600.
Definition CELL_SIZE : Z := 80.
Definition STIM_SIZE : Z := 30.

Inductive stim_kind : Type := T | L.

#[global] Instance stim_kind_eq_dec : EqDecision stim_kind.
Proof. solve_decision. Defined.

Record Stimulus : Type := mkStimulus {
  stim_type : stim_kind;
  position : Z * Z;
  rotation : Z;
  screen_pos : Z * Z
}.

Record Configuration : Type := mkConfiguration {
  config_id : Z;
  is_repeated : bool;
  stimuli : list Stimulus;
  target : Stimulus
}.

(** One row of [trial_results]. *)
Record trial_data : Type := mkTrial {
  td_participant : string;
  td_block : nat;
  td_trial : nat;
  td_configuration_id : Z;
  td_is_repeated : bool;
  td_response_time : Q;
  td_is_correct : bool;
  td_target_position : Z * Z
}.

Inductive phase : Type :=
| st_welcome | st_fixation | st_trial | st_break | st_end.

Record Experiment : Type := mkExperiment {
  participant_id : string;
  repeated_configs : list Configuration;
  trial_results : list trial_data;
  current_block : nat;
  current_trial : nat;
  total_trials : nat;
  state : phase;
  current_config : option Configuration;
  trial_start_time : Q;
  fixation_start_time : Q;
  fixation_duration : Q
}.

Definition set_state (st : phase) (e : Experiment) : Experiment :=
  mkExperiment (participant_id e) (repeated_configs e) (trial_results e)
    (current_block e) (current_trial e) (total_trials e) st
    (current_config e) (trial_start_time e) (fixation_start_time e)
    (fixation_duration e).

Definition set_current_config (c : Configuration) (e : Experiment) : Experiment :=
  mkExperiment (participant_id e) (repeated_configs e) (trial_results e)
    (current_block e) (current_trial e) (total_trials e) (state e)
    (Some c) (trial_start_time e) (fixation_start_time e)
    (fixation_duration e).

Definition set_trial_start_time (t : Q) (e : Experiment) : Experiment :=
  mkExperiment (participant_id e) (repeated_configs e) (trial_results e)
    (current_block e) (current_trial e) (total_trials e) (state e)
    (current_config e) t (fixation_start_time e) (fixation_duration e).

Definition set_fixation_start_time (t : Q) (e : Experiment) : Experiment :=
  mkExperiment (participant_id e) (repeated_configs e) (trial_results e)
    (current_block e) (current_trial e) (total_trials e) (state e)
    (current_config e) (trial_start_time e) t (fixation_duration e).

Definition set_counters (b t : nat) (e : Experiment) : Experiment :=
  mkExperiment (participant_id e) (repeated_configs e) (trial_results e)
    b t (total_trials e) (state e)
    (current_config e) (trial_start_time e) (fixation_start_time e)
    (fixation_duration e).

Definition append_result (d : trial_data) (e : Experiment) : Experiment :=
  mkExperiment (participant_id e) (repeated_configs e) (trial_results e ++ [d])
    (current_block e) (current_trial e) (total_trials e) (state e)
    (current_config e) (trial_start_time e) (fixation_start_time e)
    (fixation_duration e).

Section Design.

(** The module-level constants of the experimental design; the program
    fixes them to 6, 12, 12, 12 and 5. *)
Variables GRID_SIZE NUM_ITEMS NUM_REPEATED_CONFIGS NUM_NOVEL_CONFIGS
          NUM_BLOCKS : nat.

Definition GRID_START_X : Z := (WIDTH - Z.of_nat GRID_SIZE * CELL_SIZE) / 2.
Definition GRID_START_Y : Z := (HEIGHT - Z.of_nat GRID_SIZE * CELL_SIZE) / 2.

(** [Stimulus.__init__] *)
Definition Stimulus_init (ty : stim_kind) (pos : Z * Z) (rot : Z) : Stimulus :=
  mkStimulus ty pos rot
    (GRID_START_X + fst pos * CELL_SIZE + CELL_SIZE / 2,
     GRID_START_Y + snd pos * CELL_SIZE + CELL_SIZE / 2).

(** [Stimulus.contains_point] *)
Definition contains_point (self : Stimulus) (point : Z * Z) : bool :=
  let '(x, y) := point in
  let '(center_x, center_y) := screen_pos self in
  let radius := STIM_SIZE / 2 in
  (x - center_x) ^ 2 + (y - center_y) ^ 2 <=? radius ^ 2.

Definition rotations : list Z := [0; 90; 180; 270].

Definition grid_positions : list (Z * Z) :=
  x ← range GRID_SIZE; y ← range GRID_SIZE; [(x, y)].

(** [Configuration.generate]: the new [stimuli] and [target]. *)
Definition generate : M (list Stimulus * Stimulus) :=
  selected_positions <- sample grid_positions NUM_ITEMS ;;
  target_pos <- getitem selected_positions 0 ;;
  target_rotation <- choice rotations ;;
  let target := Stimulus_init T target_pos target_rotation in
  stimuli <- for_each (range_from 1 NUM_ITEMS)
    (fun stimuli i =>
       distractor_pos <- getitem selected_positions i ;;
       distractor_rotation <- choice rotations ;;
       ret (stimuli ++ [Stimulus_init L distractor_pos distractor_rotation]))
    [target] ;;
  ret (stimuli, target).

(** [Configuration.__init__] *)
Definition Configuration_init (config_id : Z) (is_repeated : bool)
  : M Configuration :=
  st <- generate ;;
  ret (mkConfiguration config_id is_repeated (fst st) (snd st)).

(** [Experiment.__init__] *)
Definition Experiment_init : Experiment :=
  mkExperiment "" [] [] 0 0 0 st_welcome None 0 0 (1 # 2).

(** [Experiment.setup_experiment] *)
Definition setup_experiment (self : Experiment) : M Experiment :=
  configs <- for_each (range NUM_REPEATED_CONFIGS)
    (fun acc i => c <- Configuration_init i true ;; ret (acc ++ [c])) [] ;;
  ret (mkExperiment (participant_id self) configs (trial_results self)
         (current_block self) (current_trial self)
         ((NUM_REPEATED_CONFIGS + NUM_NOVEL_CONFIGS) * NUM_BLOCKS)%nat
         (state self) (current_config self) (trial_start_time self)
         (fixation_start_time self) (fixation_duration self)).

(** [Experiment.prepare_trial]. In the second branch [current_trial] is
    below [NUM_REPEATED_CONFIGS], so the modulus is not zero. *)
Definition prepare_trial (self : Experiment) : M Experiment :=
  r <- random ;;
  self <- (if Qltb r (1 # 2) || (NUM_REPEATED_CONFIGS <=? current_trial self)%nat
           then c <- Configuration_init (-1) false ;;
                ret (set_current_config c self)
           else let config_idx := (current_trial self mod NUM_REPEATED_CONFIGS)%nat in
                c <- getitem (repeated_configs self) config_idx ;;
                ret (set_current_config c self)) ;;
  now <- time ;;
  ret (set_trial_start_time now self).

(** [Experiment.show_fixation] *)
Definition show_fixation (self : Experiment) : M Experiment :=
  self <- (if Qeq_bool (fixation_start_time self) 0
           then now <- time ;; ret (set_fixation_start_time now self)
           else ret self) ;;
  now <- time ;;
  if Qle_bool (fixation_duration self) (fsub now (fixation_start_time self))
  then prepare_trial (set_state st_trial (set_fixation_start_time 0 self))
  else ret self.

(** [Experiment.record_trial] *)
Definition record_trial (self : Experiment) (response_time : Q)
    (is_correct : bool) : M Experiment :=
  match current_config self with
  | None => raise AttributeError
  | Some c =>
      ret (append_result
             (mkTrial (participant_id self) (current_block self + 1)
                (current_trial self + 1) (config_id c) (is_repeated c)
                (round3 response_time) is_correct (position (target c)))
             self)
  end.

(** [Experiment.next_trial] *)
Definition next_trial (self : Experiment) : Experiment :=
  let self := set_counters (current_block self) (current_trial self + 1) self in
  if (NUM_REPEATED_CONFIGS + NUM_NOVEL_CONFIGS <=? current_trial self)%nat
  then
    let self := set_counters (current_block self + 1) 0 self in
    if (current_block self <? NUM_BLOCKS)%nat
    then set_state st_break self
    else set_state st_end self
  else set_state st_fixation self.

(** The body of the event loop of [Experiment.run_trial]. *)
Definition handle_trial_event (self : Experiment) (ev : event) : M Experiment :=
  match ev with
  | QUIT => raise SystemExit
  | KEYDOWN K_ESCAPE => ret (set_state st_end self)
  | KEYDOWN _ => ret self
  | MOUSEBUTTONDOWN button pos =>
      if button =? 1 then
        match current_config self with
        | None => raise AttributeError
        | Some c =>
            if contains_point (target c) pos then
              now <- time ;;
              self <- record_trial self (fsub now (trial_start_time self)) true ;;
              ret (next_trial self)
            else if existsb (fun stim => contains_point stim pos) (stimuli c)
            then
              now <- time ;;
              self <- record_trial self (fsub now (trial_start_time self)) false ;;
              ret (next_trial self)
            else ret self
        end
      else ret self
  | OtherEvent => ret self
  end.

(** [Experiment.run_trial]: it draws the current configuration, which
    fails when there is none, and then handles the events. *)
Definition run_trial (self : Experiment) : M Experiment :=
  match current_config self with
  | None => raise AttributeError
  | Some _ =>
      events <- event_get ;;
      for_each events handle_trial_event self
  end.

(** The [while waiting] loop of [Experiment.show_welcome]; [fuel] bounds
    the number of polls of the event queue. *)
Fixpoint welcome_wait (fuel : nat) : M unit :=
  match fuel with
  | O => raise Blocked
  | S fuel' =>
      events <- event_get ;;
      waiting <- for_each events
        (fun waiting ev =>
           match ev with
           | QUIT => raise SystemExit
           | KEYDOWN K_SPACE => ret false
           | KEYDOWN K_ESCAPE => raise SystemExit
           | _ => ret waiting
           end) true ;;
      if waiting : bool then welcome_wait fuel' else ret tt
  end.

(** [Experiment.show_welcome] *)
Definition show_welcome (fuel : nat) (self : Experiment) : M Experiment :=
  welcome_wait fuel ;;;
  ret (set_state st_fixation self).

(** The [while waiting] loop of [Experiment.show_break]. *)
Fixpoint break_wait (fuel : nat) (self : Experiment) : M Experiment :=
  match fuel with
  | O => raise Blocked
  | S fuel' =>
      events <- event_get ;;
      r <- for_each events
        (fun (acc : bool * Experiment) ev =>
           match ev with
           | QUIT => raise SystemExit
           | KEYDOWN K_SPACE => ret (false, snd acc)
           | KEYDOWN K_ESCAPE => ret (false, set_state st_end (snd acc))
           | _ => ret acc
           end) (true, self) ;;
      if fst r then break_wait fuel' (snd r) else ret (snd r)
  end.

(** [Experiment.show_break] *)
Definition show_break (fuel : nat) (self : Experiment) : M Experiment :=
  self <- break_wait fuel self ;;
  ret (set_state st_fixation self).

(** The [while waiting] loop of [Experiment.show_end]. *)
Fixpoint end_wait (fuel : nat) : M unit :=
  match fuel with
  | O => raise Blocked
  | S fuel' =>
      events <- event_get ;;
      waiting <- for_each events
        (fun waiting ev =>
           match ev with
           | QUIT => raise SystemExit
           | KEYDOWN K_SPACE | KEYDOWN K_ESCAPE => ret false
           | _ => ret waiting
           end) true ;;
      if waiting : bool then end_wait fuel' else ret tt
  end.

(** *** Results *)

Definition columns : list string :=
  ["participant"; "block"; "trial"; "configuration_id"; "is_repeated";
   "response_time"; "is_correct"; "target_position"]%string.

Definition csv_row (d : trial_data) : list cell :=
  [CStr (td_participant d); CInt (Z.of_nat (td_block d));
   CInt (Z.of_nat (td_trial d)); CInt (td_configuration_id d);
   CBool (td_is_repeated d); CNum (td_response_time d);
   CBool (td_is_correct d); CPair (td_target_position d)].

(** [pd.DataFrame(trial_results).to_csv]: a frame built from an empty list
    has no columns. *)
Definition to_csv (log : list trial_data) : file :=
  Csv (match log with [] => [] | _ => columns end) (csv_row <$> log).

Definition Qsum (l : list Q) : Q := foldr Qplus 0%Q l.

(** [Series.mean()]; [None] stands for NaN, the mean of no value. *)
Definition mean (l : list Q) : option Q :=
  match l with
  | [] => None
  | _ => Some (Qsum l / inject_Z (Z.of_nat (length l)))%Q
  end.

(** The row of [analysis] for one (block, is_repeated) key: the mean
    response time of the correct records of the group, when it has any. *)
Definition group_mean (log : list trial_data) (block : nat) (rep : bool)
  : option Q :=
  mean (td_response_time <$>
          filter (fun d => td_is_correct d = true /\ td_block d = block
                           /\ td_is_repeated d = rep) log).

(** One line of the per-block table: block, repeated, novel, difference. *)
Definition block_line (log : list trial_data) (i : nat) : nat * Q * Q * Q :=
  let rep_time := default 0%Q (group_mean log i true) in
  let nov_time := default 0%Q (group_mean log i false) in
  (i, rep_time, nov_time, (nov_time - rep_time)%Q).

Definition condition_mean (log : list trial_data) (rep : bool) : option Q :=
  mean (td_response_time <$>
          filter (fun d => td_is_repeated d = rep /\ td_is_correct d = true) log).

Definition num_cell (o : option Q) : cell :=
  match o with Some q => CNum q | None => CStr "nan" end.

(** The body of the [try] of [Experiment.save_results]. Selecting the
    column ['is_correct'] of a frame without columns raises [KeyError]. *)
Definition analysis_report (log : list trial_data)
  : M (list (string * list cell)) :=
  match log with
  | [] => raise KeyError
  | _ =>
      let lines := block_line log <$> seq 1 NUM_BLOCKS in
      let accuracy :=
        (inject_Z (Z.of_nat (length (filter (fun d => td_is_correct d = true) log)))
         / inject_Z (Z.of_nat (length log)) * 100)%Q in
      let contextual_effect :=
        match condition_mean log false, condition_mean log true with
        | Some n, Some r => Some (n - r)%Q
        | _, _ => None
        end in
      ret (((fun l : nat * Q * Q * Q =>
               let '(i, r, n, d) := l in
               ("bloco"%string, [CInt (Z.of_nat i); CNum r; CNum n; CNum d]))
              <$> lines)
           ++ [("taxa_acertos"%string, [CNum accuracy]);
               ("efeito"%string, [num_cell contextual_effect])])
  end.

(** [Experiment.save_results] *)
Definition save_results (self : Experiment) : M unit :=
  write_file (to_csv (trial_results self)) ;;;
  try_except
    (entries <- analysis_report (trial_results self) ;;
     write_file (Report entries))
    (fun _ => ret tt).

(** [Experiment.show_end] *)
Definition show_end (fuel : nat) (self : Experiment) : M Experiment :=
  end_wait fuel ;;;
  save_results self ;;;
  raise SystemExit.

(** [Experiment.run], after [get_participant_info] has returned the
    identifier [pid]; [fuel] bounds the number of iterations of the main
    loop and of each blocking loop. *)
Fixpoint main_loop (fuel : nat) (self : Experiment) : M Experiment :=
  match fuel with
  | O => raise Blocked
  | S fuel' =>
      match state self with
      | st_welcome => self <- show_welcome fuel self ;; main_loop fuel' self
      | st_fixation => self <- show_fixation self ;; main_loop fuel' self
      | st_trial => self <- run_trial self ;; main_loop fuel' self
      | st_break => self <- show_break fuel self ;; main_loop fuel' self
      | st_end => show_end fuel self
      end
  end.

Definition run (fuel : nat) (pid : string) : M Experiment :=
  let self := Experiment_init in
  let self :=
    mkExperiment pid (repeated_configs self) (trial_results self)
      (current_block self) (current_trial self) (total_trials self)
      (state self) (current_config self) (trial_start_time self)
      (fixation_start_time self) (fixation_duration self) in
  self <- setup_experiment self ;;
  main_loop fuel self.

End Design.

(** The constants of the program. *)
Definition GRID_SIZE : nat := 6.
Definition NUM_REPEATED_CONFIGS : nat := 12.
Definition NUM_NOVEL_CONFIGS : nat := 12.
Definition NUM_BLOCKS : nat := 5.
Definition NUM_ITEMS : nat := 12.

End CCT.

(** ** tarefa4/tarefa4.py: the Iowa Gambling Task *)

Module IGT.
Import Py.
Local Open Scope py_scope.

(** A deck: constant reward, loss frequency, possible losses. The
    frequencies 0.5 and 0.1 are compared with [random.random()], a multiple
    of 2^-53: the comparison with the binary double nearest to 0.1 and the
    comparison with 1/10 agree on every such multiple. *)
Record deck : Type := mkDeck {
  recompensa : Z;
  freq_perda : Q;
  valores_perda : list Z
}.

Definition BARALHO_A : deck := mkDeck 100 (1 # 2) [150; 200; 250; 300; 350].
Definition BARALHO_B : deck := mkDeck 100 (1 # 10) [1250].
Definition BARALHO_C : deck := mkDeck 50 (1 # 2) [25; 50; 75].
Definition BARALHO_D : deck := mkDeck 50 (1 # 10) [250].

Definition PARTICIPANTE_ID : string := "anônimo".
Definition DINHEIRO_INICIAL : Z := 2000.
Definition LARGURA_TELA : Z := 1024.
Definition ALTURA_TELA : Z := 768.
Definition DURACAO_FEEDBACK : Q := 3 # 2.
Definition SALVAR_DADOS : bool := true.
Definition DIRETORIO_DADOS : string := "dados_igt".

(** One outcome of a deck: (recompensa, perda, liquido). *)
Definition outcome : Type := Z * Z * Z.

(** One entry of [dados]. *)
Record dado : Type := mkDado {
  d_tentativa : nat;
  d_baralho : string;
  d_recompensa : Z;
  d_perda : Z;
  d_liquido : Z;
  d_dinheiro_total : Z;
  d_tempo_reacao : Q
}.

Inductive phase : Type := instrucoes | principal | feedback | resultados.

Record IowaGamblingTask : Type := mkIGT {
  participante_id : string;
  dinheiro : Z;
  tentativa_atual : nat;
  dados : list dado;
  tempo_inicio : Q;
  tempo_reacao : Q;
  posicoes_baralhos : list string;
  baralhos : list (string * deck);
  retangulos_baralhos : list (string * Rect);
  resultados_baralhos : gmap string (list outcome);
  estado : phase;
  feedback_dados : option (string * outcome);
  tempo_inicio_feedback : Q;
  executando : bool;
  botao_continuar : option Rect
}.

Definition set_estado (st : phase) (s : IowaGamblingTask) : IowaGamblingTask :=
  mkIGT (participante_id s) (dinheiro s) (tentativa_atual s) (dados s)
    (tempo_inicio s) (tempo_reacao s) (posicoes_baralhos s) (baralhos s)
    (retangulos_baralhos s) (resultados_baralhos s) st (feedback_dados s)
    (tempo_inicio_feedback s) (executando s) (botao_continuar s).

Definition set_executando (b : bool) (s : IowaGamblingTask) : IowaGamblingTask :=
  mkIGT (participante_id s) (dinheiro s) (tentativa_atual s) (dados s)
    (tempo_inicio s) (tempo_reacao s) (posicoes_baralhos s) (baralhos s)
    (retangulos_baralhos s) (resultados_baralhos s) (estado s) (feedback_dados s)
    (tempo_inicio_feedback s) b (botao_continuar s).

Definition set_botao_continuar (r : Rect) (s : IowaGamblingTask)
  : IowaGamblingTask :=
  mkIGT (participante_id s) (dinheiro s) (tentativa_atual s) (dados s)
    (tempo_inicio s) (tempo_reacao s) (posicoes_baralhos s) (baralhos s)
    (retangulos_baralhos s) (resultados_baralhos s) (estado s) (feedback_dados s)
    (tempo_inicio_feedback s) (executando s) (Some r).

Definition set_tempo_inicio (t : Q) (s : IowaGamblingTask) : IowaGamblingTask :=
  mkIGT (participante_id s) (dinheiro s) (tentativa_atual s) (dados s)
    t (tempo_reacao s) (posicoes_baralhos s) (baralhos s)
    (retangulos_baralhos s) (resultados_baralhos s) (estado s) (feedback_dados s)
    (tempo_inicio_feedback s) (executando s) (botao_continuar s).

(** The per-deck counts, the net score and the per-block scores. *)
Record resultados_t : Type := mkResultados {
  escolhas_baralho : gmap string Z;
  pontuacao_liquida : Z;
  pontuacoes_bloco : list Z
}.

Section Design.

(** The module-level constants of the design; the program fixes them to
    100 and 5. *)
Variables NUM_TENTATIVAS NUM_BLOCOS : nat.

(** What the session meets when it saves: the date and time, formatted by
    [strftime], and the file system, which lets [open(name, 'w')] create
    the file ([None]) or makes it raise an exception. The data directory
    is taken to exist or to be creatable. *)
Variable timestamp : string.
Variable abre : string -> option exn.

Definition open_w (name : string) : M unit :=
  match abre name with
  | None => ret tt
  | Some e => raise e
  end.

(** [IowaGamblingTask._criar_retangulos_baralhos], for a window of
    [largura] by [altura] pixels ([self.largura], [self.altura]). *)
Definition _criar_retangulos_baralhos (largura altura : Z)
    (posicoes : list string) : M (list (string * Rect)) :=
  let largura_baralho := 160 in
  let altura_baralho := 240 in
  let margem := 40 in
  let largura_total := largura_baralho * 4 + margem * 3 in
  let inicio_x := (largura - largura_total) / 2 in
  let y := (altura - altura_baralho) / 2 in
  for_each (imap (fun i baralho => (i, baralho)) posicoes)
    (fun retangulos (item : nat * string) =>
       let '(i, baralho) := item in
       let x := inicio_x + Z.of_nat i * (largura_baralho + margem) in
       r <- Rect_init x y largura_baralho altura_baralho ;;
       ret (dict_set baralho r retangulos))
    [].

(** One slot of a deck's schedule. *)
Definition gerar_resultado (propriedades : deck) : M outcome :=
  let recompensa := recompensa propriedades in
  r <- random ;;
  perda <- (if Qltb r (freq_perda propriedades)
            then choice (valores_perda propriedades)
            else ret 0) ;;
  let liquido := recompensa - perda in
  ret (recompensa, perda, liquido).

(** [IowaGamblingTask._gerar_resultados_baralhos] *)
Definition _gerar_resultados_baralhos (baralhos : list (string * deck))
  : M (gmap string (list outcome)) :=
  for_each baralhos
    (fun resultados (item : string * deck) =>
       let '(baralho, propriedades) := item in
       lista <- for_each (seq 0 NUM_TENTATIVAS)
         (fun acc _ => o <- gerar_resultado propriedades ;; ret (acc ++ [o]))
         [] ;;
       ret (<[baralho := lista]> resultados))
    ∅.

(** [IowaGamblingTask.__init__] *)
Definition IowaGamblingTask_init (participante_id : string)
    (embaralhar_baralhos : bool) : M IowaGamblingTask :=
  let pid := if String.eqb participante_id "" then PARTICIPANTE_ID
             else participante_id in
  posicoes <- (if embaralhar_baralhos then shuffle ["A"; "B"; "C"; "D"]%string
               else ret ["A"; "B"; "C"; "D"]%string) ;;
  let baralhos := [("A", BARALHO_A); ("B", BARALHO_B);
                   ("C", BARALHO_C); ("D", BARALHO_D)]%string in
  retangulos <- _criar_retangulos_baralhos LARGURA_TELA ALTURA_TELA posicoes ;;
  resultados <- _gerar_resultados_baralhos baralhos ;;
  ret (mkIGT pid DINHEIRO_INICIAL 0 [] 0 0 posicoes baralhos retangulos
         resultados instrucoes None 0 true None).

(** [IowaGamblingTask._desenhar_tela_instrucoes]: it places the button. *)
Definition _desenhar_tela_instrucoes (self : IowaGamblingTask)
  : M IowaGamblingTask :=
  ret (set_botao_continuar
         (mkRect ((LARGURA_TELA - 200) / 2) (ALTURA_TELA - 120) 200 60) self).

(** [IowaGamblingTask._desenhar_tela_principal]: it starts the timer of the
    first trial. *)
Definition _desenhar_tela_principal (self : IowaGamblingTask)
  : M IowaGamblingTask :=
  if (tentativa_atual self =? 0)%nat && Qeq_bool (tempo_inicio self) 0
  then now <- time ;; ret (set_tempo_inicio now self)
  else ret self.

(** [IowaGamblingTask._desenhar_feedback] *)
Definition _desenhar_feedback (self : IowaGamblingTask) : M IowaGamblingTask :=
  match feedback_dados self with
  | Some _ =>
      tempo_atual <- time ;;
      if Qle_bool DURACAO_FEEDBACK
           (fsub tempo_atual (tempo_inicio_feedback self))
      then ret (mkIGT (participante_id self) (dinheiro self)
                  (tentativa_atual self) (dados self) (tempo_inicio self)
                  (tempo_reacao self) (posicoes_baralhos self) (baralhos self)
                  (retangulos_baralhos self) (resultados_baralhos self)
                  principal None (tempo_inicio_feedback self)
                  (executando self) (botao_continuar self))
      else ret self
  | None => ret self
  end.

Definition score_step (i : nat) (d : dado) (tentativas_por_bloco : nat)
    (blocos : list Z) : M (list Z) :=
  if (i <? NUM_TENTATIVAS)%nat then
    if (tentativas_por_bloco =? 0)%nat then raise ZeroDivisionError
    else
      let bloco := (i / tentativas_por_bloco)%nat in
      if (bloco <? NUM_BLOCOS)%nat then
        let baralho := d_baralho d in
        if bool_decide (baralho ∈ ["C"; "D"]%string) then
          old <- getitem blocos bloco ;; ret (<[bloco := old + 1]> blocos)
        else if bool_decide (baralho ∈ ["A"; "B"]%string) then
          old <- getitem blocos bloco ;; ret (<[bloco := old - 1]> blocos)
        else ret blocos
      else ret blocos
  else ret blocos.

(** [counts.get(k, 0)] *)
Definition get0 (m : gmap string Z) (k : string) : Z := default 0 (m !! k).

(** [IowaGamblingTask._calcular_resultados] *)
Definition _calcular_resultados (self : IowaGamblingTask) : M resultados_t :=
  let escolhas : gmap string Z :=
    foldl (fun acc d => <[d_baralho d := get0 acc (d_baralho d) + 1]> acc)
          (<["D" := 0]> (<["C" := 0]> (<["B" := 0]> (<["A" := 0]> ∅))))
          (dados self) in
  let vantajosos := get0 escolhas "C" + get0 escolhas "D" in
  let desvantajosos := get0 escolhas "A" + get0 escolhas "B" in
  if (NUM_BLOCOS =? 0)%nat then raise ZeroDivisionError else
  let tentativas_por_bloco := (NUM_TENTATIVAS / NUM_BLOCOS)%nat in
  blocos <- for_each (imap (fun i d => (i, d)) (dados self))
    (fun blocos (x : nat * dado) =>
       score_step (fst x) (snd x) tentativas_por_bloco blocos)
    (replicate NUM_BLOCOS 0) ;;
  ret (mkResultados escolhas (vantajosos - desvantajosos) blocos).

(** [IowaGamblingTask._desenhar_resultados]: it computes the results to
    show and places the button. *)
Definition _desenhar_resultados (self : IowaGamblingTask) : M IowaGamblingTask :=
  _calcular_resultados self ;;;
  ret (set_botao_continuar
         (mkRect ((LARGURA_TELA - 200) / 2) (ALTURA_TELA - 100) 200 60) self).

Definition campos : list string :=
  ["tentativa"; "baralho"; "recompensa"; "perda"; "liquido";
   "dinheiro_total"; "tempo_reacao"]%string.

Definition csv_row (d : dado) : list cell :=
  [CInt (Z.of_nat (d_tentativa d)); CStr (d_baralho d); CInt (d_recompensa d);
   CInt (d_perda d); CInt (d_liquido d); CInt (d_dinheiro_total d);
   CNum (d_tempo_reacao d)].

(** The common part of the names of the two files of a session. *)
Definition basename (self : IowaGamblingTask) : string :=
  DIRETORIO_DADOS +:+ "/igt_" +:+ participante_id self +:+ "_" +:+ timestamp.

(** [IowaGamblingTask._salvar_dados]: the table of the trials, then the
    summary (its copy of the configuration constants is left out), each in
    a file named after the participant and the time. *)
Definition _salvar_dados (self : IowaGamblingTask) : M unit :=
  if negb SALVAR_DADOS then ret tt else
  let basename := basename self in
  open_w (basename +:+ "_dados.csv") ;;;
  write_file (Csv campos (csv_row <$> dados self)) ;;;
  r <- _calcular_resultados self ;;
  open_w (basename +:+ "_resultados.json") ;;;
  write_file
    (Report
       [("escolhas_baralho"%string,
         (fun k => CInt (get0 (escolhas_baralho r) k)) <$> ["A"; "B"; "C"; "D"]%string);
        ("pontuacao_liquida"%string, [CInt (pontuacao_liquida r)]);
        ("pontuacoes_bloco"%string, CInt <$> pontuacoes_bloco r);
        ("participante_id"%string, [CStr (participante_id self)]);
        ("dinheiro_final"%string, [CInt (dinheiro self)]);
        ("posicoes_baralhos"%string, CStr <$> posicoes_baralhos self)]).

Definition is_some_and {A} (o : option A) (p : A -> bool) : bool :=
  match o with Some a => p a | None => false end.

(** [IowaGamblingTask._processar_eventos_instrucoes] *)
Definition _processar_eventos_instrucoes (self : IowaGamblingTask)
  : M IowaGamblingTask :=
  events <- event_get ;;
  for_each events
    (fun self evento =>
       match evento with
       | QUIT => ret (set_executando false self)
       | KEYDOWN K_ESCAPE => ret (set_executando false self)
       | KEYDOWN K_SPACE | KEYDOWN K_RETURN => ret (set_estado principal self)
       | KEYDOWN _ => ret self
       | MOUSEBUTTONDOWN _ pos =>
           if is_some_and (botao_continuar self) (fun r => collidepoint r pos)
           then ret (set_estado principal self) else ret self
       | OtherEvent => ret self
       end) self.

(** [IowaGamblingTask._processar_escolha] *)
Definition _processar_escolha (self : IowaGamblingTask) (baralho : string)
  : M IowaGamblingTask :=
  tempo_atual <- time ;;
  let tempo_reacao := fsub tempo_atual (tempo_inicio self) in
  lista <- getkey (resultados_baralhos self) baralho ;;
  o <- getitem lista (tentativa_atual self) ;;
  let '(recompensa, perda, liquido) := o in
  let dinheiro := dinheiro self + liquido in
  let dados_tentativa :=
    mkDado (tentativa_atual self + 1) baralho recompensa perda liquido
           dinheiro (round3 tempo_reacao) in
  inicio_feedback <- time ;;
  let tentativa := (tentativa_atual self + 1)%nat in
  ret (mkIGT (participante_id self) dinheiro tentativa
         (dados self ++ [dados_tentativa]) tempo_atual tempo_reacao
         (posicoes_baralhos self) (baralhos self) (retangulos_baralhos self)
         (resultados_baralhos self)
         (if (NUM_TENTATIVAS <=? tentativa)%nat then resultados else feedback)
         (Some (baralho, (recompensa, perda, liquido))) inicio_feedback
         (executando self) (botao_continuar self)).

(** [IowaGamblingTask._processar_eventos_principal] *)
Definition _processar_eventos_principal (self : IowaGamblingTask)
  : M IowaGamblingTask :=
  events <- event_get ;;
  for_each events
    (fun self evento =>
       match evento with
       | QUIT => ret (set_executando false self)
       | KEYDOWN K_ESCAPE => ret (set_executando false self)
       | KEYDOWN _ => ret self
       | MOUSEBUTTONDOWN _ _ =>
           mouse_pos <- mouse_get_pos ;;
           match List.find (fun x : string * Rect => collidepoint (snd x) mouse_pos)
                   (retangulos_baralhos self) with
           | Some x => _processar_escolha self (fst x)
           | None => ret self
           end
       | OtherEvent => ret self
       end) self.

(** [IowaGamblingTask._processar_eventos_resultados] *)
Definition _processar_eventos_resultados (self : IowaGamblingTask)
  : M IowaGamblingTask :=
  events <- event_get ;;
  for_each events
    (fun self evento =>
       match evento with
       | QUIT => ret (set_executando false self)
       | KEYDOWN K_ESCAPE | KEYDOWN K_SPACE => ret (set_executando false self)
       | KEYDOWN _ => ret self
       | MOUSEBUTTONDOWN _ pos =>
           if is_some_and (botao_continuar self) (fun r => collidepoint r pos)
           then ret (set_executando false self) else ret self
       | OtherEvent => ret self
       end) self.

(** One iteration of the loop of [IowaGamblingTask.executar]. *)
Definition frame (self : IowaGamblingTask) : M IowaGamblingTask :=
  match estado self with
  | instrucoes =>
      self <- _desenhar_tela_instrucoes self ;; _processar_eventos_instrucoes self
  | principal =>
      self <- _desenhar_tela_principal self ;; _processar_eventos_principal self
  | feedback => _desenhar_feedback self
  | resultados =>
      self <- _desenhar_resultados self ;; _processar_eventos_resultados self
  end.

Fixpoint main_loop (fuel : nat) (self : IowaGamblingTask) : M IowaGamblingTask :=
  if executando self then
    match fuel with
    | O => raise Blocked
    | S fuel' => self <- frame self ;; main_loop fuel' self
    end
  else ret self.

(** [IowaGamblingTask.executar]; [fuel] bounds the number of frames. *)
Definition executar (fuel : nat) (self : IowaGamblingTask) : M bool :=
  self <- main_loop fuel self ;;
  (if (0 <? length (dados self))%nat then _salvar_dados self else ret tt) ;;;
  ret (length (dados self) =? NUM_TENTATIVAS)%nat.

End Design.

Definition NUM_TENTATIVAS : nat := 100.
Definition NUM_BLOCOS : nat := 5.

End IGT.

(** ** Vocabulary of the statements, and example sessions *)

Module Spec.
Import Py.
Local Open Scope Z_scope.
Local Open Scope py_scope.

(** The value of a computation that returned, [d] for one that raised. *)
Definition returned {A} (d : A) (r : result A) : A :=
  match r with Ok a => a | Raise _ => d end.

(** The value [_randbelow(n)] returns on [w]. *)
Definition drawn (n : nat) (w : world) : nat :=
  N.to_nat (tape w (cursor w) mod N.of_nat n).

(** The value [random.random()] returns on [w]. *)
Definition coin (w : world) : Q :=
  Z.of_N (tape w (cursor w)) mod Zpos two53 # two53.

(** The records of [log] a (block, condition) group of the analysis
    averages: the correct ones of that block and condition. *)
Definition qualifying (log : list CCT.trial_data) (block : nat) (rep : bool)
  : list CCT.trial_data :=
  filter (fun d => CCT.td_is_correct d = true /\ CCT.td_block d = block
                   /\ CCT.td_is_repeated d = rep) log.

(** [v] is what a line of the per-block table shows for a group: zero
    when the group has no qualifying record, their mean response time
    otherwise. *)
Definition reported (log : list CCT.trial_data) (block : nat) (rep : bool)
    (v : Q) : Prop :=
  let rts := CCT.td_response_time <$> qualifying log block rep in
  (qualifying log block rep = [] -> v = 0%Q) /\
  (qualifying log block rep <> [] ->
     length rts <> 0%nat /\
     v = (CCT.Qsum rts / inject_Z (Z.of_nat (length rts)))%Q).

(** [s] was built by [Stimulus.__init__] with kind [ty], a rotation of the
    rotation set and some grid position. *)
Definition made_by (G : nat) (ty : CCT.stim_kind) (s : CCT.Stimulus) : Prop :=
  exists pos rot, rot ∈ CCT.rotations /\ s = CCT.Stimulus_init G ty pos rot.

(** An environment with small raw random draws (every [random.random()] is
    below 0.5), a clock that advances by one second at each reading, empty
    event batches and no file. *)
Definition w0 : world :=
  World (fun n => N.of_nat (7 * n + 3)) 0 (fun n => inject_Z (Z.of_nat n)) 0
        (fun _ => []) 0 (fun _ => (0, 0)) [].

(** An environment whose raw random draws all have bit 52 set, so that
    every [random.random()] is at least 0.5. *)
Definition w_half : world :=
  World (fun n => (4503599627370496 + N.of_nat (7 * n + 3))%N) 0
        (fun n => inject_Z (Z.of_nat n)) 0
        (fun _ => []) 0 (fun _ => (0, 0)) [].

(** A session of a reduced design (2 x 2 grid, 2 items, 2 repeated and 2
    novel configurations, 1 block) after [setup_experiment]. *)
Definition demo_setup : result CCT.Experiment * world :=
  CCT.setup_experiment 2 2 2 2 1 CCT.Experiment_init w_half.
Definition demo_state : CCT.Experiment :=
  returned CCT.Experiment_init (fst demo_setup).
Definition demo_world : world := snd demo_setup.

(** A configuration of the full design (6 x 6 grid, 12 items) generated on
    [w0]: its target is at cell (0, 3), drawn around the pixel (200, 340),
    and a distractor is drawn around (280, 420). *)
Definition demo_config : CCT.Configuration :=
  returned
    (CCT.mkConfiguration 0 false [] (CCT.Stimulus_init 6 CCT.T (0, 0) 0))
    (fst (CCT.Configuration_init 6 12 (-1) false w0)).

(** A session of the full design showing [demo_config] as the third trial
    of the first block, the display having started at time 1/4. *)
Definition demo_trial : CCT.Experiment :=
  CCT.mkExperiment "p01" [] [] 0 2 120 CCT.st_trial (Some demo_config)
    (1 # 4) 0 (1 # 2).

(** [w0] after the generation of [demo_config] and two readings of the
    clock: the next reading gives 2. *)
Definition w0_trial : world :=
  World (tape w0) 24 (clock w0) 2 (queue w0) 0 (pointer w0) [].

(** A log with one correct record of a repeated configuration in block 1
    and one incorrect record of a novel configuration in block 2. *)
Definition demo_log : list CCT.trial_data :=
  [CCT.mkTrial "p01" 1 1 3 true (3 # 4) true (0, 3);
   CCT.mkTrial "p01" 2 1 (-1) false (5 # 4) false (2, 2)].

Definition demo_finished : CCT.Experiment :=
  CCT.mkExperiment "p01" [] demo_log 5 0 120 CCT.st_end (Some demo_config)
    0 0 (1 # 2).

(** A session in its second block with the two records of [demo_log],
    and an environment where the window is closed. *)
Definition demo_recorded : CCT.Experiment :=
  CCT.mkExperiment "p01" [] demo_log 1 1 120 CCT.st_trial (Some demo_config)
    (1 # 4) 0 (1 # 2).

Definition w_quit : world :=
  World (tape w0) 24 (clock w0) 2 (fun _ => [QUIT]) 0 (pointer w0) [].

(** The abort signals: the window is closed, or ESCAPE is pressed. *)
Definition is_abort (ev : event) : Prop :=
  ev = QUIT \/ ev = KEYDOWN K_ESCAPE.

Definition is_escape (ev : event) : bool :=
  match ev with KEYDOWN K_ESCAPE => true | _ => false end.

Definition is_click (ev : event) : bool :=
  match ev with MOUSEBUTTONDOWN _ _ => true | _ => false end.

(** The environment [w] after the files [fs] were written. *)
Definition wrote (fs : list file) (w : world) : world :=
  World (tape w) (cursor w) (clock w) (ticks w) (queue w) (polls w)
        (pointer w) (files w ++ fs).

(** The environment [w] after [n] more polls of the event queue. *)
Definition polled (n : nat) (w : world) : world :=
  World (tape w) (cursor w) (clock w) (ticks w) (queue w) (n + polls w)
        (pointer w) (files w).

(** A left click at [pos] is a response to the display [c]: the point is
    in the hit region of its target or of one of its stimuli. *)
Definition responds (c : CCT.Configuration) (pos : Z * Z) : bool :=
  CCT.contains_point (CCT.target c) pos
  || existsb (fun stim => CCT.contains_point stim pos) (CCT.stimuli c).

(** An event of a trial showing [c] that is neither the closing of the
    window nor a response. *)
Definition no_response (c : CCT.Configuration) (ev : event) : Prop :=
  match ev with
  | QUIT => False
  | MOUSEBUTTONDOWN button pos => button = 1 -> responds c pos = false
  | _ => True
  end.

(** An event that leaves the end screen waiting, and a batch of events
    that dismisses it: SPACE or ESCAPE is pressed and the window is not
    closed. *)
Definition end_idle (ev : event) : Prop :=
  match ev with
  | QUIT | KEYDOWN K_SPACE | KEYDOWN K_ESCAPE => False
  | _ => True
  end.

Definition dismisses (evs : list event) : Prop :=
  (QUIT ∉ evs) /\ (KEYDOWN K_SPACE ∈ evs \/ KEYDOWN K_ESCAPE ∈ evs).

(** *** The Iowa Gambling Task *)

(** [z] is a C [int]. *)
Definition fits_int (z : Z) : Prop := - 2 ^ 31 <= z < 2 ^ 31.

(** The rectangle of the deck at position [i] when the first one is
    at [(x0, y)]. *)
Definition deck_rect (x0 y : Z) (i : nat) : Rect :=
  mkRect (x0 + Z.of_nat i * 200) y 160 240.

(** [o] is an outcome the deck [b] can produce: its constant reward, no
    loss or one of its loss values, and their difference. *)
Definition outcome_ok (b : IGT.deck) (o : IGT.outcome) : Prop :=
  let '(recompensa, perda, liquido) := o in
  recompensa = IGT.recompensa b /\
  (perda = 0 \/ perda ∈ IGT.valores_perda b) /\
  liquido = recompensa - perda.

(** The decks good and bad in the long run, and the score of one pick. *)
Definition advantageous (d : IGT.dado) : bool :=
  bool_decide (IGT.d_baralho d ∈ ["C"; "D"]%string).
Definition disadvantageous (d : IGT.dado) : bool :=
  bool_decide (IGT.d_baralho d ∈ ["A"; "B"]%string).
Definition pick_score (d : IGT.dado) : Z :=
  if advantageous d then 1 else if disadvantageous d then -1 else 0.

Definition count_picks (p : IGT.dado -> bool) (dados : list IGT.dado) : Z :=
  Z.of_nat (length (List.filter p dados)).

(** What the trial of index [i] adds to the score of block [b], blocks
    being [size] trials long: its pick's score when [i] is a planned trial
    of that block, nothing otherwise. *)
Definition contribution (total size b i : nat) (d : IGT.dado) : Z :=
  if (i <? total)%nat && (i / size =? b)%nat then pick_score d else 0.

(** The score of block [b] by the partition of the trial indices. *)
Definition block_score (total size b : nat) (dados : list IGT.dado) : Z :=
  foldr Z.add 0 (imap (contribution total size b) dados).

(** A time stamp, a file system that lets every file be created, and
    one where the data directory has no sub-directory: a name with a
    second separator is refused. *)
Definition ts0 : string := "20250101_120000".

Definition fs_any : string -> option exn := fun _ => None.

Definition fs_flat (name : string) : option exn :=
  if (1 <? length (List.filter (fun c => String.eqb (String c "") "/")
                     (list_ascii_of_string name)))%nat
  then Some OSError else None.

(** The table and the summary of a session as [_salvar_dados] writes
    them, and what the summary holds beside the results. *)
Definition igt_table (self : IGT.IowaGamblingTask) : file :=
  Csv IGT.campos (IGT.csv_row <$> IGT.dados self).




(** The environment [w] after [n] more readings of the clock. *)
Definition later (n : nat) (w : world) : world :=
  World (tape w) (cursor w) (clock w) (n + ticks w) (queue w) (polls w)
        (pointer w) (files w).

(** [n] iterations of the loop of [executar], whatever [executando]. *)
Fixpoint frames (N B n : nat) (self : IGT.IowaGamblingTask)
  : M IGT.IowaGamblingTask :=
  match n with
  | O => ret self
  | S n' => self <- IGT.frame N B self ;; frames N B n' self
  end.

(** A session of the program's design (100 trials, 5 blocks) on an
    environment where the participant presses SPACE on the instructions,
    picks deck A (pointer at (200, 300)) twice and then closes the window.
    The clock reads 10 when the decks are first shown, 11 at the first
    pick, 12 and 12.6 while its feedback is shown, 13.6 at the second pick
    and 20 afterwards. *)
Definition igt_world : world :=
  World (tape w0) 0
    (fun n => nth n [10; 11; 11; 12; 63 # 5; 68 # 5; 68 # 5] 20)%Q 0
    (fun n => nth n [[KEYDOWN K_SPACE]; [MOUSEBUTTONDOWN 1 (200, 300)];
                     [MOUSEBUTTONDOWN 1 (200, 300)]; [QUIT]] []) 0
    (fun _ => (200, 300)) [].

Definition igt_setup : result IGT.IowaGamblingTask * world :=
  IGT.IowaGamblingTask_init 100 "p01" false igt_world.

Definition igt_blank : IGT.IowaGamblingTask :=
  IGT.mkIGT "" 0 0 [] 0 0 [] [] [] ∅ IGT.instrucoes None 0 false None.

Definition igt_start : IGT.IowaGamblingTask :=
  returned igt_blank (fst igt_setup).

(** The session and the environment after [n] iterations of the loop. *)
Definition igt_at (n : nat) : M IGT.IowaGamblingTask :=
  frames 100 5 n igt_start.
Definition igt_state (n : nat) : IGT.IowaGamblingTask :=
  returned igt_blank (fst (igt_at n (snd igt_setup))).
Definition igt_env (n : nat) : world := snd (igt_at n (snd igt_setup)).

(** A log of seven picks, for a design of 7 trials in 3 blocks: blocks of
    2 trials, the seventh trial in none. *)
Definition igt_pick (i : nat) (b : string) : IGT.dado :=
  IGT.mkDado i b 0 0 0 0 0.
Definition igt_seven : IGT.IowaGamblingTask :=
  IGT.mkIGT "p01" 2000 7
    [igt_pick 1 "A"; igt_pick 2 "C"; igt_pick 3 "C"; igt_pick 4 "D";
     igt_pick 5 "B"; igt_pick 6 "D"; igt_pick 7 "C"]
    0 0 [] [] [] ∅ IGT.resultados None 0 true None.

(** The session after the pick of [baralho] in the session [self], when
    the schedule gives the outcome [o], the clock reads [agora] at the pick
    and [inicio_feedback] when the feedback starts. *)
Definition picked (N : nat) (self : IGT.IowaGamblingTask) (baralho : string)
    (o : IGT.outcome) (agora inicio_feedback : Q) : IGT.IowaGamblingTask :=
  let '(recompensa, perda, liquido) := o in
  IGT.mkIGT (IGT.participante_id self) (IGT.dinheiro self + liquido)
    (IGT.tentativa_atual self + 1)
    (IGT.dados self ++
     [IGT.mkDado (IGT.tentativa_atual self + 1) baralho recompensa perda
        liquido (IGT.dinheiro self + liquido)
        (round3 (fsub agora (IGT.tempo_inicio self)))])
    agora (fsub agora (IGT.tempo_inicio self)) (IGT.posicoes_baralhos self)
    (IGT.baralhos self) (IGT.retangulos_baralhos self)
    (IGT.resultados_baralhos self)
    (if (N <=? IGT.tentativa_atual self + 1)%nat then IGT.resultados
     else IGT.feedback)
    (Some (baralho, (recompensa, perda, liquido))) inicio_feedback
    (IGT.executando self) (IGT.botao_continuar self).

End Spec.

(** ** tarefa3/tarefa3.py: the entry of the participant's identifier *)

Module Entry.
Import Py.
Local Open Scope Z_scope.

(** A text is a sequence of code points. A key press carries the key and
    the text it produces ([event.unicode]). *)
Definition text : Type := list N.

Inductive key_event : Type :=
| KQUIT
| KKEYDOWN (k : key) (unicode : text)
| KOther.

Section Unicode.

(** The classes of the Unicode database behind [str.isalnum] and
    [str.isspace]. *)
Variables alnum space : N -> bool.

(** [s.isalnum()] and [s.isspace()]: false on the empty string. *)
Definition isalnum (s : text) : bool :=
  match s with [] => false | _ => forallb alnum s end.
Definition isspace (s : text) : bool :=
  match s with [] => false | _ => forallb space s end.

(** The variables of the loop of [Experiment.get_participant_info]. *)
Record entry : Type := mkEntry {
  input_active : bool;
  input_text : text;
  participant_id : text
}.

(** The body of the [for event in pygame.event.get()] loop. *)
Definition handle_key (st : entry) (ev : key_event) : result entry :=
  match ev with
  | KQUIT => Raise SystemExit
  | KKEYDOWN k unicode =>
      if match k with K_RETURN => true | _ => false end
         && negb (bool_decide (input_text st = []))
      then Ok (mkEntry false (input_text st) (input_text st))
      else if match k with K_BACKSPACE => true | _ => false end
      then Ok (mkEntry (input_active st)
                 (take (length (input_text st) - 1) (input_text st))
                 (participant_id st))
      else if (length (input_text st) <? 20)%nat
      then if isalnum unicode || isspace unicode
           then Ok (mkEntry (input_active st) (input_text st ++ unicode)
                      (participant_id st))
           else Ok st
      else Ok st
  | KOther => Ok st
  end.

Fixpoint handle_keys (evs : list key_event) (st : entry) : result entry :=
  match evs with
  | [] => Ok st
  | ev :: evs' =>
      match handle_key st ev with
      | Ok st' => handle_keys evs' st'
      | Raise e => Raise e
      end
  end.

(** The [while input_active] loop on the successive batches of events;
    it is still waiting when the batches run out. *)
Fixpoint entry_loop (batches : list (list key_event)) (st : entry)
  : result entry :=
  match batches with
  | [] => Raise Blocked
  | evs :: batches' =>
      match handle_keys evs st with
      | Ok st' => if input_active st' then entry_loop batches' st' else Ok st'
      | Raise e => Raise e
      end
  end.

(** [Experiment.get_participant_info]: the new [participant_id]. *)
Definition get_participant_info (batches : list (list key_event))
  : result text :=
  match entry_loop batches (mkEntry true [] []) with
  | Ok st => Ok (participant_id st)
  | Raise e => Raise e
  end.

(** A character the entry box accepts, batches whose key presses produce
    at most one character each, and what the loop keeps true of its
    variables. *)
Definition accepted (c : N) : Prop := alnum c || space c = true.

Definition single_chars (batches : list (list key_event)) : Prop :=
  forall evs k u, evs ∈ batches -> KKEYDOWN k u ∈ evs -> (length u <= 1)%nat.

Definition entry_ok (st : entry) : Prop :=
  (length (input_text st) <= 20)%nat /\
  Forall accepted (input_text st) /\
  (input_active st = false ->
   participant_id st <> [] /\
   (length (participant_id st) <= 20)%nat /\
   Forall accepted (participant_id st)).

End Unicode.

End Entry.

(** ** Vocabulary of the further statements *)

Module Props.
Import Py.
Local Open Scope Z_scope.

(** A configuration of [K] stimuli on distinct cells with its target
    first. *)
Definition well_formed (K : nat) (c : CCT.Configuration) : Prop :=
  length (CCT.stimuli c) = K /\
  NoDup (CCT.position <$> CCT.stimuli c) /\
  CCT.stimuli c !! 0%nat = Some (CCT.target c).

(** The sum of the net results of a log. *)
Definition total_liquido (dados : list IGT.dado) : Z :=
  foldr Z.add 0 (IGT.d_liquido <$> dados).

(** The log and the balance agree: one record per trial made, numbered
    from 1, each holding the balance after it, the last one the current
    balance. *)
Definition balanced (inicial : Z) (self : IGT.IowaGamblingTask) : Prop :=
  IGT.tentativa_atual self = length (IGT.dados self) /\
  IGT.dinheiro self = inicial + total_liquido (IGT.dados self) /\
  forall i d, IGT.dados self !! i = Some d ->
    IGT.d_tentativa d = S i /\
    IGT.d_dinheiro_total d
    = inicial + total_liquido (take (S i) (IGT.dados self)).

(** [r] lies in a window of the given size. *)
Definition inside (largura altura : Z) (r : Rect) : Prop :=
  0 <= left r /\ left r + width r <= largura /\
  0 <= top r /\ top r + height r <= altura.

(** A session at its last trial (the schedule of deck A has four
    entries and three picks are made), and an environment where two
    clicks on deck A arrive in one batch. *)
Definition igt_last : IGT.IowaGamblingTask :=
  IGT.mkIGT "p01" 2000 3
    [Spec.igt_pick 1 "A"; Spec.igt_pick 2 "C"; Spec.igt_pick 3 "C"]
    5 1 ["A"; "B"; "C"; "D"]%string []
    (Spec.returned []
       (fst (IGT._criar_retangulos_baralhos IGT.LARGURA_TELA IGT.ALTURA_TELA
               ["A"; "B"; "C"; "D"]%string Spec.w0)))
    (<["A"%string := [(100, 0, 100); (100, 150, -50); (100, 0, 100);
                      (100, 0, 100)]]> ∅)
    IGT.principal None 0 true None.

Definition w_double : world :=
  World (tape Spec.w0) 0 (clock Spec.w0) 9
    (fun _ => [MOUSEBUTTONDOWN 1 (200, 300); MOUSEBUTTONDOWN 1 (200, 300)]) 0
    (fun _ => (200, 300)) [].

(** The reduced session of [Spec.demo_state] at the start of a fixation,
    and an environment whose clock reads 1, 1.2, 1.6 and then 2. *)
Definition demo_fixation : CCT.Experiment :=
  CCT.set_state CCT.st_fixation Spec.demo_state.

Definition w_fix : world :=
  World (tape Spec.demo_world) (cursor Spec.demo_world)
    (fun n => nth n [1; 6 # 5; 8 # 5] 2)%Q 0
    (fun _ => []) 0 (pointer Spec.w0) [].



(** A new session with shuffled decks. *)
Definition igt_shuffled : result IGT.IowaGamblingTask * world :=
  IGT.IowaGamblingTask_init 100 "p01" true Spec.w0.

End Props.

(** * Proofs *)

Import Py Spec.
Local Open Scope py_scope.

(** ** Reasoning about the runtime *)

Section Monad.
Context {A B : Type}.

Lemma bind_Ok (m : M A) (f : A -> M B) (w w' : world) (b : B) :
  bind m f w = (Ok b, w') ->
  exists a w1, m w = (Ok a, w1) /\ f a w1 = (Ok b, w').
Proof.
  unfold bind. destruct (m w) as [[a|e] w1]; [eauto | discriminate].
Qed.

Lemma bind_eq (m : M A) (f : A -> M B) (w w1 : world) (a : A) :
  m w = (Ok a, w1) -> bind m f w = f a w1.
Proof. unfold bind. now intros ->. Qed.

Lemma bind_Raise (m : M A) (f : A -> M B) (w w1 : world) (e : exn) :
  m w = (Raise e, w1) -> bind m f w = (Raise e, w1).
Proof. unfold bind. now intros ->. Qed.

End Monad.

Lemma Ok_inj {A} (a a' : A) (w w' : world) :
  (Ok a, w) = (Ok a', w') -> a = a' /\ w = w'.
Proof. intros H. injection H as -> ->. split; reflexivity. Qed.

Lemma for_each_cons {A S} (x : A) (xs : list A) (body : S -> A -> M S)
    (acc : S) :
  for_each (x :: xs) body acc =
  (acc' <- body acc x ;; for_each xs body acc').
Proof. reflexivity. Qed.

Ltac inv_bind H :=
  let a := fresh "a" in
  let v := fresh "v" in
  let H1 := fresh "H" in
  apply bind_Ok in H as (a & v & H1 & H).

Lemma for_each_inv {A S} (P : S -> world -> Prop) (body : S -> A -> M S)
    (xs : list A) :
  (forall acc x w acc' w', P acc w -> body acc x w = (Ok acc', w') -> P acc' w') ->
  forall acc w acc' w',
    P acc w -> for_each xs body acc w = (Ok acc', w') -> P acc' w'.
Proof.
  intros Hb. induction xs as [|x xs IH]; intros acc w acc' w' HP H.
  - injection H as <- <-. exact HP.
  - rewrite for_each_cons in H. inv_bind H.
    eapply IH; [|exact H]. eapply Hb; eassumption.
Qed.

Lemma getitem_Ok {A} (l : list A) (i : nat) (w w' : world) (a : A) :
  getitem l i w = (Ok a, w') <-> l !! i = Some a /\ w' = w.
Proof.
  unfold getitem. destruct (l !! i); unfold ret, raise; split.
  - intros [= -> ->]. done.
  - intros [[= ->] ->]. done.
  - discriminate.
  - intros [? _]. discriminate.
Qed.

Lemma getitem_lookup {A} (l : list A) (i : nat) (w : world) (a : A) :
  l !! i = Some a -> getitem l i w = (Ok a, w).
Proof. intros. apply getitem_Ok. done. Qed.

Lemma randbelow_eq (n : nat) (w : world) :
  randbelow n w = (Ok (drawn n w), snd (next_raw w)).
Proof. reflexivity. Qed.

Lemma drawn_lt (n : nat) (w : world) : (0 < n)%nat -> (drawn n w < n)%nat.
Proof.
  intros Hn. unfold drawn.
  pose proof (N.mod_lt (tape w (cursor w)) (N.of_nat n)). lia.
Qed.

(** [random.choice] on a non-empty list returns one of its elements. *)
Lemma choice_Ok {A} (l : list A) (w : world) :
  l <> [] -> exists a, a ∈ l /\ choice l w = (Ok a, snd (next_raw w)).
Proof.
  intros Hl. destruct l as [|a0 l0]; [done|]. unfold choice.
  set (l := a0 :: l0) in *. rewrite (bind_eq _ _ _ _ _ (randbelow_eq _ w)).
  assert (Hlt : (drawn (length l) w < length l)%nat).
  { apply drawn_lt. subst l. simpl. lia. }
  destruct (lookup_lt_is_Some_2 _ _ Hlt) as [a Ha].
  exists a. split; [by eapply list_elem_of_lookup_2|].
  by apply getitem_lookup.
Qed.

Lemma choice_inv {A} (l : list A) (w w' : world) (a : A) :
  choice l w = (Ok a, w') -> a ∈ l.
Proof.
  destruct l as [|a0 l0]; [discriminate|]. intros H.
  destruct (choice_Ok (a0 :: l0) w) as (a' & Hin & Heq); [done|].
  rewrite H in Heq. by injection Heq as -> _.
Qed.

(** *** Sampling without replacement *)

Lemma pool_step {A} (pool : list A) (m j : nat) (x y : A) :
  (j < S m)%nat -> pool !! j = Some x -> pool !! m = Some y ->
  take (S m) pool ≡ₚ x :: take m (<[j := y]> pool).
Proof.
  intros Hj Hx Hy. rewrite (take_S_r _ _ _ Hy).
  destruct (decide (j = m)) as [->|Hne].
  - rewrite take_insert_ge by lia. assert (x = y) by congruence. subst.
    by rewrite Permutation_app_comm.
  - assert (Hjm : (j < m)%nat) by lia.
    rewrite take_insert_lt by done.
    assert (Hl : take m pool !! j = Some x) by (by rewrite lookup_take_lt).
    rewrite insert_take_drop by (by eapply lookup_lt_Some).
    rewrite <- (take_drop_middle _ _ _ Hl) at 1.
    generalize (take j (take m pool)) (drop (S j) (take m pool)).
    intros l1 l2. rewrite <- app_assoc. simpl.
    rewrite <- (Permutation_middle l1 (l2 ++ [y]) x).
    rewrite <- (Permutation_middle l1 l2 y).
    apply perm_skip. rewrite (Permutation_app_comm l2 [y]). simpl.
    by rewrite <- (Permutation_middle l1 l2 y).
Qed.

Lemma sample_pool_total {A} (k : nat) :
  forall (pool : list A) (m : nat) (w : world),
    (k <= m <= length pool)%nat ->
    exists sel w', sample_pool pool m k w = (Ok sel, w').
Proof.
  induction k as [|k IH]; intros pool m w [Hk Hm]; simpl.
  - eexists _, _. reflexivity.
  - rewrite (bind_eq _ _ _ _ _ (randbelow_eq _ w)).
    set (j := drawn m w).
    assert (Hj : (j < m)%nat) by (apply drawn_lt; lia).
    destruct (lookup_lt_is_Some_2 pool j) as [x Hx]; [lia|].
    destruct (lookup_lt_is_Some_2 pool (m - 1)) as [y Hy]; [lia|].
    rewrite (bind_eq _ _ _ _ _ (getitem_lookup _ _ _ _ Hx)).
    rewrite (bind_eq _ _ _ _ _ (getitem_lookup _ _ _ _ Hy)).
    destruct (IH (<[j := y]> pool) (m - 1)%nat (snd (next_raw w)))
      as (rest & w' & Hrest).
    { rewrite length_insert. lia. }
    rewrite (bind_eq _ _ _ _ _ Hrest). eexists _, _. reflexivity.
Qed.

Lemma sample_pool_perm {A} (k : nat) :
  forall (pool sel : list A) (m : nat) (w w' : world),
    (k <= m <= length pool)%nat ->
    sample_pool pool m k w = (Ok sel, w') ->
    length sel = k /\ exists rest, take m pool ≡ₚ sel ++ rest.
Proof.
  induction k as [|k IH]; intros pool sel m w w' Hm; simpl.
  - intros [= <- <-]. split; [done|]. by exists (take m pool).
  - intros H.
    apply bind_Ok in H as (j & w1 & Hj & H).
    apply bind_Ok in H as (x & w2 & Hx & H).
    apply bind_Ok in H as (y & w3 & Hy & H).
    apply bind_Ok in H as (rest & w4 & Hrest & H).
    injection H as <- <-.
    apply getitem_Ok in Hx as [Hx ->]. apply getitem_Ok in Hy as [Hy ->].
    rewrite randbelow_eq in Hj. injection Hj as <- <-.
    assert (Hlt : (drawn m w < S (m - 1))%nat).
    { replace (S (m - 1)) with m by lia. apply drawn_lt; lia. }
    apply IH in Hrest as [Hlen [tl Htl]]; [|rewrite length_insert; lia].
    split; [simpl; lia|]. exists tl.
    replace m with (S (m - 1)) at 1 by lia.
    rewrite (pool_step _ _ _ _ _ Hlt Hx Hy). simpl. by rewrite Htl.
Qed.

(** [random.sample] raises exactly when the sample is larger than the
    population, and otherwise returns [k] distinct items of it. *)
Lemma sample_spec {A} (population : list A) (k : nat) (w : world) :
  match sample population k w with
  | (Ok sel, _) =>
      (k <= length population)%nat /\ length sel = k /\
      (NoDup population -> NoDup sel) /\ sel ⊆ population
  | (Raise e, _) => e = ValueError /\ (length population < k)%nat
  end.
Proof.
  unfold sample. destruct (Nat.ltb_spec (length population) k) as [Hlt|Hle].
  - done.
  - destruct (sample_pool_total k population (length population) w)
      as (sel & w' & Hs); [lia|].
    rewrite Hs. apply sample_pool_perm in Hs as [Hlen [rest Hperm]]; [|lia].
    rewrite firstn_all in Hperm. split_and!; [done..| |].
    + intros Hnd. rewrite Hperm in Hnd. by apply NoDup_app in Hnd as [? _].
    + intros x Hx. rewrite Hperm. apply elem_of_app. by left.
Qed.

(** ** The Contextual Cueing Task *)

Import CCT.

Lemma elem_of_range (n : nat) (z : Z) : z ∈ range n <-> 0 <= z < Z.of_nat n.
Proof.
  unfold range. rewrite list_elem_of_fmap. split.
  - intros (i & -> & Hi). apply elem_of_seq in Hi. lia.
  - intros Hz. exists (Z.to_nat z). split; [lia|]. apply elem_of_seq. lia.
Qed.

Lemma NoDup_range (n : nat) : NoDup (range n).
Proof.
  unfold range. apply NoDup_fmap_2_strong; [|apply NoDup_seq].
  intros x y _ _ Hxy. lia.
Qed.

Lemma length_bind_const {A B} (f : A -> list B) (c : nat) (l : list A) :
  (forall x, length (f x) = c) -> length (l ≫= f) = (length l * c)%nat.
Proof.
  intros Hf. induction l as [|x l IH]; [done|].
  rewrite bind_cons, length_app, Hf, IH. simpl. lia.
Qed.

Lemma length_grid_positions (G : nat) : length (grid_positions G) = (G * G)%nat.
Proof.
  unfold grid_positions.
  rewrite (length_bind_const _ G).
  - unfold range. by rewrite length_fmap, length_seq.
  - intros x. rewrite (length_bind_const _ 1%nat); [|done].
    unfold range. rewrite length_fmap, length_seq. lia.
Qed.

Lemma elem_of_grid_positions (G : nat) (p : Z * Z) :
  p ∈ grid_positions G <->
  0 <= fst p < Z.of_nat G /\ 0 <= snd p < Z.of_nat G.
Proof.
  unfold grid_positions. rewrite list_elem_of_bind. split.
  - intros (x & Hp & Hx). apply list_elem_of_bind in Hp as (y & Hp & Hy).
    apply list_elem_of_singleton in Hp as ->. simpl.
    by rewrite <- !elem_of_range.
  - intros [Hx Hy]. exists (fst p). rewrite elem_of_range. split; [|done].
    apply list_elem_of_bind. exists (snd p). rewrite elem_of_range.
    split; [|done]. destruct p. simpl. by apply list_elem_of_singleton.
Qed.

Lemma NoDup_grid_positions (G : nat) : NoDup (grid_positions G).
Proof.
  unfold grid_positions. apply NoDup_bind; [| |apply NoDup_range].
  - intros x1 x2 p _ _ H1 H2.
    apply list_elem_of_bind in H1 as (y1 & H1 & _).
    apply list_elem_of_bind in H2 as (y2 & H2 & _).
    apply list_elem_of_singleton in H1, H2. congruence.
  - intros x _. apply NoDup_bind; [| |apply NoDup_range].
    + intros y1 y2 p _ _ H1 H2.
      apply list_elem_of_singleton in H1, H2. congruence.
    + intros y _. apply NoDup_singleton.
Qed.

Section Generator.
Variables GRID_SIZE NUM_ITEMS : nat.

Lemma distractor_loop (sel : list (Z * Z)) (n : nat) :
  forall (a : nat) (acc : list Stimulus) (w : world),
    (a + n <= length sel)%nat ->
    exists ds w',
      for_each (seq a n)
        (fun stimuli i =>
           distractor_pos <- getitem sel i ;;
           distractor_rotation <- choice rotations ;;
           ret (stimuli ++
                [Stimulus_init GRID_SIZE L distractor_pos distractor_rotation]))
        acc w = (Ok (acc ++ ds), w') /\
      position <$> ds = take n (drop a sel) /\
      Forall (fun s => made_by GRID_SIZE L s) ds.
Proof.
  induction n as [|n IH]; intros a acc w Hlen.
  - exists [], w. rewrite app_nil_r, take_0. done.
  - destruct (lookup_lt_is_Some_2 sel a) as [p Hp]; [lia|].
    destruct (choice_Ok rotations w) as (r & Hr & Hc); [done|].
    destruct (IH (S a) (acc ++ [Stimulus_init GRID_SIZE L p r]) (snd (next_raw w)))
      as (ds & w' & Hloop & Hpos & Hall); [lia|].
    exists (Stimulus_init GRID_SIZE L p r :: ds), w'. split_and!.
    + rewrite <- cons_seq, for_each_cons.
      erewrite bind_eq; [rewrite Hloop; by rewrite <- app_assoc|].
      cbv beta.
      rewrite (bind_eq _ _ _ _ _ (getitem_lookup _ _ _ _ Hp)).
      by rewrite (bind_eq _ _ _ _ _ Hc).
    + rewrite fmap_cons, Hpos. simpl.
      rewrite (drop_S _ _ _ Hp). done.
    + constructor; [|done]. by exists p, r.
Qed.

(** What [Configuration.generate] returns, on every environment. *)
Lemma generate_spec (w : world) :
  match generate GRID_SIZE NUM_ITEMS w with
  | (Ok (stims, tgt), _) =>
      (1 <= NUM_ITEMS <= GRID_SIZE * GRID_SIZE)%nat /\
      exists sel w1 ds,
        sample (grid_positions GRID_SIZE) NUM_ITEMS w = (Ok sel, w1) /\
        position <$> stims = sel /\
        stims = tgt :: ds /\ made_by GRID_SIZE T tgt /\
        Forall (fun s => made_by GRID_SIZE L s) ds
  | (Raise e, _) =>
      (e = ValueError /\ (GRID_SIZE * GRID_SIZE < NUM_ITEMS)%nat) \/
      (e = IndexError /\ NUM_ITEMS = 0%nat)
  end.
Proof.
  unfold generate.
  pose proof (sample_spec (grid_positions GRID_SIZE) NUM_ITEMS w) as Hs.
  rewrite length_grid_positions in Hs.
  destruct (sample (grid_positions GRID_SIZE) NUM_ITEMS w) as [[sel|e] w1] eqn:Es.
  - rewrite (bind_eq _ _ _ _ _ Es).
    destruct Hs as (Hk & Hlen & _ & _).
    destruct sel as [|p sel'].
    + simpl. right. done.
    + rewrite (bind_eq _ _ w1 _ _ (getitem_lookup (p :: sel') 0 w1 p eq_refl)).
      destruct (choice_Ok rotations w1) as (r & Hr & Hc); [done|].
      rewrite (bind_eq _ _ _ _ _ Hc).
      destruct (distractor_loop (p :: sel') (NUM_ITEMS - 1) 1
                  [Stimulus_init GRID_SIZE T p r] (snd (next_raw w1)))
        as (ds & w' & Hloop & Hpos & Hall); [simpl in *; lia|].
      unfold range_from.
      rewrite (bind_eq _ _ _ _ _ Hloop). simpl.
      split; [simpl in Hlen; lia|].
      exists (p :: sel'), w1, ds. split_and!; try done; [|by exists p, r].
      f_equal. change (position <$> ds = sel'). rewrite Hpos. simpl.
      rewrite drop_0. apply take_ge. simpl in Hlen. lia.
  - rewrite (bind_Raise _ _ _ _ _ Es). left. done.
Qed.

End Generator.

Lemma made_by_fields (G : nat) (ty : stim_kind) (s : Stimulus) :
  made_by G ty s ->
  stim_type s = ty /\ rotation s ∈ rotations /\
  screen_pos s = screen_pos (Stimulus_init G ty (position s) 0).
Proof. intros (pos & rot & Hrot & ->). done. Qed.

Lemma Configuration_init_spec (G K : nat) (id : Z) (rep : bool) (w : world) :
  match Configuration_init G K id rep w with
  | (Ok cfg, _) =>
      config_id cfg = id /\ is_repeated cfg = rep /\
      (1 <= K <= G * G)%nat /\
      exists sel w1 ds,
        sample (grid_positions G) K w = (Ok sel, w1) /\
        position <$> stimuli cfg = sel /\
        stimuli cfg = target cfg :: ds /\ made_by G T (target cfg) /\
        Forall (fun s => made_by G L s) ds
  | (Raise e, _) =>
      (e = ValueError /\ (G * G < K)%nat) \/ (e = IndexError /\ K = 0%nat)
  end.
Proof.
  unfold Configuration_init. pose proof (generate_spec G K w) as Hg.
  destruct (generate G K w) as [[[stims tgt]|e] w1] eqn:Eg.
  - rewrite (bind_eq _ _ _ _ _ Eg). simpl. tauto.
  - by rewrite (bind_Raise _ _ _ _ _ Eg).
Qed.

(** The cells of a generated configuration: as many as its stimuli,
    distinct, and cells of the grid. *)
Lemma Configuration_init_cells (G K : nat) (id : Z) (rep : bool)
    (w : world) (cfg : Configuration) (w' : world) :
  Configuration_init G K id rep w = (Ok cfg, w') ->
  length (stimuli cfg) = K /\
  NoDup (position <$> stimuli cfg) /\
  position <$> stimuli cfg ⊆ grid_positions G.
Proof.
  intros Hc.
  pose proof (Configuration_init_spec G K id rep w) as Hs. rewrite Hc in Hs.
  pose proof (sample_spec (grid_positions G) K w) as Hsam.
  destruct Hs as (_ & _ & _ & sel & w1 & ds & Hsel & Hpos & _).
  rewrite Hsel in Hsam. destruct Hsam as (_ & Hlen & Hnd & Hsub).
  rewrite <- Hpos in *. split_and!.
  - by rewrite length_fmap in Hlen.
  - apply Hnd, NoDup_grid_positions.
  - exact Hsub.
Qed.

(** C1. Every configuration that [Configuration.generate] produces occupies
    exactly NUM_ITEMS distinct cells of the grid, its only 'T' stimulus is
    the target, placed first on the first sampled cell, and every rotation
    is one of 0, 90, 180, 270; generation raises [ValueError] when NUM_ITEMS
    exceeds GRID_SIZE squared, and returns a configuration whenever
    1 <= NUM_ITEMS <= GRID_SIZE squared. *)
Theorem generate_distinct_cells_one_target
    (G K : nat) (id : Z) (rep : bool) (w : world) :
  ((G * G < K)%nat ->
   fst (Configuration_init G K id rep w) = Raise ValueError) /\
  ((1 <= K <= G * G)%nat ->
   exists cfg w', Configuration_init G K id rep w = (Ok cfg, w')) /\
  (forall cfg w',
     Configuration_init G K id rep w = (Ok cfg, w') ->
     (K <= G * G)%nat /\
     length (stimuli cfg) = K /\
     NoDup (position <$> stimuli cfg) /\
     size (list_to_set (position <$> stimuli cfg) : gset (Z * Z)) = K /\
     position <$> stimuli cfg ⊆ grid_positions G /\
     (exists w1, sample (grid_positions G) K w
                 = (Ok (position <$> stimuli cfg), w1)) /\
     stimuli cfg !! 0%nat = Some (target cfg) /\
     filter (fun s => stim_type s = T) (stimuli cfg) = [target cfg] /\
     Forall (fun s => rotation s ∈ rotations) (stimuli cfg)).
Proof.
  pose proof (Configuration_init_spec G K id rep w) as Hs.
  pose proof (sample_spec (grid_positions G) K w) as Hsam.
  destruct (Configuration_init G K id rep w) as [[cfg|e] w2] eqn:Ec; split_and!.
  - intros Hlt. lia.
  - intros _. by exists cfg, w2.
  - intros cfg' w' [= <- <-].
    destruct Hs as (_ & _ & HK & sel & w1 & ds & Hsel & Hpos & Hst & Ht & Hds).
    rewrite Hsel in Hsam. destruct Hsam as (_ & Hlen & Hnd & Hsub).
    specialize (Hnd (NoDup_grid_positions G)). rewrite <- Hpos in *.
    split_and!; try done.
    + lia.
    + by rewrite length_fmap in Hlen.
    + by rewrite size_list_to_set.
    + by exists w1.
    + by rewrite Hst.
    + rewrite Hst, filter_cons_True by by apply made_by_fields in Ht as [? _].
      f_equal. clear -Hds. induction Hds as [|s ds Hs _ IH]; [done|].
      apply made_by_fields in Hs as [Hs _].
      rewrite filter_cons_False; [done|]. rewrite Hs. done.
    + rewrite Hst. constructor.
      * by apply made_by_fields in Ht as (_ & ? & _).
      * eapply Forall_impl; [exact Hds|]. intros s Hs.
        by apply made_by_fields in Hs as (_ & ? & _).
  - intros Hlt. simpl. destruct Hs as [[-> _]|[_ ->]]; [done|lia].
  - intros HK. destruct Hs as [[_ ?]|[_ ?]]; lia.
  - intros cfg w' [=].
Qed.

Lemma generate_distinct_cells_one_target_witness :
  fst (Configuration_init 2 5 (-1) false w0) = Raise ValueError /\
  exists cfg w',
    Configuration_init CCT.GRID_SIZE CCT.NUM_ITEMS (-1) false w0 = (Ok cfg, w') /\
    length (stimuli cfg) = 12%nat /\ NoDup (position <$> stimuli cfg).
Proof.
  split.
  - apply (generate_distinct_cells_one_target 2 5 (-1) false w0). simpl. lia.
  - destruct (generate_distinct_cells_one_target
                CCT.GRID_SIZE CCT.NUM_ITEMS (-1) false w0) as (_ & Htot & Hall).
    destruct Htot as (cfg & w' & Hc); [unfold CCT.GRID_SIZE, CCT.NUM_ITEMS; lia|].
    exists cfg, w'. split; [exact Hc|].
    destruct (Hall cfg w' Hc) as (_ & Hlen & Hnd & _). by split.
Defined.

(** *** Hit regions *)

Lemma contains_point_iff (G : nat) (ty : stim_kind) (pos pt : Z * Z) (rot : Z) :
  contains_point (Stimulus_init G ty pos rot) pt = true <->
  (fst pt - (GRID_START_X G + fst pos * 80 + 40)) ^ 2 +
  (snd pt - (GRID_START_Y G + snd pos * 80 + 40)) ^ 2 <= 225.
Proof.
  unfold contains_point, Stimulus_init. destruct pt as [x y]. simpl.
  change (STIM_SIZE / 2) with 15. change (CELL_SIZE / 2) with 40.
  change CELL_SIZE with 80. change (15 ^ 2) with 225.
  apply Z.leb_le.
Qed.

(** Two discs of radius 15 around the centres of two cells share a point
    only if the cells are the same. *)
Lemma hit_same_cell (G : nat) (ty1 ty2 : stim_kind) (p1 p2 pt : Z * Z)
    (r1 r2 : Z) :
  contains_point (Stimulus_init G ty1 p1 r1) pt = true ->
  contains_point (Stimulus_init G ty2 p2 r2) pt = true ->
  p1 = p2.
Proof.
  rewrite !contains_point_iff.
  destruct p1 as [x1 y1], p2 as [x2 y2], pt as [x y]. simpl.
  generalize (GRID_START_X G) (GRID_START_Y G). intros gx gy H1 H2.
  assert (Hx1 : -15 <= x - (gx + x1 * 80 + 40) <= 15) by nia.
  assert (Hy1 : -15 <= y - (gy + y1 * 80 + 40) <= 15) by nia.
  assert (Hx2 : -15 <= x - (gx + x2 * 80 + 40) <= 15) by nia.
  assert (Hy2 : -15 <= y - (gy + y2 * 80 + 40) <= 15) by nia.
  f_equal; lia.
Qed.

(** C10. In every generated configuration the hit regions of two distinct
    stimuli are disjoint: a point inside the region of the stimulus at index
    [i] is outside the region of the stimulus at any other index [j], so a
    click is inside the region of at most one stimulus. *)
Theorem hit_regions_pairwise_disjoint
    (G K : nat) (id : Z) (rep : bool) (w w' : world) (cfg : Configuration)
    (i j : nat) (s1 s2 : Stimulus) (pt : Z * Z) :
  Configuration_init G K id rep w = (Ok cfg, w') ->
  stimuli cfg !! i = Some s1 ->
  stimuli cfg !! j = Some s2 ->
  i <> j ->
  contains_point s1 pt = true ->
  contains_point s2 pt = false.
Proof.
  intros Hc Hi Hj Hne H1.
  destruct (Configuration_init_cells G K id rep w cfg w' Hc) as (_ & Hnd & _).
  pose proof (Configuration_init_spec G K id rep w) as Hs. rewrite Hc in Hs.
  destruct Hs as (_ & _ & _ & sel & w1 & ds & _ & _ & Hst & Ht & Hds).
  assert (Hmade : forall s, s ∈ stimuli cfg -> exists ty, made_by G ty s).
  { intros s. rewrite Hst. intros [->|Hin]%elem_of_cons; [by exists T|].
    exists L. by eapply Forall_forall in Hds. }
  destruct (Hmade s1) as (ty1 & q1 & r1 & _ & ->);
    [by eapply list_elem_of_lookup_2|].
  destruct (Hmade s2) as (ty2 & q2 & r2 & _ & ->);
    [by eapply list_elem_of_lookup_2|].
  destruct (contains_point (Stimulus_init G ty2 q2 r2) pt) eqn:H2; [|done].
  exfalso. apply Hne.
  pose proof (hit_same_cell G ty1 ty2 q1 q2 pt r1 r2 H1 H2) as Heq.
  eapply (NoDup_lookup (position <$> stimuli cfg)); [exact Hnd| |].
  - rewrite list_lookup_fmap, Hi. reflexivity.
  - rewrite list_lookup_fmap, Hj. simpl. by rewrite Heq.
Qed.

Lemma hit_regions_pairwise_disjoint_witness :
  contains_point (Stimulus_init 6 L (1, 4) 180) (200, 340) = false.
Proof.
  destruct (Configuration_init 6 12 (-1) false w0) as [[cfg|e] w'] eqn:E;
    vm_compute in E; [|discriminate E].
  injection E as Hcfg Hw.
  apply (hit_regions_pairwise_disjoint 6 12 (-1) false w0 w' cfg 0 1
           (Stimulus_init 6 T (0, 3) 270) _ (200, 340)).
  - rewrite <- Hcfg, <- Hw. vm_compute. reflexivity.
  - rewrite <- Hcfg. vm_compute. reflexivity.
  - rewrite <- Hcfg. vm_compute. reflexivity.
  - lia.
  - vm_compute. reflexivity.
Defined.

(** *** Trial-type selection *)

Lemma random_eq (w : world) : random w = (Ok (coin w), snd (next_raw w)).
Proof. reflexivity. Qed.

Lemma later_later (a b : nat) (w : world) :
  later a (later b w) = later (a + b) w.
Proof. unfold later. simpl. f_equal. lia. Qed.

Lemma time_eq (w : world) : time w = (Ok (clock w (ticks w)), snd (time w)).
Proof. reflexivity. Qed.

(** C8. [prepare_trial] draws one coin. When the coin is below 0.5, or the
    trial index within the block has reached the size of the repeated pool,
    the trial is novel: a configuration with id -1 and [is_repeated = False]
    is generated. Otherwise the trial is repeated: the current configuration
    is the stored one at index [current_trial mod NUM_REPEATED_CONFIGS], no
    further random draw is made, and in either case the repeated pool is
    left as it was. *)
Theorem prepare_trial_selection
    (G K R : nat) (self : Experiment) (w : world) :
  length (repeated_configs self) = R ->
  let w1 := snd (next_raw w) in
  (Qltb (coin w) (1 # 2) = true \/ (R <= current_trial self)%nat ->
   match Configuration_init G K (-1) false w1 with
   | (Ok c, w2) =>
       config_id c = -1 /\ is_repeated c = false /\
       prepare_trial G K R self w =
       (Ok (set_trial_start_time (clock w2 (ticks w2))
              (set_current_config c self)), snd (time w2))
   | (Raise e, w2) => prepare_trial G K R self w = (Raise e, w2)
   end) /\
  (Qltb (coin w) (1 # 2) = false /\ (current_trial self < R)%nat ->
   exists c,
     repeated_configs self !! (current_trial self mod R)%nat = Some c /\
     prepare_trial G K R self w =
     (Ok (set_trial_start_time (clock w1 (ticks w1))
            (set_current_config c self)), snd (time w1)) /\
     cursor (snd (time w1)) = S (cursor w)) /\
  (forall self' w',
     prepare_trial G K R self w = (Ok self', w') ->
     repeated_configs self' = repeated_configs self).
Proof.
  intros Hlen w1. unfold prepare_trial.
  rewrite (bind_eq _ _ _ _ _ (random_eq w)). fold w1. split_and!.
  - intros Hnovel.
    assert (Hc : Qltb (coin w) (1 # 2) || (R <=? current_trial self)%nat = true).
    { apply orb_true_iff. destruct Hnovel as [?|?]; [by left|right].
      by apply Nat.leb_le. }
    rewrite Hc. pose proof (Configuration_init_spec G K (-1) false w1) as Hs.
    destruct (Configuration_init G K (-1) false w1) as [[c|e] w2] eqn:Ec.
    + destruct Hs as (Hid & Hrep & _). split_and!; [done..|].
      erewrite bind_eq; [|by erewrite bind_eq; [|exact Ec]].
      by rewrite (bind_eq _ _ _ _ _ (time_eq w2)).
    + erewrite bind_Raise; [done|]. by erewrite bind_Raise; [|exact Ec].
  - intros [Hcoin Hlt].
    assert (Hc : Qltb (coin w) (1 # 2) || (R <=? current_trial self)%nat = false).
    { apply orb_false_iff. split; [done|]. by apply Nat.leb_gt. }
    rewrite Hc.
    destruct (lookup_lt_is_Some_2 (repeated_configs self)
                (current_trial self mod R)%nat) as [c Hlook].
    { rewrite Hlen. apply Nat.mod_upper_bound. lia. }
    exists c. split; [done|]. split; [|done].
    erewrite bind_eq;
      [|by erewrite bind_eq; [|exact (getitem_lookup _ _ _ _ Hlook)]].
    by rewrite (bind_eq _ _ _ _ _ (time_eq w1)).
  - intros self' w' H.
    apply bind_Ok in H as (s1 & w2 & Hsel & H).
    apply bind_Ok in H as (now & w3 & _ & H). injection H as <- _.
    destruct (Qltb (coin w) (1 # 2) || (R <=? current_trial self)%nat).
    + apply bind_Ok in Hsel as (c & w4 & _ & H). by injection H as <- _.
    + apply bind_Ok in Hsel as (c & w4 & _ & H). by injection H as <- _.
Qed.

Lemma prepare_trial_selection_witness :
  exists c,
    repeated_configs demo_state !! 0%nat = Some c /\
    fst (prepare_trial 2 2 2 demo_state demo_world)
    = Ok (set_trial_start_time 0 (set_current_config c demo_state)).
Proof.
  destruct (prepare_trial_selection 2 2 2 demo_state demo_world)
    as (_ & Hrep & _); [vm_compute; reflexivity|].
  destruct Hrep as (c & Hlook & Hprep & _).
  { split; vm_compute; [reflexivity|lia]. }
  exists c. split; [exact Hlook|]. rewrite Hprep. reflexivity.
Defined.

(** ** Clicks during a trial *)

Lemma record_trial_Ok (self : Experiment) (c : Configuration) (rt : Q)
    (ok : bool) (w : world) :
  current_config self = Some c ->
  record_trial self rt ok w
  = (Ok (append_result
           (mkTrial (participant_id self) (current_block self + 1)
              (current_trial self + 1) (config_id c) (is_repeated c)
              (round3 rt) ok (position (target c))) self), w).
Proof. intros Hc. unfold record_trial. rewrite Hc. reflexivity. Qed.

Lemma trial_results_set_state (st : phase) (e : Experiment) :
  trial_results (set_state st e) = trial_results e.
Proof. reflexivity. Qed.

Lemma trial_results_set_counters (b t : nat) (e : Experiment) :
  trial_results (set_counters b t e) = trial_results e.
Proof. reflexivity. Qed.

Lemma trial_results_next_trial (R N B : nat) (e : Experiment) :
  trial_results (next_trial R N B e) = trial_results e.
Proof.
  unfold next_trial. cbv zeta.
  repeat case_match; reflexivity.
Qed.

Lemma state_next_trial (R N B : nat) (e : Experiment) :
  state (next_trial R N B e) <> st_trial.
Proof.
  unfold next_trial. cbv zeta.
  repeat case_match; discriminate.
Qed.

Lemma counters_next_trial (R N B : nat) (e : Experiment) :
  (current_block (next_trial R N B e), current_trial (next_trial R N B e))
  = if (R + N <=? current_trial e + 1)%nat
    then ((current_block e + 1)%nat, 0%nat)
    else (current_block e, (current_trial e + 1)%nat).
Proof.
  unfold next_trial. cbv zeta.
  change (current_trial (set_counters (current_block e) (current_trial e + 1) e))
    with (current_trial e + 1)%nat.
  repeat case_match; reflexivity.
Qed.

Lemma existsb_target (c : Configuration) (pos : Z * Z) :
  target c ∈ stimuli c ->
  contains_point (target c) pos = true ->
  existsb (fun stim => contains_point stim pos) (stimuli c) = true.
Proof.
  intros Hin Hc. apply existsb_exists. exists (target c).
  split; [|exact Hc]. apply list_elem_of_In. exact Hin.
Qed.

(** C7. A click of the left button during a trial, on a display whose
    target is one of its stimuli: when the point lies in the hit region
    of some stimulus, exactly one record is appended, flagged correct
    exactly when the target's region holds the point, with the rounded
    time since the start of the display, and the session leaves the trial
    state with its trial counter advanced; when the point is in no hit
    region, the session and the environment are unchanged. A click of
    another button changes nothing wherever it lands. *)
Theorem left_click_advances_iff_hit (R N B : nat) (self : Experiment)
    (c : Configuration) (pos : Z * Z) (w : world) :
  current_config self = Some c ->
  target c ∈ stimuli c ->
  let d := mkTrial (participant_id self) (current_block self + 1)
             (current_trial self + 1) (config_id c) (is_repeated c)
             (round3 (fsub (clock w (ticks w)) (trial_start_time self)))
             (contains_point (target c) pos) (position (target c)) in
  let self' := next_trial R N B (append_result d self) in
  (existsb (fun stim => contains_point stim pos) (stimuli c) = true ->
     handle_trial_event R N B self (MOUSEBUTTONDOWN 1 pos) w
     = (Ok self', snd (time w))
     /\ trial_results self' = trial_results self ++ [d]
     /\ state self' <> st_trial
     /\ (current_block self', current_trial self')
        = if (R + N <=? current_trial self + 1)%nat
          then ((current_block self + 1)%nat, 0%nat)
          else (current_block self, (current_trial self + 1)%nat))
  /\ (existsb (fun stim => contains_point stim pos) (stimuli c) = false ->
        handle_trial_event R N B self (MOUSEBUTTONDOWN 1 pos) w = (Ok self, w))
  /\ (forall button, button <> 1 ->
        handle_trial_event R N B self (MOUSEBUTTONDOWN button pos) w
        = (Ok self, w)).
Proof.
  intros Hc Hin d self'. split; [|split].
  - intros Hhit.
    assert (Hrun : handle_trial_event R N B self (MOUSEBUTTONDOWN 1 pos) w
                   = (Ok self', snd (time w))).
    { unfold handle_trial_event. rewrite Hc.
      change (1 =? 1) with true. cbv iota.
      destruct (contains_point (target c) pos) eqn:Ht.
      - erewrite bind_eq; [|apply time_eq].
        erewrite bind_eq; [|apply record_trial_Ok; exact Hc].
        subst self' d. reflexivity.
      - rewrite Hhit.
        erewrite bind_eq; [|apply time_eq].
        erewrite bind_eq; [|apply record_trial_Ok; exact Hc].
        subst self' d. reflexivity. }
    split; [exact Hrun|]. split; [|split].
    + subst self'. rewrite trial_results_next_trial. reflexivity.
    + apply state_next_trial.
    + subst self'. rewrite counters_next_trial. reflexivity.
  - intros Hmiss. unfold handle_trial_event. rewrite Hc.
    change (1 =? 1) with true. cbv iota.
    destruct (contains_point (target c) pos) eqn:Ht.
    + rewrite (existsb_target c pos Hin Ht) in Hmiss. discriminate.
    + rewrite Hmiss. reflexivity.
  - intros button Hb. unfold handle_trial_event.
    destruct (button =? 1) eqn:E; [|reflexivity].
    apply Z.eqb_eq in E. contradiction.
Qed.

Lemma left_click_advances_iff_hit_witness :
  handle_trial_event 12 12 5 demo_trial (MOUSEBUTTONDOWN 1 (285, 410))
    w0_trial
  = (Ok (next_trial 12 12 5
           (append_result
              (mkTrial "p01" 1 3 (-1) false (round3 (fsub 2 (1 # 4))) false
                 (0, 3))
              demo_trial)),
     snd (time w0_trial)).
Proof.
  destruct (left_click_advances_iff_hit 12 12 5 demo_trial demo_config
              (285, 410) w0_trial) as (Hhit & _ & _).
  - vm_compute; reflexivity.
  - vm_compute. apply list_elem_of_here.
  - destruct Hhit as (Hrun & _); [vm_compute; reflexivity|].
    exact Hrun.
Defined.

(** A click of the right button on the centre of the target is not a
    response: the session is unchanged and nothing is recorded. *)
Lemma right_click_on_target_ignored :
  contains_point (target demo_config) (200, 340) = true /\
  handle_trial_event 12 12 5 demo_trial (MOUSEBUTTONDOWN 3 (200, 340)) w0
  = (Ok demo_trial, w0).
Proof. split; vm_compute; reflexivity. Qed.

(** ** The analysis written with the results *)

Lemma write_file_eq (f : file) (w : world) :
  write_file f w
  = (Ok tt, World (tape w) (cursor w) (clock w) (ticks w) (queue w) (polls w)
              (pointer w) (files w ++ [f])).
Proof. reflexivity. Qed.

Lemma group_mean_reported (log : list trial_data) (i : nat) (rep : bool) :
  reported log i rep (default 0%Q (group_mean log i rep)).
Proof.
  unfold reported, group_mean. fold (qualifying log i rep). cbv zeta.
  destruct (qualifying log i rep) as [|d q]; split.
  - reflexivity.
  - intros H. contradiction.
  - discriminate.
  - intros _. split; [discriminate|reflexivity].
Qed.

Lemma analysis_report_Ok (B : nat) (log : list trial_data) :
  log <> [] ->
  exists tail, forall w : world,
    analysis_report B log w
    = (Ok (((fun l : nat * Q * Q * Q =>
               let '(i, r, n, d) := l in
               ("bloco"%string, [CInt (Z.of_nat i); CNum r; CNum n; CNum d]))
              <$> (block_line log <$> seq 1 B)) ++ tail), w).
Proof.
  intros Hlog. destruct log as [|d log]; [contradiction|].
  eexists. intros w. reflexivity.
Qed.

(** C9. For a log with at least one record, [save_results] returns
    normally and writes, after the table of the records, a report whose
    line for each block 1 .. NUM_BLOCKS shows, for the repeated and for the
    novel condition, zero when the group has no correct record and the
    mean response time of its correct records otherwise (a quotient by
    their positive number), followed by their difference. *)
Theorem empty_group_reports_zero (B : nat) (self : Experiment) (w : world) :
  trial_results self <> [] ->
  let log := trial_results self in
  exists entries,
    analysis_report B log w = (Ok entries, w) /\
    fst (save_results B self w) = Ok tt /\
    files (snd (save_results B self w))
    = files w ++ [to_csv log; Report entries] /\
    forall i : nat, (1 <= i <= B)%nat ->
      exists rep_time nov_time : Q,
        entries !! (i - 1)%nat
        = Some ("bloco"%string,
                [CInt (Z.of_nat i); CNum rep_time; CNum nov_time;
                 CNum (nov_time - rep_time)%Q]) /\
        reported log i true rep_time /\
        reported log i false nov_time.
Proof.
  intros Hlog log.
  destruct (analysis_report_Ok B log Hlog) as (tail & Hrep).
  eexists. split; [apply Hrep|].
  assert (Hsave : save_results B self w
                  = (Ok tt,
                     World (tape w) (cursor w) (clock w) (ticks w) (queue w)
                       (polls w) (pointer w)
                       ((files w ++ [to_csv log]) ++
                        [Report
                           (((fun l : nat * Q * Q * Q =>
                                let '(i, r, n, d) := l in
                                ("bloco"%string,
                                 [CInt (Z.of_nat i); CNum r; CNum n; CNum d]))
                               <$> (block_line log <$> seq 1 B)) ++ tail)]))).
  { unfold save_results.
    erewrite bind_eq; [|apply write_file_eq].
    unfold try_except.
    erewrite bind_eq; [|apply Hrep].
    reflexivity. }
  rewrite Hsave. split; [reflexivity|]. split.
  { simpl. rewrite <- app_assoc. reflexivity. }
  intros i Hi.
  exists (default 0%Q (group_mean log i true)),
         (default 0%Q (group_mean log i false)).
  split; [|split; apply group_mean_reported].
  rewrite lookup_app_l.
  2:{ rewrite !length_fmap, length_seq. lia. }
  rewrite !list_lookup_fmap.
  rewrite lookup_seq_lt by lia.
  replace (1 + (i - 1))%nat with i by lia.
  reflexivity.
Qed.

Lemma empty_group_reports_zero_witness :
  exists entries,
    files (snd (save_results 5 demo_finished w0))
    = [to_csv demo_log; Report entries] /\
    entries !! 1%nat
    = Some ("bloco"%string, [CInt 2; CNum 0; CNum 0; CNum (0 - 0)%Q]).
Proof.
  destruct (empty_group_reports_zero 5 demo_finished w0)
    as (entries & _ & _ & Hfiles & Hlines); [discriminate|].
  exists entries. split; [exact Hfiles|].
  destruct (Hlines 2%nat) as (r & n & Hline & (Hr & _) & (Hn & _)); [lia|].
  rewrite (Hr eq_refl), (Hn eq_refl) in Hline. exact Hline.
Defined.

(** With no record at all the analysis stops at its first selection: the
    table is written without columns or rows and no report follows. *)
Lemma empty_log_no_report :
  analysis_report NUM_BLOCKS [] w0 = (Raise KeyError, w0) /\
  fst (save_results NUM_BLOCKS Experiment_init w0) = Ok tt /\
  files (snd (save_results NUM_BLOCKS Experiment_init w0)) = [Csv [] []].
Proof. repeat split. Qed.

(** ** The pool of repeated configurations *)

Import Props.

Lemma Configuration_init_well_formed (G K : nat) (id : Z) (rep : bool)
    (w : world) :
  (1 <= K <= G * G)%nat ->
  exists cfg w',
    Configuration_init G K id rep w = (Ok cfg, w') /\
    config_id cfg = id /\ is_repeated cfg = rep /\ well_formed K cfg.
Proof.
  intros HK.
  pose proof (Configuration_init_spec G K id rep w) as Hs.
  destruct (Configuration_init G K id rep w) as [[cfg|e] w'] eqn:E.
  - exists cfg, w'. split; [reflexivity|].
    destruct (Configuration_init_cells G K id rep w cfg w' E) as (Hlen & Hnd & _).
    destruct Hs as (Hid & Hrep & _ & sel & w1 & ds & _ & _ & Hst & _).
    repeat split; try assumption. rewrite Hst. reflexivity.
  - destruct Hs as [[_ ?]|[_ ?]]; lia.
Qed.

Lemma setup_loop (G K n : nat) :
  (1 <= K <= G * G)%nat ->
  forall (a : nat) (acc : list Configuration) (w : world),
    exists cs w',
      for_each (Z.of_nat <$> seq a n)
        (fun acc i => c <- Configuration_init G K i true ;; ret (acc ++ [c]))
        acc w
      = (Ok (acc ++ cs), w') /\
      length cs = n /\
      forall i c, cs !! i = Some c ->
        config_id c = Z.of_nat (a + i) /\ is_repeated c = true /\
        well_formed K c.
Proof.
  intros HK. induction n as [|n IH]; intros a acc w.
  - exists [], w. rewrite app_nil_r. split; [reflexivity|]. split; [reflexivity|].
    intros j c H. inversion H.
  - destruct (Configuration_init_well_formed G K (Z.of_nat a) true w HK)
      as (c0 & w1 & Hc0 & Hid & Hrep & Hwf).
    destruct (IH (S a) (acc ++ [c0]) w1) as (cs & w' & Hrun & Hlen & Hall).
    exists (c0 :: cs), w'. split; [|split].
    + cbn [seq fmap list_fmap]. rewrite for_each_cons.
      erewrite bind_eq; [|erewrite bind_eq; [|exact Hc0]; reflexivity].
      rewrite Hrun, <- app_assoc. reflexivity.
    + simpl. lia.
    + intros [|i] c Hc.
      * injection Hc as <-. rewrite Nat.add_0_r.
        split; [exact Hid|split; [exact Hrep|exact Hwf]].
      * apply Hall in Hc. replace (a + S i)%nat with (S a + i)%nat by lia.
        exact Hc.
Qed.

(** X1. [setup_experiment] on a design with 1 <= NUM_ITEMS <= GRID_SIZE
    squared always returns: the pool holds NUM_REPEATED_CONFIGS
    configurations, the one at index i carrying the identifier i and the
    repeated flag, each with NUM_ITEMS stimuli on distinct cells and its
    target first; [total_trials] is (NUM_REPEATED_CONFIGS +
    NUM_NOVEL_CONFIGS) * NUM_BLOCKS; the log, the state and the counters
    are untouched. With more items than cells and a non-empty pool it
    raises [ValueError]. *)
Theorem setup_experiment_pool (G K R N B : nat) (self : Experiment)
    (w : world) :
  ((1 <= K <= G * G)%nat ->
   exists self' w',
     setup_experiment G K R N B self w = (Ok self', w') /\
     length (repeated_configs self') = R /\
     total_trials self' = ((R + N) * B)%nat /\
     (forall i c, repeated_configs self' !! i = Some c ->
        config_id c = Z.of_nat i /\ is_repeated c = true /\ well_formed K c) /\
     trial_results self' = trial_results self /\
     state self' = state self /\
     current_block self' = current_block self /\
     current_trial self' = current_trial self) /\
  ((G * G < K)%nat -> (0 < R)%nat ->
   fst (setup_experiment G K R N B self w) = Raise ValueError).
Proof.
  split.
  - intros HK. unfold setup_experiment, range.
    destruct (setup_loop G K R HK 0 [] w) as (cs & w' & Hrun & Hlen & Hall).
    rewrite (bind_eq _ _ _ _ _ Hrun).
    eexists _, _. split; [reflexivity|]. cbn.
    split; [exact Hlen|]. split; [reflexivity|].
    split; [exact Hall|]. repeat split.
  - intros HK HR. unfold setup_experiment, range.
    destruct R as [|R]; [lia|].
    cbn [seq fmap list_fmap]. rewrite for_each_cons.
    pose proof (Configuration_init_spec G K (Z.of_nat 0) true w) as Hs.
    destruct (Configuration_init G K (Z.of_nat 0) true w) as [[cfg|e] w'] eqn:E.
    + destruct Hs as (_ & _ & ? & _). lia.
    + destruct Hs as [[-> _]|[_ ->]]; [|lia].
      erewrite bind_Raise; [reflexivity|].
      apply bind_Raise. apply bind_Raise. exact E.
Qed.

Lemma setup_experiment_pool_witness :
  exists self' w',
    setup_experiment 6 12 12 12 5 Experiment_init w0 = (Ok self', w') /\
    length (repeated_configs self') = 12%nat /\
    total_trials self' = 120%nat.
Proof.
  destruct (setup_experiment_pool 6 12 12 12 5 Experiment_init w0)
    as (Hok & _).
  destruct Hok as (self' & w' & Hrun & Hlen & Htot & _); [lia|].
  exists self', w'. repeat split; assumption.
Defined.

(** ** The course of a session *)

Lemma state_of_next_trial (R N B : nat) (e : Experiment) :
  state (next_trial R N B e)
  = if (R + N <=? current_trial e + 1)%nat
    then if (current_block e + 1 <? B)%nat then st_break else st_end
    else st_fixation.
Proof.
  unfold next_trial. cbv zeta.
  change (current_trial (set_counters (current_block e) (current_trial e + 1) e))
    with (current_trial e + 1)%nat.
  destruct (R + N <=? current_trial e + 1)%nat; [|reflexivity].
  change (current_block
            (set_counters
               (current_block
                  (set_counters (current_block e) (current_trial e + 1) e) + 1)
               0 (set_counters (current_block e) (current_trial e + 1) e)))
    with (current_block e + 1)%nat.
  destruct (current_block e + 1 <? B)%nat; reflexivity.
Qed.

Lemma block_of_next_trial (R N B : nat) (e : Experiment) :
  current_block (next_trial R N B e)
  = if (R + N <=? current_trial e + 1)%nat
    then (current_block e + 1)%nat else current_block e.
Proof.
  pose proof (counters_next_trial R N B e) as H.
  destruct (R + N <=? current_trial e + 1)%nat;
    apply (f_equal fst) in H; exact H.
Qed.

Lemma trial_of_next_trial (R N B : nat) (e : Experiment) :
  current_trial (next_trial R N B e)
  = if (R + N <=? current_trial e + 1)%nat
    then 0%nat else (current_trial e + 1)%nat.
Proof.
  pose proof (counters_next_trial R N B e) as H.
  destruct (R + N <=? current_trial e + 1)%nat;
    apply (f_equal snd) in H; exact H.
Qed.

Lemma succ_div_mod (n T : nat) :
  (0 < T)%nat ->
  if (T <=? n mod T + 1)%nat
  then (S n / T = n / T + 1 /\ S n mod T = 0)%nat
  else (S n / T = n / T /\ S n mod T = n mod T + 1)%nat.
Proof.
  intros HT.
  pose proof (Nat.div_mod_eq n T) as Hn.
  pose proof (Nat.mod_upper_bound n T) as Hlt.
  destruct (Nat.leb_spec T (n mod T + 1)) as [Hle|Hgt].
  - assert (Hq : (n / T + 1 = S n / T)%nat).
    { apply (Nat.div_unique (S n) T (n / T + 1) 0); lia. }
    assert (Hr : (0 = S n mod T)%nat).
    { apply (Nat.mod_unique (S n) T (n / T + 1) 0); lia. }
    lia.
  - assert (Hq : (n / T = S n / T)%nat).
    { apply (Nat.div_unique (S n) T (n / T) (n mod T + 1)); lia. }
    assert (Hr : (n mod T + 1 = S n mod T)%nat).
    { apply (Nat.mod_unique (S n) T (n / T) (n mod T + 1)); lia. }
    lia.
Qed.

(** X2. The course of a session through [next_trial], from the first
    trial of the first block, when a block holds at least one trial: after
    n responses the block counter is n // (NUM_REPEATED_CONFIGS +
    NUM_NOVEL_CONFIGS) and the trial counter is the remainder; the state
    is the fixation except after the last trial of a block, where it is
    the break when blocks remain and the end otherwise. So the end state
    is not reached before total_trials responses, and is reached at
    exactly total_trials responses. *)
Theorem next_trial_course (R N B : nat) (self : Experiment) (n : nat) :
  (0 < R + N)%nat ->
  current_block self = 0%nat ->
  current_trial self = 0%nat ->
  let s := Nat.iter n (next_trial R N B) self in
  current_block s = (n / (R + N))%nat /\
  current_trial s = (n mod (R + N))%nat /\
  ((0 < n)%nat ->
   state s = if (n mod (R + N) =? 0)%nat
             then if (n / (R + N) <? B)%nat then st_break else st_end
             else st_fixation) /\
  ((0 < n < (R + N) * B)%nat -> state s <> st_end) /\
  ((0 < B)%nat -> n = ((R + N) * B)%nat -> state s = st_end).
Proof.
  intros HT Hb Ht. cbv zeta.
  assert (Hmain :
    current_block (Nat.iter n (next_trial R N B) self) = (n / (R + N))%nat /\
    current_trial (Nat.iter n (next_trial R N B) self) = (n mod (R + N))%nat /\
    ((0 < n)%nat ->
     state (Nat.iter n (next_trial R N B) self)
     = if (n mod (R + N) =? 0)%nat
       then if (n / (R + N) <? B)%nat then st_break else st_end
       else st_fixation)).
  { induction n as [|n IH].
    - simpl. rewrite Hb, Ht, Nat.Div0.div_0_l, Nat.Div0.mod_0_l.
      repeat split. lia.
    - destruct IH as (IHb & IHt & _).
      rewrite !Nat.iter_succ.
      set (s := Nat.iter n (next_trial R N B) self) in *.
      pose proof (block_of_next_trial R N B s) as Hcb.
      pose proof (trial_of_next_trial R N B s) as Hct.
      pose proof (state_of_next_trial R N B s) as Hs.
      pose proof (succ_div_mod n (R + N) HT) as Hdm.
      rewrite IHt in Hcb, Hct, Hs. rewrite IHb in Hcb, Hs.
      destruct (R + N <=? n mod (R + N) + 1)%nat.
      + destruct Hdm as [Hq Hr].
        rewrite Hcb, Hct, Hq, Hr.
        split; [reflexivity|]. split; [reflexivity|]. intros _.
        rewrite Hs. reflexivity.
      + destruct Hdm as [Hq Hr].
        rewrite Hcb, Hct, Hq, Hr.
        split; [reflexivity|]. split; [reflexivity|]. intros _.
        rewrite Hs.
        replace (n mod (R + N) + 1 =? 0)%nat with false
          by (symmetry; apply Nat.eqb_neq; lia).
        reflexivity. }
  destruct Hmain as (H1 & H2 & H3).
  split; [exact H1|]. split; [exact H2|]. split; [exact H3|]. split.
  - intros [Hpos Hlt]. rewrite (H3 Hpos).
    destruct (n mod (R + N) =? 0)%nat; [|discriminate].
    assert (Hq : (n / (R + N) < B)%nat).
    { apply Nat.Div0.div_lt_upper_bound. lia. }
    apply Nat.ltb_lt in Hq. rewrite Hq. discriminate.
  - intros HB ->. rewrite H3 by nia.
    rewrite (Nat.mul_comm (R + N) B), Nat.Div0.mod_mul, Nat.div_mul by lia.
    rewrite Nat.ltb_irrefl. reflexivity.
Qed.

Lemma next_trial_course_witness :
  state (Nat.iter 120 (next_trial 12 12 5) Experiment_init) = st_end /\
  state (Nat.iter 119 (next_trial 12 12 5) Experiment_init) <> st_end.
Proof.
  split.
  - apply (next_trial_course 12 12 5 Experiment_init 120);
      [lia|reflexivity|reflexivity|lia|reflexivity].
  - apply (next_trial_course 12 12 5 Experiment_init 119);
      [lia|reflexivity|reflexivity|lia].
Defined.

(** ** The break between blocks *)

Lemma break_wait_keeps (fuel : nat) :
  forall (self self' : Experiment) (w w' : world),
    break_wait fuel self w = (Ok self', w') ->
    trial_results self' = trial_results self /\
    current_block self' = current_block self /\
    current_trial self' = current_trial self /\
    files w' = files w.
Proof.
  induction fuel as [|fuel IH]; intros self self' w w' H; [discriminate H|].
  cbn [break_wait] in H. inv_bind H. injection H0 as <- <-.
  inv_bind H.
  assert (HP : trial_results (snd a) = trial_results self /\
               current_block (snd a) = current_block self /\
               current_trial (snd a) = current_trial self /\
               files v = files w).
  { eapply (for_each_inv
              (fun (acc : bool * Experiment) u =>
                 trial_results (snd acc) = trial_results self /\
                 current_block (snd acc) = current_block self /\
                 current_trial (snd acc) = current_trial self /\
                 files u = files w)); [| |exact H0]; [|repeat split].
    intros acc x u acc' u' HP Hx.
    destruct x as [|[]|b pos|]; try discriminate Hx;
      injection Hx as <- <-; exact HP. }
  destruct HP as (H1 & H2 & H3 & H4).
  destruct (fst a).
  - apply IH in H as (-> & -> & -> & ->). repeat split; assumption.
  - injection H as <- <-. repeat split; assumption.
Qed.

(** X3. [show_break] never ends the session: whenever it returns, the
    state is the fixation and the log, the counters and the files are as
    before, whatever keys were pressed. In particular ESCAPE during the
    break, which sets the end state inside the loop, only resumes the
    session like SPACE does. *)
Theorem show_break_resumes (fuel : nat) (self : Experiment) (w : world) :
  (forall self' w',
     show_break fuel self w = (Ok self', w') ->
     state self' = st_fixation /\
     trial_results self' = trial_results self /\
     current_block self' = current_block self /\
     current_trial self' = current_trial self /\
     files w' = files w) /\
  (queue w (polls w) = [KEYDOWN K_ESCAPE] ->
   show_break (S fuel) self w
   = (Ok (set_state st_fixation (set_state st_end self)), snd (event_get w))).
Proof.
  split.
  - intros self' w' H. unfold show_break in H. inv_bind H.
    injection H as <- <-.
    apply break_wait_keeps in H0 as (H1 & H2 & H3 & H4).
    repeat split; assumption.
  - intros Hq. unfold show_break. cbn [break_wait].
    unfold bind, event_get. rewrite Hq. reflexivity.
Qed.

(** ** Stimuli and the window *)

Lemma cell_inside_window (G : nat) (px py x y : Z) :
  (G <= 7)%nat ->
  0 <= px < Z.of_nat G -> 0 <= py < Z.of_nat G ->
  (x - (GRID_START_X G + px * 80 + 40)) ^ 2
  + (y - (GRID_START_Y G + py * 80 + 40)) ^ 2 <= 225 ->
  0 <= x < WIDTH /\ 0 <= y < HEIGHT.
Proof.
  intros HG Hpx Hpy H.
  assert (Hx : -15 <= x - (GRID_START_X G + px * 80 + 40) <= 15) by nia.
  assert (Hy : -15 <= y - (GRID_START_Y G + py * 80 + 40) <= 15) by nia.
  clear H. unfold GRID_START_X, GRID_START_Y, WIDTH, HEIGHT, CELL_SIZE in *.
  assert (HGz : 0 <= Z.of_nat G <= 7) by lia.
  generalize dependent (Z.of_nat G). intros g Hpx Hpy Hx Hy Hg.
  pose proof (Z.div_mod (800 - g * 80) 2 ltac:(lia)) as Hdx.
  pose proof (Z.mod_pos_bound (800 - g * 80) 2 ltac:(lia)) as Hmx.
  pose proof (Z.div_mod (600 - g * 80) 2 ltac:(lia)) as Hdy.
  pose proof (Z.mod_pos_bound (600 - g * 80) 2 ltac:(lia)) as Hmy.
  lia.
Qed.

(** X4. On a grid of at most 7 x 7 cells every stimulus of a generated
    configuration is clickable inside the 800 x 600 window: each point of
    its hit region has 0 <= x < 800 and 0 <= y < 600. *)
Theorem hit_regions_inside_window (G K : nat) (id : Z) (rep : bool)
    (w w' : world) (cfg : Configuration) (s : Stimulus) (x y : Z) :
  Configuration_init G K id rep w = (Ok cfg, w') ->
  (G <= 7)%nat ->
  s ∈ stimuli cfg ->
  contains_point s (x, y) = true ->
  0 <= x < WIDTH /\ 0 <= y < HEIGHT.
Proof.
  intros Hc HG Hs Hhit.
  destruct (Configuration_init_cells G K id rep w cfg w' Hc) as (_ & _ & Hsub).
  pose proof (Configuration_init_spec G K id rep w) as Hspec.
  rewrite Hc in Hspec.
  destruct Hspec as (_ & _ & _ & sel & w1 & ds & _ & _ & Hst & Ht & Hds).
  assert (Hmade : exists ty, made_by G ty s).
  { rewrite Hst in Hs. apply elem_of_cons in Hs as [->|Hin]; [by exists T|].
    exists L. by eapply Forall_forall in Hds. }
  destruct Hmade as (ty & pos & rot & _ & ->).
  assert (Hpos : pos ∈ grid_positions G).
  { apply Hsub. apply list_elem_of_fmap.
    exists (Stimulus_init G ty pos rot). split; [reflexivity|exact Hs]. }
  apply elem_of_grid_positions in Hpos as [Hpx Hpy].
  apply contains_point_iff in Hhit. simpl in Hhit.
  apply (cell_inside_window G (fst pos) (snd pos) x y HG Hpx Hpy Hhit).
Qed.

Lemma hit_regions_inside_window_witness :
  0 <= 210 < WIDTH /\ 0 <= 350 < HEIGHT.
Proof.
  apply (hit_regions_inside_window 6 12 (-1) false w0
           (snd (Configuration_init 6 12 (-1) false w0)) demo_config
           (Stimulus_init 6 T (0, 3) 270) 210 350).
  - vm_compute; reflexivity.
  - lia.
  - vm_compute. apply list_elem_of_here.
  - vm_compute; reflexivity.
Defined.

(** ** Events during a trial *)

Lemma current_config_next_trial (R N B : nat) (e : Experiment) :
  current_config (next_trial R N B e) = current_config e.
Proof.
  unfold next_trial. cbv zeta. repeat case_match; reflexivity.
Qed.

Lemma handle_trial_event_outcomes (R N B : nat) (self : Experiment)
    (c : Configuration) (ev : event) (w : world) :
  current_config self = Some c ->
  (exists self' w',
     handle_trial_event R N B self ev w = (Ok self', w') /\
     current_config self' = Some c /\ files w' = files w) \/
  (handle_trial_event R N B self ev w = (Raise SystemExit, w) /\ ev = QUIT).
Proof.
  intros Hc. destruct ev as [|k|button pos|].
  - right. split; reflexivity.
  - left. destruct k; eexists _, _; (split; [reflexivity|split; [exact Hc|reflexivity]]).
  - left. unfold handle_trial_event.
    destruct (button =? 1);
      [|eexists _, _; split; [reflexivity|split; [exact Hc|reflexivity]]].
    rewrite Hc.
    destruct (contains_point (target c) pos).
    + rewrite (bind_eq _ _ _ _ _ (time_eq w)).
      erewrite bind_eq; [|apply record_trial_Ok; exact Hc].
      eexists _, _. split; [reflexivity|].
      rewrite current_config_next_trial. split; [exact Hc|reflexivity].
    + destruct (existsb _ _).
      * rewrite (bind_eq _ _ _ _ _ (time_eq w)).
        erewrite bind_eq; [|apply record_trial_Ok; exact Hc].
        eexists _, _. split; [reflexivity|].
        rewrite current_config_next_trial. split; [exact Hc|reflexivity].
      * eexists _, _. split; [reflexivity|split; [exact Hc|reflexivity]].
  - left. eexists _, _. split; [reflexivity|split; [exact Hc|reflexivity]].
Qed.

Lemma trial_events_outcomes (R N B : nat) (c : Configuration)
    (evs : list event) :
  forall (self : Experiment) (w : world),
    current_config self = Some c ->
    (exists self' w',
       for_each evs (handle_trial_event R N B) self w = (Ok self', w') /\
       current_config self' = Some c /\ files w' = files w) \/
    (exists w',
       for_each evs (handle_trial_event R N B) self w = (Raise SystemExit, w') /\
       QUIT ∈ evs /\ files w' = files w).
Proof.
  induction evs as [|ev evs IH]; intros self w Hc.
  - left. exists self, w. repeat split. exact Hc.
  - rewrite for_each_cons.
    destruct (handle_trial_event_outcomes R N B self c ev w Hc)
      as [(self1 & w1 & Hev & Hc1 & Hf1)|[Hev ->]].
    + rewrite (bind_eq _ _ _ _ _ Hev).
      destruct (IH self1 w1 Hc1) as [(self' & w' & Hrun & Hc' & Hf')|(w' & Hrun & Hin & Hf')].
      * left. exists self', w'. rewrite Hrun, Hf', Hf1. repeat split. exact Hc'.
      * right. exists w'. rewrite Hrun, Hf', Hf1. repeat split.
        apply list_elem_of_further. exact Hin.
    + right. exists w. rewrite (bind_Raise _ _ _ _ _ Hev).
      repeat split. apply list_elem_of_here.
Qed.

(** X5. While a configuration is displayed, [run_trial] either returns
    with the same configuration still displayed, or exits with
    [SystemExit] because the batch of events holds a window-close event;
    it raises nothing else, and in neither case writes a file. *)
Theorem run_trial_outcomes (R N B : nat) (self : Experiment)
    (c : Configuration) (w : world) :
  current_config self = Some c ->
  (exists self' w',
     run_trial R N B self w = (Ok self', w') /\
     current_config self' = Some c /\ files w' = files w) \/
  (exists w',
     run_trial R N B self w = (Raise SystemExit, w') /\
     QUIT ∈ queue w (polls w) /\ files w' = files w).
Proof.
  intros Hc. unfold run_trial. rewrite Hc.
  change (bind event_get (fun events =>
            for_each events (handle_trial_event R N B) self) w)
    with (for_each (queue w (polls w)) (handle_trial_event R N B) self
            (snd (event_get w))).
  destruct (trial_events_outcomes R N B c (queue w (polls w)) self
              (snd (event_get w)) Hc)
    as [(self' & w' & Hrun & Hc' & Hf)|(w' & Hrun & Hin & Hf)].
  - left. exists self', w'. repeat split; assumption.
  - right. exists w'. repeat split; assumption.
Qed.

Lemma run_trial_outcomes_witness :
  (exists self' w',
     run_trial 12 12 5 demo_recorded w_quit = (Ok self', w') /\
     current_config self' = Some demo_config /\ files w' = files w_quit) \/
  (exists w',
     run_trial 12 12 5 demo_recorded w_quit = (Raise SystemExit, w') /\
     QUIT ∈ queue w_quit (polls w_quit) /\ files w' = files w_quit).
Proof.
  apply (run_trial_outcomes 12 12 5 demo_recorded demo_config w_quit).
  reflexivity.
Defined.

(** ** The fixation cross *)

Lemma show_fixation_started (G K R : nat) (s : Experiment) (w : world) :
  Qeq_bool (fixation_start_time s) 0 = false ->
  show_fixation G K R s w
  = if Qle_bool (fixation_duration s)
         (fsub (clock w (ticks w)) (fixation_start_time s))
    then prepare_trial G K R
           (set_state st_trial (set_fixation_start_time 0 s)) (later 1 w)
    else (Ok s, later 1 w).
Proof.
  intros Hs. unfold show_fixation. rewrite Hs.
  erewrite bind_eq; [|reflexivity].
  rewrite (bind_eq _ _ _ _ _ (time_eq w)).
  destruct (Qle_bool _ _); reflexivity.
Qed.

Lemma show_fixation_fresh (G K R : nat) (s : Experiment) (w : world) :
  Qeq_bool (fixation_start_time s) 0 = true ->
  show_fixation G K R s w
  = if Qle_bool (fixation_duration s)
         (fsub (clock w (S (ticks w))) (clock w (ticks w)))
    then prepare_trial G K R
           (set_state st_trial
              (set_fixation_start_time 0
                 (set_fixation_start_time (clock w (ticks w)) s)))
           (later 2 w)
    else (Ok (set_fixation_start_time (clock w (ticks w)) s), later 2 w).
Proof.
  intros Hs. unfold show_fixation. rewrite Hs.
  erewrite bind_eq; [|rewrite (bind_eq _ _ _ _ _ (time_eq w)); reflexivity].
  rewrite (bind_eq _ _ _ _ _ (time_eq (snd (time w)))).
  cbn [fixation_duration fixation_start_time set_fixation_start_time
       clock ticks time snd].
  destruct (Qle_bool _ _); reflexivity.
Qed.

Lemma fixation_held (G K R N B fuel : nat) (s : Experiment) (n : nat) :
  state s = st_fixation ->
  Qeq_bool (fixation_start_time s) 0 = false ->
  forall w : world,
    (forall k, (k < n)%nat ->
       (fsub (clock w (k + ticks w)) (fixation_start_time s)
        < fixation_duration s)%Q) ->
    (fixation_duration s
     <= fsub (clock w (n + ticks w)) (fixation_start_time s))%Q ->
    main_loop G K R N B (S n + fuel) s w
    = (s' <- prepare_trial G K R
               (set_state st_trial (set_fixation_start_time 0 s)) ;;
       main_loop G K R N B fuel s') (later (S n) w).
Proof.
  intros Hst Hs. induction n as [|n IH]; intros w Hlt Hle.
  - cbn [main_loop Nat.add]. rewrite Hst. unfold bind at 1.
    rewrite (show_fixation_started G K R s w Hs).
    apply Qle_bool_iff in Hle. cbn [Nat.add] in Hle. rewrite Hle.
    reflexivity.
  - cbn [main_loop Nat.add]. rewrite Hst. unfold bind at 1.
    rewrite (show_fixation_started G K R s w Hs).
    destruct (Qle_bool _ _) eqn:E.
    { apply Qle_bool_iff in E. apply Qle_not_lt in E.
      exfalso. apply E. apply (Hlt 0%nat). lia. }
    change (main_loop G K R N B (S n + fuel) s (later 1 w)
            = (s' <- prepare_trial G K R
                       (set_state st_trial (set_fixation_start_time 0 s)) ;;
               main_loop G K R N B fuel s') (later (S (S n)) w)).
    rewrite IH.
    + rewrite later_later. replace (S n + 1)%nat with (S (S n)) by lia.
      reflexivity.
    + intros k Hk. simpl.
      replace (k + S (ticks w))%nat with (S k + ticks w)%nat by lia.
      apply Hlt. lia.
    + simpl.
      replace (n + S (ticks w))%nat with (S n + ticks w)%nat by lia.
      exact Hle.
Qed.

(** X13. A fixation that has not started (its start time is the 0 that
    [show_fixation] takes for unset) starts at the first reading of the
    clock, when that reading is not 0. The loop then polls no event and
    keeps the session in the fixation state as long as the binary64
    difference between the later readings and that start is less than
    [fixation_duration]; at the first reading for which it is not, the
    start time is put back to 0 and [prepare_trial] runs on the session in
    the trial state. *)
Theorem fixation_lasts_its_duration (G K R N B fuel : nat) (self : Experiment)
    (w : world) (n : nat) :
  state self = st_fixation ->
  Qeq_bool (fixation_start_time self) 0 = true ->
  Qeq_bool (clock w (ticks w)) 0 = false ->
  (forall k, (k < n)%nat ->
     (fsub (clock w (S k + ticks w)) (clock w (ticks w))
      < fixation_duration self)%Q) ->
  (fixation_duration self
   <= fsub (clock w (S n + ticks w)) (clock w (ticks w)))%Q ->
  main_loop G K R N B (S n + fuel) self w
  = (s' <- prepare_trial G K R
             (set_state st_trial (set_fixation_start_time 0 self)) ;;
     main_loop G K R N B fuel s') (later (n + 2) w) /\
  polls (later (n + 2) w) = polls w.
Proof.
  intros Hst Hs Ht0 Hlt Hle. split; [|reflexivity].
  destruct n as [|n].
  - cbn [main_loop Nat.add]. rewrite Hst. unfold bind at 1.
    rewrite (show_fixation_fresh G K R self w Hs).
    apply Qle_bool_iff in Hle. cbn [Nat.add] in Hle. rewrite Hle.
    reflexivity.
  - cbn [main_loop Nat.add]. rewrite Hst. unfold bind at 1.
    rewrite (show_fixation_fresh G K R self w Hs).
    destruct (Qle_bool _ _) eqn:E.
    { apply Qle_bool_iff in E. apply Qle_not_lt in E.
      exfalso. apply E. apply (Hlt 0%nat). lia. }
    set (s1 := set_fixation_start_time (clock w (ticks w)) self).
    change (main_loop G K R N B (S n + fuel) s1 (later 2 w)
            = (s' <- prepare_trial G K R
                       (set_state st_trial (set_fixation_start_time 0 self)) ;;
               main_loop G K R N B fuel s') (later (S n + 2) w)).
    rewrite (fixation_held G K R N B fuel s1 n).
    + rewrite later_later. replace (S n + 2)%nat with (S n + 2)%nat by lia.
      reflexivity.
    + exact Hst.
    + exact Ht0.
    + intros k Hk. simpl.
      replace (k + S (S (ticks w)))%nat with (S (S k) + ticks w)%nat by lia.
      apply (Hlt (S k)). lia.
    + simpl.
      replace (n + S (S (ticks w)))%nat with (S (S n) + ticks w)%nat by lia.
      exact Hle.
Qed.

Lemma fixation_lasts_its_duration_witness :
  main_loop 2 2 2 2 1 (2 + 0) demo_fixation w_fix
  = (s' <- prepare_trial 2 2 2
             (set_state st_trial (set_fixation_start_time 0 demo_fixation)) ;;
     main_loop 2 2 2 2 1 0 s') (later (1 + 2) w_fix).
Proof.
  destruct (fixation_lasts_its_duration 2 2 2 2 1 0 demo_fixation w_fix 1)
    as (Hrun & _).
  - vm_compute; reflexivity.
  - vm_compute; reflexivity.
  - vm_compute; reflexivity.
  - intros k Hk. replace k with 0%nat by lia. vm_compute. reflexivity.
  - vm_compute. discriminate.
  - exact Hrun.
Defined.

(** ** Leaving the session *)

Lemma polled_polled (a b : nat) (w : world) :
  polled a (polled b w) = polled (a + b) w.
Proof. unfold polled. simpl. f_equal. lia. Qed.

Lemma save_results_files (B : nat) (self : Experiment) (w : world) :
  exists rest,
    save_results B self w
    = (Ok tt,
       World (tape w) (cursor w) (clock w) (ticks w) (queue w) (polls w)
         (pointer w) (files w ++ to_csv (trial_results self) :: rest)).
Proof.
  unfold save_results.
  erewrite bind_eq; [|apply write_file_eq].
  destruct (trial_results self) as [|d log] eqn:E.
  - exists []. reflexivity.
  - destruct (analysis_report_Ok B (d :: log)) as (tail & Hrep); [discriminate|].
    eexists [_]. unfold try_except.
    erewrite bind_eq; [|apply Hrep].
    cbn. rewrite <- app_assoc. reflexivity.
Qed.

(** *** ESCAPE during a trial *)

Lemma trial_batch_no_response (R N B : nat) (c : Configuration)
    (evs : list event) :
  forall (self : Experiment) (w : world),
    current_config self = Some c ->
    Forall (no_response c) evs ->
    for_each evs (handle_trial_event R N B) self w
    = (Ok (if existsb is_escape evs then set_state st_end self else self), w).
Proof.
  induction evs as [|ev evs IH]; intros self w Hc Hall; [reflexivity|].
  apply Forall_cons in Hall as [Hev Hall].
  rewrite for_each_cons.
  destruct ev as [|k|button pos|].
  - contradiction.
  - destruct k;
      try (erewrite bind_eq; [|reflexivity]; rewrite (IH _ _ Hc Hall);
           reflexivity).
    erewrite bind_eq; [|reflexivity].
    rewrite (IH (set_state st_end self) w Hc Hall).
    cbn [existsb is_escape orb]. destruct (existsb is_escape evs); reflexivity.
  - assert (Hev' : handle_trial_event R N B self (MOUSEBUTTONDOWN button pos) w
                   = (Ok self, w)).
    { unfold handle_trial_event. destruct (button =? 1) eqn:E; [|reflexivity].
      apply Z.eqb_eq in E. specialize (Hev E). unfold responds in Hev.
      apply orb_false_elim in Hev as [Ht He].
      rewrite Hc, Ht, He. reflexivity. }
    rewrite (bind_eq _ _ _ _ _ Hev'). rewrite (IH _ _ Hc Hall). reflexivity.
  - erewrite bind_eq; [|reflexivity]. rewrite (IH _ _ Hc Hall). reflexivity.
Qed.

Lemma run_trial_no_response (R N B : nat) (self : Experiment)
    (c : Configuration) (w : world) :
  current_config self = Some c ->
  Forall (no_response c) (queue w (polls w)) ->
  run_trial R N B self w
  = (Ok (if existsb is_escape (queue w (polls w))
         then set_state st_end self else self), polled 1 w).
Proof.
  intros Hc Hall. unfold run_trial. rewrite Hc.
  change (bind event_get (fun events =>
            for_each events (handle_trial_event R N B) self) w)
    with (for_each (queue w (polls w)) (handle_trial_event R N B) self
            (polled 1 w)).
  apply (trial_batch_no_response R N B c _ self (polled 1 w) Hc Hall).
Qed.

Lemma existsb_is_escape (evs : list event) :
  KEYDOWN K_ESCAPE ∈ evs -> existsb is_escape evs = true.
Proof.
  intros Hin. apply existsb_exists. exists (KEYDOWN K_ESCAPE).
  split; [apply list_elem_of_In; exact Hin|reflexivity].
Qed.

(** *** The end screen *)

Lemma end_events_idle (evs : list event) (waiting : bool) (w : world) :
  Forall end_idle evs ->
  for_each evs
    (fun waiting ev =>
       match ev with
       | QUIT => raise SystemExit
       | KEYDOWN K_SPACE | KEYDOWN K_ESCAPE => ret false
       | _ => ret waiting
       end) waiting w
  = (Ok waiting, w).
Proof.
  induction evs as [|ev evs IH]; intros Hall; [reflexivity|].
  apply Forall_cons in Hall as [Hev Hall].
  rewrite for_each_cons.
  destruct ev as [|[]|button pos|]; try contradiction;
    (erewrite bind_eq; [|reflexivity]); apply IH; exact Hall.
Qed.

Lemma end_events_dismissed (evs : list event) (w : world) :
  QUIT ∉ evs ->
  for_each evs
    (fun waiting ev =>
       match ev with
       | QUIT => raise SystemExit
       | KEYDOWN K_SPACE | KEYDOWN K_ESCAPE => ret false
       | _ => ret waiting
       end) false w
  = (Ok false, w).
Proof.
  induction evs as [|ev evs IH]; intros Hq; [reflexivity|].
  rewrite for_each_cons.
  assert (Hq' : QUIT ∉ evs).
  { intros Hin. apply Hq. apply list_elem_of_further. exact Hin. }
  destruct ev as [|[]|button pos|];
    try (exfalso; apply Hq; apply list_elem_of_here);
    (erewrite bind_eq; [|reflexivity]); apply IH; exact Hq'.
Qed.

Lemma end_events_dismiss (evs : list event) (waiting : bool) (w : world) :
  dismisses evs ->
  for_each evs
    (fun waiting ev =>
       match ev with
       | QUIT => raise SystemExit
       | KEYDOWN K_SPACE | KEYDOWN K_ESCAPE => ret false
       | _ => ret waiting
       end) waiting w
  = (Ok false, w).
Proof.
  induction evs as [|ev evs IH]; intros [Hq Hk].
  - destruct Hk as [Hk|Hk]; inversion Hk.
  - rewrite for_each_cons.
    assert (Hq' : QUIT ∉ evs).
    { intros Hin. apply Hq. apply list_elem_of_further. exact Hin. }
    assert (Hrest : ev <> KEYDOWN K_SPACE -> ev <> KEYDOWN K_ESCAPE ->
                    dismisses evs).
    { intros H1 H2. split; [exact Hq'|].
      destruct Hk as [Hk|Hk]; apply elem_of_cons in Hk as [Hk|Hk];
        try (symmetry in Hk; contradiction); [left|right]; exact Hk. }
    destruct ev as [|[]|button pos|];
      try (exfalso; apply Hq; apply list_elem_of_here);
      (erewrite bind_eq; [|reflexivity]);
      try (apply end_events_dismissed; exact Hq');
      apply IH; apply Hrest; discriminate.
Qed.

Lemma end_wait_dismissed (j fuel : nat) :
  forall w : world,
    (forall i, (i < j)%nat -> Forall end_idle (queue w (i + polls w))) ->
    dismisses (queue w (j + polls w)) ->
    end_wait (S j + fuel) w = (Ok tt, polled (S j) w).
Proof.
  induction j as [|j IH]; intros w Hidle Hdis.
  - cbn [end_wait Nat.add].
    change (bind event_get ?f w) with (f (queue w (polls w)) (polled 1 w)).
    cbv beta.
    erewrite bind_eq; [|apply end_events_dismiss; exact Hdis].
    reflexivity.
  - cbn [end_wait Nat.add].
    change (bind event_get ?f w) with (f (queue w (polls w)) (polled 1 w)).
    cbv beta.
    erewrite bind_eq; [|apply end_events_idle; apply (Hidle 0%nat); lia].
    cbv iota.
    change (end_wait (S j + fuel) (polled 1 w) = (Ok tt, polled (S (S j)) w)).
    rewrite IH.
    + rewrite polled_polled. replace (S j + 1)%nat with (S (S j)) by lia.
      reflexivity.
    + intros i Hi. cbn [polled queue polls].
      replace (i + (1 + polls w))%nat with (S i + polls w)%nat by lia.
      apply Hidle. lia.
    + cbn [polled queue polls].
      replace (j + (1 + polls w))%nat with (S j + polls w)%nat by lia.
      exact Hdis.
Qed.

Lemma escape_then_dismissal (G K R N B fuel j : nat) (self : Experiment)
    (c : Configuration) (w : world) :
  state self = st_trial ->
  current_config self = Some c ->
  Forall (no_response c) (queue w (polls w)) ->
  KEYDOWN K_ESCAPE ∈ queue w (polls w) ->
  (forall i, (i < j)%nat -> Forall end_idle (queue w (S i + polls w))) ->
  dismisses (queue w (S j + polls w)) ->
  exists rest w',
    main_loop G K R N B (S (S j + fuel)) self w = (Raise SystemExit, w') /\
    files w' = files w ++ to_csv (trial_results self) :: rest.
Proof.
  intros Hst Hc Hall Hesc Hidle Hdis.
  pose proof (run_trial_no_response R N B self c w Hc Hall) as Hrun.
  rewrite (existsb_is_escape _ Hesc) in Hrun.
  assert (Hwait : end_wait (S j + fuel) (polled 1 w)
                  = (Ok tt, polled (S j) (polled 1 w))).
  { apply end_wait_dismissed.
    - intros i Hi. cbn [polled queue polls].
      replace (i + (1 + polls w))%nat with (S i + polls w)%nat by lia.
      apply Hidle. exact Hi.
    - cbn [polled queue polls].
      replace (j + (1 + polls w))%nat with (S j + polls w)%nat by lia.
      exact Hdis. }
  destruct (save_results_files B (set_state st_end self)
              (polled (S j) (polled 1 w))) as (rest & Hsave).
  exists rest. eexists. split.
  - cbn [main_loop]. rewrite Hst.
    rewrite (bind_eq _ _ _ _ _ Hrun).
    cbn [main_loop Nat.add state set_state]. unfold show_end.
    rewrite (bind_eq _ _ _ _ _ Hwait).
    rewrite (bind_eq _ _ _ _ _ Hsave). reflexivity.
  - reflexivity.
Qed.

(** An ESCAPE followed, in the same batch, by a response is forgotten. *)
Lemma escape_overwritten (R N B : nat) (self : Experiment)
    (c : Configuration) (pos : Z * Z) (w : world) :
  current_config self = Some c ->
  responds c pos = true ->
  queue w (polls w) = [KEYDOWN K_ESCAPE; MOUSEBUTTONDOWN 1 pos] ->
  exists self' w' d,
    run_trial R N B self w = (Ok self', w') /\
    trial_results self' = trial_results self ++ [d] /\
    state self' = state (next_trial R N B self) /\
    files w' = files w.
Proof.
  intros Hc Hhit Hq. unfold run_trial. rewrite Hc.
  change (bind event_get ?f w) with (f (queue w (polls w)) (polled 1 w)).
  cbv beta. rewrite Hq. rewrite !for_each_cons.
  erewrite bind_eq; [|reflexivity].
  set (s1 := set_state st_end self).
  assert (Hc1 : current_config s1 = Some c) by exact Hc.
  assert (Hev : exists d,
            handle_trial_event R N B s1 (MOUSEBUTTONDOWN 1 pos) (polled 1 w)
            = (Ok (next_trial R N B (append_result d s1)),
               later 1 (polled 1 w))).
  { unfold handle_trial_event. change (1 =? 1) with true. cbv iota.
    rewrite Hc1. unfold responds in Hhit.
    destruct (contains_point (target c) pos) eqn:Ht.
    - erewrite bind_eq; [|apply time_eq].
      erewrite bind_eq; [|apply record_trial_Ok; exact Hc1].
      eexists. reflexivity.
    - simpl in Hhit. rewrite Hhit.
      erewrite bind_eq; [|apply time_eq].
      erewrite bind_eq; [|apply record_trial_Ok; exact Hc1].
      eexists. reflexivity. }
  destruct Hev as (d & Hev).
  eexists _, _, d. split.
  - rewrite for_each_cons, (bind_eq _ _ _ _ _ Hev). reflexivity.
  - split; [rewrite trial_results_next_trial; reflexivity|].
    split; [|reflexivity].
    rewrite !state_of_next_trial. reflexivity.
Qed.

(** *** Closing the window *)

Lemma welcome_events_quit (evs : list event) (waiting : bool) (w : world) :
  QUIT ∈ evs ->
  for_each evs
    (fun waiting ev =>
       match ev with
       | QUIT => raise SystemExit
       | KEYDOWN K_SPACE => ret false
       | KEYDOWN K_ESCAPE => raise SystemExit
       | _ => ret waiting
       end) waiting w
  = (Raise SystemExit, w).
Proof.
  revert waiting. induction evs as [|ev evs IH]; intros waiting Hin.
  - inversion Hin.
  - rewrite for_each_cons.
    apply elem_of_cons in Hin as [<-|Hin]; [reflexivity|].
    destruct ev as [|[]|button pos|];
      try reflexivity;
      (erewrite bind_eq; [|reflexivity]); apply IH; exact Hin.
Qed.

Lemma trial_events_quit (R N B : nat) (c : Configuration) (evs : list event) :
  forall (self : Experiment) (w : world),
    current_config self = Some c ->
    QUIT ∈ evs ->
    exists w',
      for_each evs (handle_trial_event R N B) self w = (Raise SystemExit, w') /\
      files w' = files w.
Proof.
  induction evs as [|ev evs IH]; intros self w Hc Hin; [inversion Hin|].
  rewrite for_each_cons.
  destruct (handle_trial_event_outcomes R N B self c ev w Hc)
    as [(self1 & w1 & Hev & Hc1 & Hf1)|[Hev ->]].
  - rewrite (bind_eq _ _ _ _ _ Hev).
    apply elem_of_cons in Hin as [<-|Hin]; [discriminate Hev|].
    destruct (IH self1 w1 Hc1 Hin) as (w' & Hrun & Hf).
    exists w'. split; [exact Hrun|]. rewrite Hf. exact Hf1.
  - exists w. split; [|reflexivity]. apply bind_Raise. exact Hev.
Qed.

Lemma break_events_quit (evs : list event) (acc : bool * Experiment)
    (w : world) :
  QUIT ∈ evs ->
  for_each evs
    (fun (acc : bool * Experiment) ev =>
       match ev with
       | QUIT => raise SystemExit
       | KEYDOWN K_SPACE => ret (false, snd acc)
       | KEYDOWN K_ESCAPE => ret (false, set_state st_end (snd acc))
       | _ => ret acc
       end) acc w
  = (Raise SystemExit, w).
Proof.
  revert acc. induction evs as [|ev evs IH]; intros acc Hin.
  - inversion Hin.
  - rewrite for_each_cons.
    apply elem_of_cons in Hin as [<-|Hin]; [reflexivity|].
    destruct ev as [|[]|button pos|];
      try reflexivity;
      (erewrite bind_eq; [|reflexivity]); apply IH; exact Hin.
Qed.

Lemma end_events_quit (evs : list event) (waiting : bool) (w : world) :
  QUIT ∈ evs ->
  for_each evs
    (fun waiting ev =>
       match ev with
       | QUIT => raise SystemExit
       | KEYDOWN K_SPACE | KEYDOWN K_ESCAPE => ret false
       | _ => ret waiting
       end) waiting w
  = (Raise SystemExit, w).
Proof.
  revert waiting. induction evs as [|ev evs IH]; intros waiting Hin.
  - inversion Hin.
  - rewrite for_each_cons.
    apply elem_of_cons in Hin as [<-|Hin]; [reflexivity|].
    destruct ev as [|[]|button pos|];
      try reflexivity;
      (erewrite bind_eq; [|reflexivity]); apply IH; exact Hin.
Qed.

Lemma window_close_exits (G K R N B fuel : nat) (self : Experiment)
    (w : world) :
  state self <> st_fixation ->
  (state self = st_trial -> current_config self <> None) ->
  QUIT ∈ queue w (polls w) ->
  exists w',
    main_loop G K R N B (S fuel) self w = (Raise SystemExit, w') /\
    files w' = files w.
Proof.
  intros Hst Hcfg Hq. cbn [main_loop].
  destruct (state self) eqn:E; try contradiction.
  - exists (polled 1 w). split; [|reflexivity].
    unfold show_welcome. cbn [welcome_wait].
    apply bind_Raise. apply bind_Raise.
    change (bind event_get ?f w) with (f (queue w (polls w)) (polled 1 w)).
    cbv beta. apply bind_Raise. apply welcome_events_quit. exact Hq.
  - destruct (current_config self) as [c|] eqn:Ec;
      [|exfalso; apply Hcfg; reflexivity].
    destruct (trial_events_quit R N B c (queue w (polls w)) self (polled 1 w)
                Ec Hq) as (w' & Hrun & Hf).
    exists w'. split; [|exact Hf].
    apply bind_Raise. unfold run_trial. rewrite Ec. exact Hrun.
  - exists (polled 1 w). split; [|reflexivity].
    unfold show_break. cbn [break_wait].
    apply bind_Raise. apply bind_Raise.
    change (bind event_get ?f w) with (f (queue w (polls w)) (polled 1 w)).
    cbv beta. apply bind_Raise. apply break_events_quit. exact Hq.
  - exists (polled 1 w). split; [|reflexivity].
    unfold show_end. cbn [end_wait].
    apply bind_Raise.
    change (bind event_get ?f w) with (f (queue w (polls w)) (polled 1 w)).
    cbv beta. apply bind_Raise. apply end_events_quit. exact Hq.
Qed.

(** * The Iowa Gambling Task *)

Import IGT.

(** ** The schedule of outcomes *)

Lemma gerar_resultado_ok (b : deck) (w : world) :
  valores_perda b <> [] ->
  exists o w', gerar_resultado b w = (Ok o, w') /\ outcome_ok b o.
Proof.
  intros Hv. unfold gerar_resultado. cbv zeta.
  rewrite (bind_eq _ _ _ _ _ (random_eq w)).
  destruct (Qltb (coin w) (freq_perda b)).
  - destruct (choice_Ok (valores_perda b) (snd (next_raw w)) Hv)
      as (v & Hin & Hch).
    rewrite (bind_eq _ _ _ _ _ Hch).
    eexists _, _. split; [reflexivity|].
    split; [reflexivity|]. split; [right; exact Hin|reflexivity].
  - eexists _, _. split; [reflexivity|].
    split; [reflexivity|]. split; [left; reflexivity|reflexivity].
Qed.

Lemma deck_schedule (b : deck) (n k : nat) (acc : list outcome) (w : world) :
  valores_perda b <> [] ->
  exists l w',
    for_each (seq k n)
      (fun acc (_ : nat) => o <- gerar_resultado b ;; ret (acc ++ [o])) acc w
    = (Ok (acc ++ l), w') /\
    length l = n /\ Forall (outcome_ok b) l.
Proof.
  intros Hv. revert k acc w.
  induction n as [|n IH]; intros k acc w.
  - exists [], w. rewrite app_nil_r. repeat split. constructor.
  - destruct (gerar_resultado_ok b w Hv) as (o & w1 & Ho & Hok).
    destruct (IH (S k) (acc ++ [o]) w1) as (l & w' & Hl & Hlen & Hall).
    exists (o :: l), w'. split; [|split].
    + change (seq k (S n)) with (k :: seq (S k) n).
      rewrite for_each_cons.
      erewrite bind_eq; [|erewrite bind_eq; [|exact Ho]; reflexivity].
      rewrite Hl, <- app_assoc. reflexivity.
    + simpl. lia.
    + constructor; assumption.
Qed.

Lemma schedules (N : nat) (bs : list (string * deck))
    (acc : gmap string (list outcome)) (w : world) :
  (forall name b, (name, b) ∈ bs -> valores_perda b <> []) ->
  exists m w',
    for_each bs
      (fun resultados (item : string * deck) =>
         let '(baralho, propriedades) := item in
         lista <- for_each (seq 0 N)
           (fun acc (_ : nat) =>
              o <- gerar_resultado propriedades ;; ret (acc ++ [o])) [] ;;
         ret (<[baralho := lista]> resultados)) acc w
    = (Ok m, w') /\
    (forall name, name ∉ bs.*1 -> m !! name = acc !! name) /\
    (NoDup bs.*1 ->
     forall name b, (name, b) ∈ bs ->
       exists lista, m !! name = Some lista /\ length lista = N /\
                     Forall (outcome_ok b) lista).
Proof.
  revert acc w. induction bs as [|[name0 b0] bs IH]; intros acc w Hv.
  - exists acc, w. split; [reflexivity|]. split; [reflexivity|].
    intros _ name b Hin. inversion Hin.
  - destruct (deck_schedule b0 N 0 [] w) as (l & w1 & Hl & Hlen & Hall).
    { apply (Hv name0). apply list_elem_of_here. }
    destruct (IH (<[name0 := l]> acc) w1) as (m & w' & Hm & Hout & Hin).
    { intros name b H. apply (Hv name). apply list_elem_of_further. exact H. }
    exists m, w'. split; [|split].
    + rewrite for_each_cons.
      erewrite bind_eq; [|erewrite bind_eq; [|exact Hl]; reflexivity].
      exact Hm.
    + intros name Hn. rewrite fmap_cons in Hn. simpl in Hn.
      apply not_elem_of_cons in Hn as [Hne Hn].
      rewrite (Hout name Hn). apply lookup_insert_ne. congruence.
    + intros Hnd name b Hb. rewrite fmap_cons in Hnd. simpl in Hnd.
      apply NoDup_cons in Hnd as [Hfresh Hnd].
      apply elem_of_cons in Hb as [Heq|Hb].
      * injection Heq as -> ->. exists l. split; [|split; assumption].
        rewrite (Hout name0 Hfresh). apply lookup_insert_eq.
      * apply (Hin Hnd name b Hb).
Qed.

Lemma _gerar_resultados_baralhos_spec (N : nat) (bs : list (string * deck))
    (w : world) :
  (forall name b, (name, b) ∈ bs -> valores_perda b <> []) ->
  NoDup bs.*1 ->
  exists m w',
    _gerar_resultados_baralhos N bs w = (Ok m, w') /\
    forall name b, (name, b) ∈ bs ->
      exists lista, m !! name = Some lista /\ length lista = N /\
                    Forall (outcome_ok b) lista.
Proof.
  intros Hv Hnd. destruct (schedules N bs ∅ w Hv) as (m & w' & Hm & _ & Hin).
  exists m, w'. split; [exact Hm|]. apply Hin. exact Hnd.
Qed.

(** ** Scores *)

Lemma get0_count (k : string) (dados : list dado) (acc : gmap string Z) :
  get0 (foldl (fun acc d => <[d_baralho d := get0 acc (d_baralho d) + 1]> acc)
              acc dados) k
  = get0 acc k
    + count_picks (fun d => bool_decide (d_baralho d = k)) dados.
Proof.
  unfold count_picks. revert acc.
  induction dados as [|d dados IH]; intros acc; simpl.
  - lia.
  - rewrite IH. unfold get0 at 1.
    destruct (decide (d_baralho d = k)) as [Heq|Hne].
    + rewrite bool_decide_eq_true_2 by exact Heq.
      rewrite Heq, lookup_insert_eq. simpl. lia.
    + rewrite bool_decide_eq_false_2 by exact Hne.
      rewrite lookup_insert_ne by exact Hne. reflexivity.
Qed.

Lemma count_picks_or (p q r : dado -> bool) (dados : list dado) :
  (forall d, p d = q d || r d) ->
  (forall d, q d = true -> r d = false) ->
  count_picks p dados = count_picks q dados + count_picks r dados.
Proof.
  intros Hp Hqr. unfold count_picks.
  induction dados as [|d dados IH]; simpl; [reflexivity|].
  rewrite Hp. destruct (q d) eqn:Eq.
  - rewrite (Hqr d Eq). simpl. lia.
  - destruct (r d); simpl; lia.
Qed.

Lemma count_advantageous (dados : list dado) :
  count_picks advantageous dados
  = count_picks (fun d => bool_decide (d_baralho d = "C"%string)) dados
    + count_picks (fun d => bool_decide (d_baralho d = "D"%string)) dados.
Proof.
  apply count_picks_or.
  - intros d. unfold advantageous. rewrite <- bool_decide_or.
    apply bool_decide_ext. rewrite !elem_of_cons, elem_of_nil. tauto.
  - intros d Hc. apply bool_decide_eq_true_1 in Hc.
    apply bool_decide_eq_false_2. rewrite Hc. discriminate.
Qed.

Lemma count_disadvantageous (dados : list dado) :
  count_picks disadvantageous dados
  = count_picks (fun d => bool_decide (d_baralho d = "A"%string)) dados
    + count_picks (fun d => bool_decide (d_baralho d = "B"%string)) dados.
Proof.
  apply count_picks_or.
  - intros d. unfold disadvantageous. rewrite <- bool_decide_or.
    apply bool_decide_ext. rewrite !elem_of_cons, elem_of_nil. tauto.
  - intros d Hc. apply bool_decide_eq_true_1 in Hc.
    apply bool_decide_eq_false_2. rewrite Hc. discriminate.
Qed.

Lemma sum_zero {A} (l : list A) (f : nat -> A -> Z) :
  (forall i d, l !! i = Some d -> f i d = 0) ->
  foldr Z.add 0 (imap f l) = 0.
Proof.
  revert f. induction l as [|x l IH]; intros f Hf; [reflexivity|].
  rewrite imap_cons. simpl. rewrite (Hf 0%nat x eq_refl).
  rewrite IH; [reflexivity|]. intros i d Hd. apply (Hf (S i)). exact Hd.
Qed.

Section Scores.

Variables N B : nat.
Hypothesis Hsize : (0 < N / B)%nat.

Lemma score_step_spec (i : nat) (d : dado) (blocos : list Z) (f : nat -> Z)
    (w : world) :
  length blocos = B ->
  (forall b, (b < B)%nat -> blocos !! b = Some (f b)) ->
  exists blocos',
    score_step N B i d (N / B) blocos w = (Ok blocos', w) /\
    length blocos' = B /\
    forall b, (b < B)%nat ->
      blocos' !! b = Some (f b + contribution N (N / B) b i d).
Proof.
  intros Hlen Hf. unfold score_step, contribution.
  destruct (i <? N)%nat; simpl.
  2:{ exists blocos. split; [reflexivity|]. split; [exact Hlen|].
      intros b Hb. rewrite (Hf b Hb), Z.add_0_r. reflexivity. }
  destruct (N / B =? 0)%nat eqn:E0; [apply Nat.eqb_eq in E0; lia|].
  destruct (i / (N / B) <? B)%nat eqn:Eb.
  2:{ exists blocos. split; [reflexivity|]. split; [exact Hlen|].
      intros b Hb. apply Nat.ltb_ge in Eb.
      replace (i / (N / B) =? b)%nat with false
        by (symmetry; apply Nat.eqb_neq; lia).
      rewrite (Hf b Hb), Z.add_0_r. reflexivity. }
  apply Nat.ltb_lt in Eb. unfold pick_score.
  fold (advantageous d). fold (disadvantageous d).
  set (bloco := (i / (N / B))%nat) in *.
  assert (Hins : forall v : Z,
            length (<[bloco := f bloco + v]> blocos) = B /\
            forall b, (b < B)%nat ->
              <[bloco := f bloco + v]> blocos !! b
              = Some (f b + (if (bloco =? b)%nat then v else 0))).
  { intros v. split; [rewrite length_insert; exact Hlen|].
    intros b Hb. destruct (bloco =? b)%nat eqn:E.
    - apply Nat.eqb_eq in E. subst b.
      apply list_lookup_insert_eq. lia.
    - apply Nat.eqb_neq in E. rewrite list_lookup_insert_ne by exact E.
      rewrite (Hf b Hb), Z.add_0_r. reflexivity. }
  destruct (advantageous d).
  { rewrite (bind_eq _ _ _ _ _ (getitem_lookup _ _ w _ (Hf _ Eb))).
    eexists. split; [reflexivity|]. apply Hins. }
  destruct (disadvantageous d).
  { rewrite (bind_eq _ _ _ _ _ (getitem_lookup _ _ w _ (Hf _ Eb))).
    eexists. split; [reflexivity|]. apply (Hins (-1)). }
  exists blocos. split; [reflexivity|]. split; [exact Hlen|].
  intros b Hb. rewrite (Hf b Hb).
  destruct (bloco =? b)%nat; rewrite Z.add_0_r; reflexivity.
Qed.

Lemma score_loop (l : list dado) :
  forall (k : nat) (blocos : list Z) (f : nat -> Z) (w : world),
    length blocos = B ->
    (forall b, (b < B)%nat -> blocos !! b = Some (f b)) ->
    exists blocos',
      for_each (imap (fun i d => ((k + i)%nat, d)) l)
        (fun blocos (x : nat * dado) =>
           score_step N B (fst x) (snd x) (N / B) blocos) blocos w
      = (Ok blocos', w) /\
      length blocos' = B /\
      forall b, (b < B)%nat ->
        blocos' !! b
        = Some (f b + foldr Z.add 0
                        (imap (fun i d => contribution N (N / B) b (k + i) d) l)).
Proof.
  induction l as [|d l IH]; intros k blocos f w Hlen Hf.
  - exists blocos. split; [reflexivity|]. split; [exact Hlen|].
    intros b Hb. simpl. rewrite (Hf b Hb), Z.add_0_r. reflexivity.
  - destruct (score_step_spec (k + 0) d blocos f w Hlen Hf)
      as (blocos1 & Hstep & Hlen1 & Hf1).
    destruct (IH (S k) blocos1 _ w Hlen1 Hf1) as (blocos' & Hrun & Hlen' & Hf').
    exists blocos'. split; [|split; [exact Hlen'|]].
    + rewrite imap_cons, for_each_cons.
      rewrite (bind_eq _ _ _ _ _ Hstep).
      rewrite <- Hrun. f_equal. apply imap_ext. intros i x _. simpl.
      f_equal. lia.
    + intros b Hb. rewrite (Hf' b Hb), imap_cons. simpl.
      f_equal. rewrite <- Z.add_assoc. f_equal. f_equal. f_equal.
      apply imap_ext. intros i x _. simpl. f_equal. lia.
Qed.

Lemma lookup_replicate_zero (b : nat) :
  (b < B)%nat -> replicate B (0 : Z) !! b = Some ((fun _ => 0) b).
Proof. intros Hb. apply lookup_replicate_2. exact Hb. Qed.

Lemma block_score_take (b : nat) (dados : list dado) :
  (b < B)%nat ->
  block_score N (N / B) b dados
  = block_score N (N / B) b (take (N / B * B) dados).
Proof.
  intros Hb. unfold block_score.
  rewrite <- (take_drop (N / B * B) dados) at 1.
  rewrite imap_app, foldr_app.
  rewrite sum_zero; [reflexivity|].
  intros j d Hj. rewrite lookup_drop in Hj.
  apply lookup_lt_Some in Hj.
  rewrite length_take, Nat.min_l by lia.
  unfold contribution.
  replace ((N / B * B + j) / (N / B) =? b)%nat with false.
  { rewrite andb_false_r. reflexivity. }
  symmetry. apply Nat.eqb_neq.
  assert (B <= (N / B * B + j) / (N / B))%nat; [|lia].
  apply Nat.div_le_lower_bound; lia.
Qed.

Lemma _calcular_resultados_spec (self : IowaGamblingTask) (w : world) :
  exists r,
    _calcular_resultados N B self w = (Ok r, w) /\
    pontuacao_liquida r
    = count_picks advantageous (dados self)
      - count_picks disadvantageous (dados self) /\
    length (pontuacoes_bloco r) = B /\
    forall b, (b < B)%nat ->
      pontuacoes_bloco r !! b = Some (block_score N (N / B) b (dados self)).
Proof.
  unfold _calcular_resultados. cbv zeta.
  destruct (B =? 0)%nat eqn:E0.
  { apply Nat.eqb_eq in E0. subst B. rewrite Nat.div_0_r in Hsize. lia. }
  destruct (score_loop (dados self) 0 (replicate B 0) (fun _ => 0) w)
    as (blocos & Hrun & Hlen & Hf).
  { apply length_replicate. }
  { apply lookup_replicate_zero. }
  change (imap (fun i d => ((0 + i)%nat, d)) (dados self))
    with (imap (fun i d => (i, d)) (dados self)) in Hrun.
  rewrite (bind_eq _ _ _ _ _ Hrun).
  eexists. split; [reflexivity|]. split; [|split; [exact Hlen|]].
  - simpl. rewrite !get0_count, count_advantageous, count_disadvantageous.
    set (inicial := <["D"%string := 0]> _).
    assert (Hzero : forall k : string, get0 inicial k = 0).
    { intros k. subst inicial. unfold get0.
      destruct (decide (k = "D"%string)) as [->|];
        [rewrite lookup_insert_eq; reflexivity
        |rewrite lookup_insert_ne by congruence].
      destruct (decide (k = "C"%string)) as [->|];
        [rewrite lookup_insert_eq; reflexivity
        |rewrite lookup_insert_ne by congruence].
      destruct (decide (k = "B"%string)) as [->|];
        [rewrite lookup_insert_eq; reflexivity
        |rewrite lookup_insert_ne by congruence].
      destruct (decide (k = "A"%string)) as [->|];
        [rewrite lookup_insert_eq; reflexivity
        |rewrite lookup_insert_ne by congruence].
      rewrite lookup_empty. reflexivity. }
    rewrite !Hzero. lia.
  - intros b Hb. simpl. rewrite (Hf b Hb). reflexivity.
Qed.

End Scores.

(** C3. When a block holds at least one trial (NUM_TENTATIVAS //
    NUM_BLOCOS is positive), [_calcular_resultados] returns, on every log:
    the net score is the number of picks from C and D minus the number of
    picks from A and B; there is one score per block, that of block b being
    the sum, over the trials of index i below NUM_TENTATIVAS with
    i // (NUM_TENTATIVAS // NUM_BLOCOS) = b, of +1 for a pick from C or D
    and -1 for a pick from A or B; and the trials from index
    (NUM_TENTATIVAS // NUM_BLOCOS) * NUM_BLOCOS on count in no block: the
    block scores of the log and of the log cut there are the same. *)
Theorem net_score_and_block_scores (N B : nat) (self : IowaGamblingTask)
    (w : world) :
  (0 < N / B)%nat ->
  exists r,
    _calcular_resultados N B self w = (Ok r, w) /\
    pontuacao_liquida r
    = count_picks advantageous (dados self)
      - count_picks disadvantageous (dados self) /\
    length (pontuacoes_bloco r) = B /\
    (forall b, (b < B)%nat ->
       pontuacoes_bloco r !! b = Some (block_score N (N / B) b (dados self))) /\
    (forall b, (b < B)%nat ->
       block_score N (N / B) b (dados self)
       = block_score N (N / B) b (take (N / B * B) (dados self))).
Proof.
  intros Hsize.
  destruct (_calcular_resultados_spec N B Hsize self w)
    as (r & Hrun & Hnet & Hlen & Hblocks).
  exists r. repeat split; try assumption.
  intros b Hb. apply block_score_take; assumption.
Qed.

(** ** The rectangles of the decks *)

Lemma dict_set_fresh {A} (k : string) (v : A) (d : list (string * A)) :
  k ∉ d.*1 -> dict_set k v d = d ++ [(k, v)].
Proof.
  induction d as [|[k' v'] d IH]; intros Hk; [reflexivity|].
  cbn [dict_set]. rewrite fmap_cons, not_elem_of_cons in Hk.
  destruct Hk as [Hne Hk].
  destruct (String.eqb_spec k' k) as [->|_]; [contradiction|].
  rewrite (IH Hk). reflexivity.
Qed.

Lemma c_int_fits (z : Z) : fits_int z -> c_int z = z /\ fits_long z = true.
Proof.
  unfold fits_int, c_int, fits_long. intros Hz. split.
  - rewrite Z.mod_small by lia. lia.
  - apply andb_true_intro. split; [apply Z.leb_le|apply Z.ltb_lt]; lia.
Qed.

Lemma Rect_init_fits (x y : Z) (w : world) :
  fits_int x -> fits_int y ->
  Rect_init x y 160 240 w = (Ok (mkRect x y 160 240), w).
Proof.
  intros Hx Hy. unfold Rect_init.
  destruct (c_int_fits x Hx) as [-> ->], (c_int_fits y Hy) as [-> ->].
  reflexivity.
Qed.

Lemma retangulos_loop (x0 y : Z) (l : list string) :
  forall (k : nat) (acc : list (string * Rect)) (w : world),
    NoDup (acc.*1 ++ l) ->
    fits_int y ->
    (forall i, (i < length l)%nat -> fits_int (x0 + Z.of_nat (k + i) * 200)) ->
    for_each (imap (fun i baralho => ((k + i)%nat, baralho)) l)
      (fun retangulos (item : nat * string) =>
         let '(i, baralho) := item in
         r <- Rect_init (x0 + Z.of_nat i * (160 + 40)) y 160 240 ;;
         ret (dict_set baralho r retangulos))
      acc w
    = (Ok (acc ++ imap (fun i baralho => (baralho, deck_rect x0 y (k + i))) l),
       w).
Proof.
  induction l as [|b l IH]; intros k acc w Hnd Hy Hx.
  - cbn [imap for_each]. rewrite app_nil_r. reflexivity.
  - rewrite !imap_cons, for_each_cons. cbv beta iota zeta.
    change (160 + 40) with 200.
    rewrite Nat.add_0_r.
    erewrite bind_eq;
      [|erewrite bind_eq;
          [|apply Rect_init_fits;
              [specialize (Hx 0%nat); rewrite Nat.add_0_r in Hx;
               apply Hx; simpl; lia|exact Hy]];
        reflexivity].
    rewrite dict_set_fresh.
    2:{ apply NoDup_app in Hnd as (_ & Hdis & _).
        intros Hin. apply (Hdis b Hin). apply list_elem_of_here. }
    erewrite (imap_ext _ (fun i baralho => ((S k + i)%nat, baralho)));
      [|intros i x _; simpl; f_equal; lia].
    rewrite (IH (S k)).
    + rewrite <- app_assoc. cbn [app].
      erewrite (imap_ext (fun i baralho => (baralho, deck_rect x0 y (S k + i))));
        [reflexivity|].
      intros i x _. simpl. do 2 f_equal. lia.
    + rewrite fmap_app, <- app_assoc. exact Hnd.
    + exact Hy.
    + intros i Hi. replace (S k + i)%nat with (k + S i)%nat by lia.
      apply Hx. simpl. lia.
Qed.

Lemma _criar_retangulos_baralhos_spec (largura altura : Z)
    (posicoes : list string) (w : world) :
  NoDup posicoes ->
  fits_int ((altura - 240) / 2) ->
  (forall i, (i < length posicoes)%nat ->
     fits_int ((largura - 760) / 2 + Z.of_nat i * 200)) ->
  _criar_retangulos_baralhos largura altura posicoes w
  = (Ok (imap (fun i baralho =>
                 (baralho,
                  deck_rect ((largura - 760) / 2) ((altura - 240) / 2) i))
              posicoes), w).
Proof.
  intros Hnd Hy Hx. unfold _criar_retangulos_baralhos. cbv zeta.
  change (160 * 4 + 40 * 3) with 760.
  apply (retangulos_loop ((largura - 760) / 2) ((altura - 240) / 2)
           posicoes 0 [] w); assumption.
Qed.

Lemma lookup_retangulos (x0 y : Z) (posicoes : list string) (i : nat)
    (x : string * Rect) :
  imap (fun i baralho => (baralho, deck_rect x0 y i)) posicoes !! i = Some x ->
  posicoes !! i = Some (fst x) /\ snd x = deck_rect x0 y i.
Proof.
  rewrite list_lookup_imap. destruct (posicoes !! i) as [b|]; [|discriminate].
  intros [= <-]. split; reflexivity.
Qed.

Lemma retangulos_keys (x0 y : Z) (posicoes : list string) :
  (imap (fun i baralho => (baralho, deck_rect x0 y i)) posicoes).*1 = posicoes.
Proof.
  apply list_eq. intros i. rewrite list_lookup_fmap, list_lookup_imap.
  destruct (posicoes !! i); reflexivity.
Qed.

(** ** Shuffled positions *)

Lemma insert_perm {A} (l : list A) (k : nat) (a b : A) :
  l !! k = Some a ->
  l ≡ₚ a :: (take k l ++ drop (S k) l) /\
  <[k := b]> l ≡ₚ b :: (take k l ++ drop (S k) l).
Proof.
  intros Hk. split.
  - rewrite <- (take_drop_middle l k a Hk) at 1.
    symmetry. apply Permutation_middle.
  - rewrite insert_take_drop by (eapply lookup_lt_Some; exact Hk).
    symmetry. apply Permutation_middle.
Qed.

Lemma swap_perm {A} (x : list A) (i j : nat) (xi xj : A) :
  x !! i = Some xi -> x !! j = Some xj ->
  <[j := xi]> (<[i := xj]> x) ≡ₚ x.
Proof.
  intros Hi Hj. destruct (decide (i = j)) as [->|Hne].
  - assert (xi = xj) as -> by congruence.
    rewrite list_insert_insert_eq, list_insert_id by exact Hj. reflexivity.
  - destruct (insert_perm x i xi xj Hi) as [Hx Hx'].
    assert (Hj' : <[i := xj]> x !! j = Some xj)
      by (rewrite list_lookup_insert_ne by exact Hne; exact Hj).
    destruct (insert_perm (<[i := xj]> x) j xj xi Hj') as [Hy Hy'].
    etransitivity; [exact Hy'|]. symmetry.
    etransitivity; [exact Hx|]. apply perm_skip.
    apply (Permutation_cons_inv (a := xj)).
    etransitivity; [symmetry; exact Hx'|exact Hy].
Qed.

Lemma shuffle_from_perm {A} (i : nat) :
  forall (x x' : list A) (w w' : world),
    shuffle_from i x w = (Ok x', w') -> x' ≡ₚ x.
Proof.
  induction i as [|i IH]; intros x x' w w' H.
  - injection H as <- <-. reflexivity.
  - cbn [shuffle_from] in H. inv_bind H. inv_bind H. inv_bind H.
    apply getitem_Ok in H1 as [Hxi ->]. apply getitem_Ok in H2 as [Hxj ->].
    apply IH in H. rewrite H. apply swap_perm; assumption.
Qed.

Lemma four_names_NoDup : NoDup ["A"; "B"; "C"; "D"]%string.
Proof.
  repeat (apply NoDup_cons; split;
          [rewrite ?elem_of_cons, elem_of_nil; intros H; intuition discriminate|]).
  apply NoDup_nil_2.
Qed.

(** The rectangles of a session: those of four distinct positions on the
    window of the program. *)
Lemma retangulos_of_positions (posicoes : list string) (w : world) :
  posicoes ≡ₚ ["A"; "B"; "C"; "D"]%string ->
  _criar_retangulos_baralhos LARGURA_TELA ALTURA_TELA posicoes w
  = (Ok (imap (fun i baralho => (baralho, deck_rect 132 264 i)) posicoes), w).
Proof.
  intros Hperm.
  apply (_criar_retangulos_baralhos_spec LARGURA_TELA ALTURA_TELA posicoes w).
  - rewrite Hperm. exact four_names_NoDup.
  - unfold fits_int. vm_compute. split; [discriminate|reflexivity].
  - intros i Hi. rewrite Hperm in Hi. simpl in Hi.
    change ((LARGURA_TELA - 760) / 2) with 132. unfold fits_int. lia.
Qed.

Lemma net_score_and_block_scores_witness :
  exists r,
    _calcular_resultados 7 3 igt_seven w0 = (Ok r, w0) /\
    pontuacao_liquida r = 3 /\
    pontuacoes_bloco r !! 1%nat = Some 2.
Proof.
  destruct (net_score_and_block_scores 7 3 igt_seven w0)
    as (r & Hrun & Hnet & _ & Hblocks & _); [vm_compute; lia|].
  exists r. split; [exact Hrun|]. split; [exact Hnet|].
  apply (Hblocks 1%nat). lia.
Defined.

(** ** Setting a session up *)

Lemma shuffle_from_total {A} (i : nat) :
  forall (x : list A) (w : world),
    (i < length x)%nat ->
    exists x' w', shuffle_from i x w = (Ok x', w') /\ length x' = length x.
Proof.
  induction i as [|i IH]; intros x w Hi.
  - exists x, w. split; reflexivity.
  - cbn [shuffle_from].
    rewrite (bind_eq _ _ _ _ _ (randbelow_eq _ w)).
    assert (Hj : (drawn (S (S i)) w < S (S i))%nat) by (apply drawn_lt; lia).
    destruct (lookup_lt_is_Some_2 x (S i) Hi) as [xi Hxi].
    destruct (lookup_lt_is_Some_2 x (drawn (S (S i)) w)) as [xj Hxj]; [lia|].
    rewrite (bind_eq _ _ _ _ _ (getitem_lookup _ _ _ _ Hxi)).
    rewrite (bind_eq _ _ _ _ _ (getitem_lookup _ _ _ _ Hxj)).
    destruct (IH (<[drawn (S (S i)) w := xi]> (<[S i := xj]> x))
                 (snd (next_raw w))) as (x' & w' & Hrun & Hlen).
    { rewrite !length_insert. lia. }
    exists x', w'. split; [exact Hrun|].
    rewrite Hlen, !length_insert. reflexivity.
Qed.

Lemma four_decks_NoDup :
  NoDup [("A", BARALHO_A); ("B", BARALHO_B);
         ("C", BARALHO_C); ("D", BARALHO_D)]%string.*1.
Proof.
  simpl.
  repeat (apply NoDup_cons; split;
          [rewrite ?elem_of_cons, elem_of_nil; intros H; intuition discriminate|]).
  apply NoDup_nil_2.
Qed.

Lemma four_decks_losses (name : string) (b : deck) :
  (name, b) ∈ [("A", BARALHO_A); ("B", BARALHO_B);
               ("C", BARALHO_C); ("D", BARALHO_D)]%string ->
  valores_perda b <> [].
Proof.
  intros Hin.
  repeat (apply elem_of_cons in Hin as [Hin|Hin];
          [injection Hin as -> ->; discriminate|]).
  inversion Hin.
Qed.

Lemma IowaGamblingTask_init_spec (N : nat) (pid : string) (emb : bool)
    (w : world) :
  exists self w',
    IowaGamblingTask_init N pid emb w = (Ok self, w') /\
    estado self = instrucoes /\ dados self = [] /\
    tentativa_atual self = 0%nat /\ executando self = true /\
    baralhos self = [("A", BARALHO_A); ("B", BARALHO_B);
                     ("C", BARALHO_C); ("D", BARALHO_D)]%string /\
    (forall name b, (name, b) ∈ baralhos self ->
       exists lista, resultados_baralhos self !! name = Some lista /\
                     length lista = N /\ Forall (outcome_ok b) lista) /\
    dinheiro self = DINHEIRO_INICIAL /\
    posicoes_baralhos self ≡ₚ ["A"; "B"; "C"; "D"]%string /\
    (emb = false -> posicoes_baralhos self = ["A"; "B"; "C"; "D"]%string) /\
    retangulos_baralhos self
    = imap (fun i baralho => (baralho, deck_rect 132 264 i))
        (posicoes_baralhos self).
Proof.
  unfold IowaGamblingTask_init. cbv zeta.
  assert (Hpos : exists pos w1,
             (if emb then shuffle ["A"; "B"; "C"; "D"]%string
              else ret ["A"; "B"; "C"; "D"]%string) w = (Ok pos, w1) /\
             pos ≡ₚ ["A"; "B"; "C"; "D"]%string /\
             (emb = false -> pos = ["A"; "B"; "C"; "D"]%string)).
  { destruct emb.
    - destruct (shuffle_from_total 3 ["A"; "B"; "C"; "D"]%string w)
        as (x & w1 & Hrun & _); [simpl; lia|].
      exists x, w1. split; [exact Hrun|]. split; [|discriminate].
      apply shuffle_from_perm in Hrun. exact Hrun.
    - eexists _, _. split; [reflexivity|]. split; reflexivity. }
  destruct Hpos as (pos & w1 & Hpos & Hperm & Hfix).
  rewrite (bind_eq _ _ _ _ _ Hpos).
  rewrite (bind_eq _ _ _ _ _ (retangulos_of_positions pos w1 Hperm)).
  destruct (_gerar_resultados_baralhos_spec N _ w1 four_decks_losses
              four_decks_NoDup) as (m & w' & Hm & Hall).
  rewrite (bind_eq _ _ _ _ _ Hm).
  eexists _, _. split; [reflexivity|]. simpl.
  repeat split; try assumption.
Qed.

(** ** One pick *)

Lemma _processar_escolha_eq (N : nat) (self : IowaGamblingTask)
    (baralho : string) (lista : list outcome) (o : outcome) (w : world) :
  resultados_baralhos self !! baralho = Some lista ->
  lista !! tentativa_atual self = Some o ->
  _processar_escolha N self baralho w
  = (Ok (picked N self baralho o (clock w (ticks w)) (clock w (S (ticks w)))),
     later 2 w).
Proof.
  intros Hl Ho. unfold _processar_escolha. cbv zeta.
  rewrite (bind_eq _ _ _ _ _ (time_eq w)).
  unfold getkey. rewrite Hl.
  erewrite bind_eq; [|reflexivity].
  rewrite (bind_eq _ _ _ _ _ (getitem_lookup _ _ _ _ Ho)).
  destruct o as [[r p] l]. reflexivity.
Qed.

Lemma _processar_escolha_inv (N : nat) (self self' : IowaGamblingTask)
    (baralho : string) (w w' : world) :
  _processar_escolha N self baralho w = (Ok self', w') ->
  exists lista o,
    resultados_baralhos self !! baralho = Some lista /\
    lista !! tentativa_atual self = Some o /\
    self' = picked N self baralho o (clock w (ticks w)) (clock w (S (ticks w))) /\
    w' = later 2 w.
Proof.
  intros H.
  destruct (resultados_baralhos self !! baralho) as [lista|] eqn:Hl.
  2:{ unfold _processar_escolha in H. cbv zeta in H.
      rewrite (bind_eq _ _ _ _ _ (time_eq w)) in H.
      unfold getkey in H. rewrite Hl in H. discriminate H. }
  destruct (lista !! tentativa_atual self) as [o|] eqn:Ho.
  2:{ unfold _processar_escolha in H. cbv zeta in H.
      rewrite (bind_eq _ _ _ _ _ (time_eq w)) in H.
      unfold getkey in H. rewrite Hl in H.
      erewrite bind_eq in H; [|reflexivity].
      unfold getitem in H. rewrite Ho in H. discriminate H. }
  rewrite (_processar_escolha_eq N self baralho lista o w Hl Ho) in H.
  injection H as <- <-. exists lista, o. repeat split; assumption.
Qed.

(** ** What an iteration of the loop keeps *)

Lemma score_step_world (N B i : nat) (d : dado) (size : nat)
    (blocos blocos' : list Z) (w w' : world) :
  score_step N B i d size blocos w = (Ok blocos', w') -> w' = w.
Proof.
  unfold score_step. intros H.
  repeat match type of H with
         | context [if ?c then _ else _] => destruct c
         end;
    try discriminate H;
    try (injection H as _ <-; reflexivity);
    inv_bind H; apply getitem_Ok in H0 as [_ ->];
    injection H as _ <-; reflexivity.
Qed.

Lemma _calcular_resultados_world (N B : nat) (self : IowaGamblingTask)
    (r : resultados_t) (w w' : world) :
  _calcular_resultados N B self w = (Ok r, w') -> w' = w.
Proof.
  unfold _calcular_resultados. cbv zeta. intros H.
  destruct (B =? 0)%nat; [discriminate H|].
  inv_bind H. injection H as _ <-.
  eapply (for_each_inv (fun _ u => u = w)); [|reflexivity|exact H0].
  intros acc x u acc' u' -> Hx. eapply score_step_world. exact Hx.
Qed.

Lemma frame_keeps_schedule (N B : nat) (self self' : IowaGamblingTask)
    (w w' : world) :
  frame N B self w = (Ok self', w') ->
  resultados_baralhos self' = resultados_baralhos self /\
  cursor w' = cursor w /\ tape w' = tape w.
Proof.
  intros H.
  set (P := fun (s : IowaGamblingTask) (u : world) =>
              resultados_baralhos s = resultados_baralhos self /\
              cursor u = cursor w /\ tape u = tape w).
  change (P self' w'). unfold frame in H.
  destruct (estado self).
  - inv_bind H. injection H0 as <- <-.
    unfold _processar_eventos_instrucoes in H. inv_bind H.
    injection H0 as <- <-.
    eapply (for_each_inv P); [|
      |exact H]; [|repeat split].
    intros acc x u acc' u' HP Hx.
    destruct x as [|[]|b pos|];
      try destruct (is_some_and _ _);
      injection Hx as <- <-; exact HP.
  - inv_bind H.
    assert (HP0 : P a v).
    { unfold _desenhar_tela_principal in H0.
      destruct (_ && _).
      - inv_bind H0. injection H1 as <- <-. injection H0 as <- <-.
        repeat split.
      - injection H0 as <- <-. repeat split. }
    unfold _processar_eventos_principal in H. inv_bind H.
    injection H1 as <- <-.
    eapply (for_each_inv P); [| |exact H].
    2:{ destruct HP0 as (? & ? & ?). repeat split; assumption. }
    intros acc x u acc' u' HP Hx.
    destruct x as [|[]|b pos|];
      try (injection Hx as <- <-; exact HP).
    inv_bind Hx. injection H1 as <- <-.
    destruct (List.find _ _) as [x|].
    + apply _processar_escolha_inv in Hx as (lista & o & _ & _ & -> & ->).
      destruct o as [[r p] l]. exact HP.
    + injection Hx as <- <-. exact HP.
  - unfold _desenhar_feedback in H.
    destruct (feedback_dados self).
    + inv_bind H. injection H0 as <- <-.
      destruct (Qle_bool _ _); injection H as <- <-; repeat split.
    + injection H as <- <-. repeat split.
  - inv_bind H. unfold _desenhar_resultados in H0. inv_bind H0.
    apply _calcular_resultados_world in H1 as ->.
    injection H0 as <- <-.
    unfold _processar_eventos_resultados in H. inv_bind H.
    injection H0 as <- <-.
    eapply (for_each_inv P); [| |exact H]; [|repeat split].
    intros acc x u acc' u' HP Hx.
    destruct x as [|[]|b pos|];
      try destruct (is_some_and _ _);
      injection Hx as <- <-; exact HP.
Qed.

(** C2. The schedule of outcomes is drawn when the session is created:
    [IowaGamblingTask.__init__] always returns, in the instructions state,
    with one list per deck A, B, C, D, of length NUM_TENTATIVAS, whose
    entries all carry the deck's constant reward, a loss that is zero or
    one of the deck's loss values, and their difference. No iteration of
    the loop changes the schedule or draws a random number, and a pick
    reads the entry of the chosen deck at the current trial index: it is
    what the feedback shows and what the record of the trial holds. *)
Theorem schedule_generated_once_and_replayed (N B : nat) :
  (forall (pid : string) (emb : bool) (w : world),
     exists self w',
       IowaGamblingTask_init N pid emb w = (Ok self, w') /\
       estado self = instrucoes /\
       baralhos self = [("A", BARALHO_A); ("B", BARALHO_B);
                        ("C", BARALHO_C); ("D", BARALHO_D)]%string /\
       forall name b, (name, b) ∈ baralhos self ->
         exists lista, resultados_baralhos self !! name = Some lista /\
                       length lista = N /\ Forall (outcome_ok b) lista) /\
  (forall (self self' : IowaGamblingTask) (w w' : world),
     frame N B self w = (Ok self', w') ->
     resultados_baralhos self' = resultados_baralhos self /\
     cursor w' = cursor w /\ tape w' = tape w) /\
  (forall (self self' : IowaGamblingTask) (baralho : string) (w w' : world),
     _processar_escolha N self baralho w = (Ok self', w') ->
     exists lista r p l d,
       resultados_baralhos self !! baralho = Some lista /\
       lista !! tentativa_atual self = Some (r, p, l) /\
       feedback_dados self' = Some (baralho, (r, p, l)) /\
       dados self' = dados self ++ [d] /\
       (d_baralho d, d_recompensa d, d_perda d, d_liquido d)
       = (baralho, r, p, l) /\
       dinheiro self' = dinheiro self + l /\
       resultados_baralhos self' = resultados_baralhos self).
Proof.
  split; [|split].
  - intros pid emb w.
    destruct (IowaGamblingTask_init_spec N pid emb w)
      as (self & w' & Hrun & Hst & _ & _ & _ & Hdecks & Hall & _).
    exists self, w'. repeat split; assumption.
  - intros self self' w w'. apply frame_keeps_schedule.
  - intros self self' baralho w w' H.
    apply _processar_escolha_inv in H as (lista & o & Hl & Ho & -> & _).
    destruct o as [[r p] l].
    exists lista, r, p, l. eexists.
    split; [exact Hl|]. split; [exact Ho|]. repeat split.
Qed.

(** ** Feedback *)



(** ** The main screen *)

Lemma _desenhar_tela_principal_spec (self : IowaGamblingTask) (w : world) :
  exists self0 w0,
    _desenhar_tela_principal self w = (Ok self0, w0) /\
    retangulos_baralhos self0 = retangulos_baralhos self /\
    resultados_baralhos self0 = resultados_baralhos self /\
    tentativa_atual self0 = tentativa_atual self /\
    dados self0 = dados self /\
    dinheiro self0 = dinheiro self /\
    executando self0 = executando self /\
    estado self0 = estado self /\
    participante_id self0 = participante_id self /\
    posicoes_baralhos self0 = posicoes_baralhos self /\
    queue w0 = queue w /\ polls w0 = polls w /\
    pointer w0 = pointer w /\ files w0 = files w /\ clock w0 = clock w.
Proof.
  unfold _desenhar_tela_principal. destruct (_ && _).
  - rewrite (bind_eq _ _ _ _ _ (time_eq w)).
    eexists _, _. split; [reflexivity|]. repeat split.
  - eexists _, _. split; [reflexivity|]. repeat split.
Qed.




Lemma schedule_generated_once_and_replayed_witness :
  exists lista,
    resultados_baralhos igt_start !! "B"%string = Some lista /\
    length lista = 100%nat /\ Forall (outcome_ok BARALHO_B) lista.
Proof.
  destruct (schedule_generated_once_and_replayed 100 5) as (Hinit & _ & _).
  destruct (Hinit "p01"%string false igt_world)
    as (self & w' & Hrun & _ & Hdecks & Hall).
  unfold igt_start, igt_setup. rewrite Hrun. simpl.
  apply Hall. rewrite Hdecks.
  apply list_elem_of_further, list_elem_of_here.
Defined.



(** C5. In the example session the decks are shown again, after the
    feedback of the first pick, when the clock reads 12.6, and the second
    pick is made when it reads 13.6, one second later; the time recorded
    for the second trial is 2.6, the time since the first pick. *)
Lemma second_reaction_time_spans_feedback :
  estado (igt_state 3) = feedback /\
  estado (igt_state 4) = principal /\
  clock (igt_env 3) (ticks (igt_env 3)) = (63 # 5)%Q /\
  clock (igt_env 4) (ticks (igt_env 4)) = (68 # 5)%Q /\
  estado (igt_state 5) = feedback /\
  d_tempo_reacao <$> dados (igt_state 5) = [1000 # 1000; 2600 # 1000]%Q /\
  round3 ((68 # 5) - (63 # 5)) = (1000 # 1000)%Q.
Proof. vm_compute. repeat split. Qed.

(** ** Aborting a session *)

Lemma batch_keeps (body : IowaGamblingTask -> event -> M IowaGamblingTask)
    (evs : list event) :
  (forall s ev u, ev ∈ evs ->
     exists s1, body s ev u = (Ok s1, u) /\
       dados s1 = dados s /\ participante_id s1 = participante_id s /\
       (executando s = false \/ is_abort ev -> executando s1 = false)) ->
  forall s u,
    exists s', for_each evs body s u = (Ok s', u) /\
      dados s' = dados s /\ participante_id s' = participante_id s /\
      (executando s = false \/ Exists is_abort evs -> executando s' = false).
Proof.
  induction evs as [|ev evs IH]; intros Hb s u.
  - exists s. split; [reflexivity|]. split; [reflexivity|].
    split; [reflexivity|]. intros [H|H]; [exact H|inversion H].
  - destruct (Hb s ev u (list_elem_of_here _ _)) as (s1 & Hev & Hd1 & Hp1 & Ha1).
    destruct (IH (fun a y v Hy => Hb a y v (list_elem_of_further _ _ _ Hy))
                s1 u) as (s' & Hrun & Hd & Hp & Ha).
    exists s'. rewrite for_each_cons, (bind_eq _ _ _ _ _ Hev).
    split; [exact Hrun|]. rewrite Hd, Hp.
    split; [exact Hd1|]. split; [exact Hp1|].
    intros [H|H]; apply Ha.
    + left. apply Ha1. left. exact H.
    + apply Exists_cons in H as [H|H].
      * left. apply Ha1. right. exact H.
      * right. exact H.
Qed.

Ltac abort_cases :=
  repeat split;
  try (intros [H|[H|H]]; try exact H; try discriminate H; reflexivity).

Lemma _processar_eventos_instrucoes_spec (self : IowaGamblingTask)
    (w : world) :
  exists s',
    _processar_eventos_instrucoes self w = (Ok s', polled 1 w) /\
    dados s' = dados self /\ participante_id s' = participante_id self /\
    (executando self = false \/ Exists is_abort (queue w (polls w)) ->
     executando s' = false).
Proof.
  unfold _processar_eventos_instrucoes.
  change (bind event_get ?f w) with (f (queue w (polls w)) (polled 1 w)).
  cbv beta. apply batch_keeps.
  intros s ev u _.
  destruct ev as [|[]|b pos|];
    try destruct (is_some_and _ _);
    eexists; (split; [reflexivity|]); abort_cases.
Qed.

Lemma _processar_eventos_resultados_spec (self : IowaGamblingTask)
    (w : world) :
  exists s',
    _processar_eventos_resultados self w = (Ok s', polled 1 w) /\
    dados s' = dados self /\ participante_id s' = participante_id self /\
    (executando self = false \/ Exists is_abort (queue w (polls w)) ->
     executando s' = false).
Proof.
  unfold _processar_eventos_resultados.
  change (bind event_get ?f w) with (f (queue w (polls w)) (polled 1 w)).
  cbv beta. apply batch_keeps.
  intros s ev u _.
  destruct ev as [|[]|b pos|];
    try destruct (is_some_and _ _);
    eexists; (split; [reflexivity|]); abort_cases.
Qed.

Lemma _processar_eventos_principal_spec (N : nat) (self : IowaGamblingTask)
    (w : world) :
  Forall (fun ev => is_click ev = false) (queue w (polls w)) ->
  exists s',
    _processar_eventos_principal N self w = (Ok s', polled 1 w) /\
    dados s' = dados self /\ participante_id s' = participante_id self /\
    (executando self = false \/ Exists is_abort (queue w (polls w)) ->
     executando s' = false).
Proof.
  intros Hclick. unfold _processar_eventos_principal.
  change (bind event_get ?f w) with (f (queue w (polls w)) (polled 1 w)).
  cbv beta. apply batch_keeps.
  intros s ev u Hin.
  pose proof (proj1 (Forall_forall _ _) Hclick ev Hin) as Hx.
  destruct ev as [|[]|b pos|]; try discriminate Hx;
    eexists; (split; [reflexivity|]); abort_cases.
Qed.

Lemma frame_abort (N B : nat) (self : IowaGamblingTask) (w : world) :
  (0 < N / B)%nat ->
  estado self <> feedback ->
  Exists is_abort (queue w (polls w)) ->
  (estado self = principal ->
   Forall (fun ev => is_click ev = false) (queue w (polls w))) ->
  exists self1 w1,
    frame N B self w = (Ok self1, w1) /\
    executando self1 = false /\ dados self1 = dados self /\
    participante_id self1 = participante_id self /\
    files w1 = files w /\ polls w1 = S (polls w).
Proof.
  intros Hsize Hst Hab Hclick. unfold frame.
  destruct (estado self) eqn:E; [| |contradiction|].
  - unfold _desenhar_tela_instrucoes.
    erewrite bind_eq; [|reflexivity].
    match goal with |- context [_processar_eventos_instrucoes ?s0 w] =>
      destruct (_processar_eventos_instrucoes_spec s0 w)
        as (s' & Hrun & Hd & Hp & Ha)
    end.
    exists s', (polled 1 w). split; [exact Hrun|].
    split; [apply Ha; right; exact Hab|]. repeat split; assumption.
  - specialize (Hclick eq_refl).
    destruct (_desenhar_tela_principal_spec self w)
      as (self0 & w0 & Hdraw & _ & _ & _ & Hd0 & _ & _ & _ & Hp0 & _ &
          Hq0 & Hpl0 & _ & Hf0 & _).
    rewrite (bind_eq _ _ _ _ _ Hdraw).
    destruct (_processar_eventos_principal_spec N self0 w0)
      as (s' & Hrun & Hd & Hp & Ha).
    { rewrite Hq0, Hpl0. exact Hclick. }
    exists s', (polled 1 w0). split; [exact Hrun|].
    split; [apply Ha; right; rewrite Hq0, Hpl0; exact Hab|].
    split; [rewrite Hd; exact Hd0|]. split; [rewrite Hp; exact Hp0|].
    cbn [polled files polls]. rewrite Hf0, Hpl0. split; reflexivity.
  - unfold _desenhar_resultados.
    destruct (_calcular_resultados_spec N B Hsize self w) as (r & Hr & _).
    erewrite bind_eq; [|erewrite bind_eq; [|exact Hr]; reflexivity].
    match goal with |- context [_processar_eventos_resultados ?s0 w] =>
      destruct (_processar_eventos_resultados_spec s0 w)
        as (s' & Hrun & Hd & Hp & Ha)
    end.
    exists s', (polled 1 w). split; [exact Hrun|].
    split; [apply Ha; right; exact Hab|]. repeat split; assumption.
Qed.

(** *** What the exit path writes *)

Lemma main_loop_stopped (N B fuel : nat) (self : IowaGamblingTask)
    (w : world) :
  executando self = false -> main_loop N B fuel self w = (Ok self, w).
Proof. intros H. destruct fuel; cbn [main_loop]; rewrite H; reflexivity. Qed.

Lemma _salvar_dados_spec (N B : nat) (ts : string)
    (abre : string -> option exn) (self : IowaGamblingTask) (w : world) :
  (0 < N / B)%nat ->
  match abre (basename ts self +:+ "_dados.csv") with
  | Some e => _salvar_dados N B ts abre self w = (Raise e, w)
  | None =>
      match abre (basename ts self +:+ "_resultados.json") with
      | Some e =>
          _salvar_dados N B ts abre self w = (Raise e, wrote [igt_table self] w)
      | None =>
          exists entries,
            _salvar_dados N B ts abre self w
            = (Ok tt, wrote [igt_table self; Report entries] w)
      end
  end.
Proof.
  intros Hsize. unfold _salvar_dados, open_w.
  change (negb SALVAR_DADOS) with false. cbv iota zeta.
  destruct (abre (basename ts self +:+ "_dados.csv")) as [e|]; [reflexivity|].
  erewrite bind_eq; [|reflexivity].
  erewrite bind_eq; [|apply write_file_eq].
  pose proof (fun v => _calcular_resultados_spec N B Hsize self v) as Hcalc.
  edestruct Hcalc as (r & Hr & _).
  erewrite bind_eq; [|exact Hr].
  destruct (abre (basename ts self +:+ "_resultados.json")) as [e|].
  - reflexivity.
  - erewrite bind_eq; [|reflexivity].
    eexists. unfold write_file, wrote, igt_table. cbn.
    rewrite <- app_assoc. reflexivity.
Qed.

Lemma executar_stopped (N B : nat) (ts : string) (abre : string -> option exn)
    (fuel : nat) (self : IowaGamblingTask) (w : world) :
  (0 < N / B)%nat ->
  executando self = false ->
  (dados self = [] ->
   executar N B ts abre fuel self w = (Ok (0 =? N)%nat, w)) /\
  (dados self <> [] ->
   match abre (basename ts self +:+ "_dados.csv") with
   | Some e => executar N B ts abre fuel self w = (Raise e, w)
   | None =>
       match abre (basename ts self +:+ "_resultados.json") with
       | Some e =>
           executar N B ts abre fuel self w
           = (Raise e, wrote [igt_table self] w)
       | None =>
           exists entries,
             executar N B ts abre fuel self w
             = (Ok (length (dados self) =? N)%nat,
                wrote [igt_table self; Report entries] w)
       end
   end).
Proof.
  intros Hsize Hex. unfold executar.
  rewrite (bind_eq _ _ _ _ _ (main_loop_stopped N B fuel self w Hex)).
  split.
  - intros ->. reflexivity.
  - intros Hd.
    replace (0 <? length (dados self))%nat with true
      by (destruct (dados self); [contradiction|reflexivity]).
    pose proof (_salvar_dados_spec N B ts abre self w Hsize) as Hsave.
    destruct (abre (basename ts self +:+ "_dados.csv")) as [e|].
    + apply bind_Raise. exact Hsave.
    + destruct (abre (basename ts self +:+ "_resultados.json")) as [e|].
      * apply bind_Raise. exact Hsave.
      * destruct Hsave as (entries & Hsave). exists entries.
        rewrite (bind_eq _ _ _ _ _ Hsave). reflexivity.
Qed.

Lemma executar_step (N B : nat) (ts : string) (abre : string -> option exn)
    (fuel : nat) (self self1 : IowaGamblingTask) (w w1 : world) :
  executando self = true ->
  frame N B self w = (Ok self1, w1) ->
  executar N B ts abre (S fuel) self w = executar N B ts abre fuel self1 w1.
Proof.
  intros Hex Hf.
  assert (Hm : main_loop N B (S fuel) self w = main_loop N B fuel self1 w1).
  { cbn [main_loop]. rewrite Hex. apply bind_eq. exact Hf. }
  unfold executar, bind. rewrite Hm. reflexivity.
Qed.

Lemma feedback_polls_nothing (N B : nat) (self self' : IowaGamblingTask)
    (w w' : world) :
  estado self = feedback ->
  frame N B self w = (Ok self', w') ->
  polls w' = polls w /\ executando self' = executando self.
Proof.
  intros Hst H. unfold frame, _desenhar_feedback in H. rewrite Hst in H.
  destruct (feedback_dados self).
  - apply bind_Ok in H as (now & v & Ht & H).
    injection Ht as <- <-.
    destruct (Qle_bool _ _); injection H as <- <-; split; reflexivity.
  - injection H as <- <-. split; reflexivity.
Qed.

(** C4. What an abort signal does, state by state.

    In the gambling task, a batch of events that holds the closing of the
    window or ESCAPE (and, on the main screen, no click) in the
    instructions, main or results state ends the loop at that iteration
    with the log as it was. [executar] then writes nothing when the log is
    empty. Otherwise it opens the table's file: when the file system
    refuses it, [executar] raises and nothing is written; when it accepts
    it, the table of the records is written, and the summary follows when
    its file can be opened too, [executar] raising with the table alone
    written when it cannot. In the feedback state no event is polled, so
    a signal is not seen there.

    In the cueing task, a batch of events of a trial that holds ESCAPE,
    no closing of the window and no response leads to the end screen, whose
    dismissal (SPACE or ESCAPE, the window not being closed) writes the
    table of the records before the program exits; an ESCAPE followed in
    its batch by a response is forgotten, the session going where the
    response takes it. Closing the window, in any state that polls
    events, exits at once and writes nothing. *)
Theorem abort_paths (G K R M C N B : nat) (ts : string)
    (abre : string -> option exn) :
  (0 < N / B)%nat ->
  (forall (self : IowaGamblingTask) (w : world),
     executando self = true ->
     estado self <> feedback ->
     Exists is_abort (queue w (polls w)) ->
     (estado self = principal ->
      Forall (fun ev => is_click ev = false) (queue w (polls w))) ->
     exists self1 w1,
       frame N B self w = (Ok self1, w1) /\
       executando self1 = false /\ dados self1 = dados self /\
       participante_id self1 = participante_id self /\
       files w1 = files w /\
       forall fuel,
         executar N B ts abre (S fuel) self w
         = executar N B ts abre fuel self1 w1) /\
  (forall (self : IowaGamblingTask) (w : world) (fuel : nat),
     executando self = false ->
     (dados self = [] ->
      executar N B ts abre fuel self w = (Ok (0 =? N)%nat, w)) /\
     (dados self <> [] ->
      match abre (basename ts self +:+ "_dados.csv") with
      | Some e => executar N B ts abre fuel self w = (Raise e, w)
      | None =>
          match abre (basename ts self +:+ "_resultados.json") with
          | Some e =>
              executar N B ts abre fuel self w
              = (Raise e, wrote [igt_table self] w)
          | None =>
              exists entries,
                executar N B ts abre fuel self w
                = (Ok (length (dados self) =? N)%nat,
                   wrote [igt_table self; Report entries] w)
          end
      end)) /\
  (forall (self self' : IowaGamblingTask) (w w' : world),
     estado self = feedback ->
     frame N B self w = (Ok self', w') ->
     polls w' = polls w /\ executando self' = executando self) /\
  (forall (self : CCT.Experiment) (c : CCT.Configuration) (w : world)
          (j fuel : nat),
     CCT.state self = CCT.st_trial ->
     CCT.current_config self = Some c ->
     Forall (no_response c) (queue w (polls w)) ->
     KEYDOWN K_ESCAPE ∈ queue w (polls w) ->
     (forall i, (i < j)%nat -> Forall end_idle (queue w (S i + polls w))) ->
     dismisses (queue w (S j + polls w)) ->
     exists rest w',
       CCT.main_loop G K R M C (S (S j + fuel)) self w = (Raise SystemExit, w') /\
       files w' = files w ++ CCT.to_csv (CCT.trial_results self) :: rest) /\
  (forall (self : CCT.Experiment) (c : CCT.Configuration) (pos : Z * Z)
          (w : world),
     CCT.current_config self = Some c ->
     responds c pos = true ->
     queue w (polls w) = [KEYDOWN K_ESCAPE; MOUSEBUTTONDOWN 1 pos] ->
     exists self' w' d,
       CCT.run_trial R M C self w = (Ok self', w') /\
       CCT.trial_results self' = CCT.trial_results self ++ [d] /\
       CCT.state self' = CCT.state (CCT.next_trial R M C self) /\
       files w' = files w) /\
  (forall (self : CCT.Experiment) (w : world) (fuel : nat),
     CCT.state self <> CCT.st_fixation ->
     (CCT.state self = CCT.st_trial -> CCT.current_config self <> None) ->
     QUIT ∈ queue w (polls w) ->
     exists w',
       CCT.main_loop G K R M C (S fuel) self w = (Raise SystemExit, w') /\
       files w' = files w).
Proof.
  intros Hsize. split; [|split; [|split; [|split; [|split]]]].
  - intros self w Hex Hst Hab Hclick.
    destruct (frame_abort N B self w Hsize Hst Hab Hclick)
      as (self1 & w1 & Hf & Hex1 & Hd & Hp & Hfiles & _).
    exists self1, w1. repeat split; try assumption.
    intros fuel. apply executar_step; assumption.
  - intros self w fuel Hex. apply executar_stopped; assumption.
  - intros self self' w w'. apply feedback_polls_nothing.
  - intros self c w j fuel. apply escape_then_dismissal.
  - intros self c pos w. apply escape_overwritten.
  - intros self w fuel. apply window_close_exits.
Qed.

Lemma abort_paths_witness :
  length (dados (igt_state 7)) = 2%nat /\
  exists entries,
    executar 100 5 ts0 fs_any 1 (igt_state 6) (igt_env 6)
    = (Ok (length (dados (igt_state 7)) =? 100)%nat,
       wrote [igt_table (igt_state 7); Report entries] (igt_env 7)).
Proof.
  split; [vm_compute; reflexivity|].
  destruct (abort_paths 6 12 12 12 5 100 5 ts0 fs_any) as (Hseen & Hsave & _);
    [vm_compute; lia|].
  destruct (Hseen (igt_state 6) (igt_env 6))
    as (self1 & w1 & Hframe & Hex1 & _ & _ & _ & Hstep).
  - vm_compute; reflexivity.
  - vm_compute; discriminate.
  - replace (queue (igt_env 6) (polls (igt_env 6))) with [QUIT]
      by (vm_compute; reflexivity).
    apply Exists_cons_hd. left. reflexivity.
  - intros _.
    replace (queue (igt_env 6) (polls (igt_env 6))) with [QUIT]
      by (vm_compute; reflexivity).
    repeat constructor.
  - assert (H7 : frame 100 5 (igt_state 6) (igt_env 6)
                 = (Ok (igt_state 7), igt_env 7)) by (vm_compute; reflexivity).
    rewrite H7 in Hframe. apply Ok_inj in Hframe as [E1 E2].
    subst self1 w1. clear H7.
    destruct (Hsave (igt_state 7) (igt_env 7) 0%nat Hex1) as (_ & Hnon).
    destruct Hnon as (entries & Hrun).
    + vm_compute. discriminate.
    + exists entries. rewrite (Hstep 0%nat). exact Hrun.
Defined.

(** Closing the window during a trial of the cueing task, with two records
    in the log: the program exits and no file is written. *)
Lemma window_close_loses_log :
  length (CCT.trial_results demo_recorded) = 2%nat /\
  fst (CCT.main_loop 6 12 12 12 5 3 demo_recorded w_quit) = Raise SystemExit /\
  files (snd (CCT.main_loop 6 12 12 12 5 3 demo_recorded w_quit)) = [].
Proof. vm_compute. repeat split. Qed.

(** ** The rectangles of the decks *)

(** X6. For pairwise distinct positions, on a window where no coordinate
    of a rectangle leaves the range of a C int, [_criar_retangulos_baralhos]
    returns one rectangle per position, in the order of the positions, the
    one at index i being 160 x 240 with its corner at (inicio_x + 200 i,
    y); two of them never share a point, so the pointer selects at most one
    deck; and for at most four decks on the 1024 x 768 window every
    rectangle lies inside the window. *)
Theorem deck_rectangles (largura altura : Z) (posicoes : list string)
    (w : world) :
  NoDup posicoes ->
  fits_int ((altura - 240) / 2) ->
  fits_int ((altura - 240) / 2 + 240) ->
  fits_int ((largura - 760) / 2) ->
  fits_int ((largura - 760) / 2 + 200 * Z.of_nat (length posicoes)) ->
  exists rects,
    _criar_retangulos_baralhos largura altura posicoes w = (Ok rects, w) /\
    rects.*1 = posicoes /\
    (forall (i : nat) (x : string * Rect),
       rects !! i = Some x ->
       snd x = deck_rect ((largura - 760) / 2) ((altura - 240) / 2) i) /\
    (forall (i j : nat) (x1 x2 : string * Rect) (p : Z * Z),
       fits_int (fst p) -> fits_int (snd p) ->
       rects !! i = Some x1 -> rects !! j = Some x2 ->
       collidepoint (snd x1) p = true -> collidepoint (snd x2) p = true ->
       i = j) /\
    (largura = LARGURA_TELA -> altura = ALTURA_TELA ->
     (length posicoes <= 4)%nat ->
     forall x, x ∈ rects -> inside LARGURA_TELA ALTURA_TELA (snd x)).
Proof.
  intros Hnd Hy Hy2 Hx0 Hx1.
  eexists. split.
  { apply _criar_retangulos_baralhos_spec; [exact Hnd|exact Hy|].
    intros i Hi. unfold fits_int in *. lia. }
  split; [apply retangulos_keys|]. split; [|split].
  - intros i x Hi. apply lookup_retangulos in Hi as [_ Hi]. exact Hi.
  - intros i j x1 x2 [px py] _ _ H1 H2 C1 C2.
    apply lookup_retangulos in H1 as [_ E1].
    apply lookup_retangulos in H2 as [_ E2].
    rewrite E1 in C1. rewrite E2 in C2.
    unfold collidepoint, deck_rect in C1, C2.
    cbn [left top width height fst snd] in C1, C2.
    apply andb_prop in C1 as [C1 _]. apply andb_prop in C1 as [C1 _].
    apply andb_prop in C1 as [L1 U1].
    apply andb_prop in C2 as [C2 _]. apply andb_prop in C2 as [C2 _].
    apply andb_prop in C2 as [L2 U2].
    apply Z.leb_le in L1, L2. apply Z.ltb_lt in U1, U2. lia.
  - intros -> -> Hlen x Hx.
    apply list_elem_of_lookup in Hx as [i Hi].
    pose proof (lookup_lt_Some _ _ _ Hi) as Hlt.
    apply lookup_retangulos in Hi as [_ ->].
    rewrite length_imap in Hlt.
    unfold inside, deck_rect, LARGURA_TELA, ALTURA_TELA.
    cbn [left top width height].
    change ((1024 - 760) / 2) with 132. change ((768 - 240) / 2) with 264.
    lia.
Qed.

Lemma deck_rectangles_witness :
  exists rects,
    _criar_retangulos_baralhos 1024 768 ["A"; "B"; "C"; "D"]%string w0
    = (Ok rects, w0) /\
    rects.*1 = ["A"; "B"; "C"; "D"]%string /\
    rects !! 2%nat = Some ("C"%string, mkRect 532 264 160 240).
Proof.
  destruct (deck_rectangles 1024 768 ["A"; "B"; "C"; "D"]%string w0)
    as (rects & Hrun & Hkeys & Hrect & _).
  - exact four_names_NoDup.
  - unfold fits_int. vm_compute. split; [discriminate|reflexivity].
  - unfold fits_int. vm_compute. split; [discriminate|reflexivity].
  - unfold fits_int. vm_compute. split; [discriminate|reflexivity].
  - unfold fits_int. vm_compute. split; [discriminate|reflexivity].
  - exists rects. split; [exact Hrun|]. split; [exact Hkeys|].
    assert (Hk : rects.*1 !! 2%nat = Some "C"%string)
      by (rewrite Hkeys; reflexivity).
    rewrite list_lookup_fmap in Hk.
    destruct (rects !! 2%nat) as [[b r]|] eqn:E; [|discriminate Hk].
    injection Hk as ->. pose proof (Hrect 2%nat _ E) as Hr.
    cbn [snd] in Hr. rewrite Hr. reflexivity.
Defined.

(** ** Shuffled positions *)

(** X7. Whatever the shuffle, a new session shows each of the decks A, B,
    C, D exactly once: the positions are a permutation of A, B, C, D (in
    that order when the shuffle is off) and the rectangles are those of
    the positions, in their order. *)
Theorem init_deck_positions (N : nat) (pid : string) (emb : bool)
    (w w' : world) (self : IowaGamblingTask) :
  IowaGamblingTask_init N pid emb w = (Ok self, w') ->
  posicoes_baralhos self ≡ₚ ["A"; "B"; "C"; "D"]%string /\
  (emb = false -> posicoes_baralhos self = ["A"; "B"; "C"; "D"]%string) /\
  (forall u : world,
     _criar_retangulos_baralhos LARGURA_TELA ALTURA_TELA (posicoes_baralhos self) u
     = (Ok (retangulos_baralhos self), u)) /\
  retangulos_baralhos self
  = imap (fun i baralho => (baralho, deck_rect 132 264 i))
      (posicoes_baralhos self) /\
  (retangulos_baralhos self).*1 ≡ₚ ["A"; "B"; "C"; "D"]%string.
Proof.
  intros H.
  destruct (IowaGamblingTask_init_spec N pid emb w)
    as (self0 & w0 & Hrun & _ & _ & _ & _ & _ & _ & _ & Hperm & Hfix & Hrect).
  rewrite H in Hrun. apply Ok_inj in Hrun as [<- _].
  split; [exact Hperm|]. split; [exact Hfix|]. split; [|split].
  - intros u. rewrite Hrect. apply retangulos_of_positions. exact Hperm.
  - exact Hrect.
  - rewrite Hrect, retangulos_keys. exact Hperm.
Qed.

Lemma init_deck_positions_witness :
  posicoes_baralhos (returned igt_blank (fst igt_shuffled))
  ≡ₚ ["A"; "B"; "C"; "D"]%string.
Proof.
  destruct (init_deck_positions 100 "p01" true w0 (snd igt_shuffled)
              (returned igt_blank (fst igt_shuffled))) as (Hperm & _).
  - vm_compute. reflexivity.
  - exact Hperm.
Defined.

(** ** A pick beyond the schedule *)

Lemma _processar_escolha_IndexError (N : nat) (self : IowaGamblingTask)
    (baralho : string) (lista : list outcome) (w : world) :
  resultados_baralhos self !! baralho = Some lista ->
  (length lista <= tentativa_atual self)%nat ->
  _processar_escolha N self baralho w = (Raise IndexError, later 1 w).
Proof.
  intros Hl Hlen. unfold _processar_escolha. cbv zeta.
  rewrite (bind_eq _ _ _ _ _ (time_eq w)).
  unfold getkey. rewrite Hl.
  erewrite bind_eq; [|reflexivity].
  erewrite bind_Raise; [reflexivity|].
  unfold getitem. rewrite lookup_ge_None_2 by exact Hlen. reflexivity.
Qed.

Lemma eventos_double_click (N : nat) (self : IowaGamblingTask)
    (b1 b2 : Z) (p1 p2 : Z * Z) (x : string * Rect) (lista : list outcome)
    (w : world) :
  queue w (polls w) = [MOUSEBUTTONDOWN b1 p1; MOUSEBUTTONDOWN b2 p2] ->
  List.find (fun x : string * Rect =>
               collidepoint (snd x) (pointer w (S (polls w))))
            (retangulos_baralhos self) = Some x ->
  resultados_baralhos self !! fst x = Some lista ->
  length lista = S (tentativa_atual self) ->
  exists w',
    _processar_eventos_principal N self w = (Raise IndexError, w') /\
    files w' = files w.
Proof.
  intros Hq Hfind Hl Hlen.
  destruct (lookup_lt_is_Some_2 lista (tentativa_atual self)) as [o Ho]; [lia|].
  unfold _processar_eventos_principal.
  change (bind event_get ?f w) with (f (queue w (polls w)) (snd (event_get w))).
  cbv beta. rewrite Hq. rewrite !for_each_cons. cbv beta iota.
  set (w1 := snd (event_get w)).
  assert (Hpick : (mouse_pos <- mouse_get_pos ;;
                   match List.find (fun x : string * Rect =>
                                      collidepoint (snd x) mouse_pos)
                           (retangulos_baralhos self) with
                   | Some x => _processar_escolha N self (fst x)
                   | None => ret self
                   end) w1
                  = (Ok (picked N self (fst x) o (clock w1 (ticks w1))
                           (clock w1 (S (ticks w1)))), later 2 w1)).
  { unfold bind at 1, mouse_get_pos. cbn [polls w1 event_get snd pointer].
    rewrite Hfind. apply (_processar_escolha_eq N self (fst x) lista o w1 Hl Ho). }
  set (self1 := picked N self (fst x) o (clock w1 (ticks w1))
                  (clock w1 (S (ticks w1)))) in *.
  assert (Hr1 : retangulos_baralhos self1 = retangulos_baralhos self)
    by (subst self1; destruct o as [[r p] l]; reflexivity).
  assert (Hs1 : resultados_baralhos self1 = resultados_baralhos self)
    by (subst self1; destruct o as [[r p] l]; reflexivity).
  assert (Ht1 : tentativa_atual self1 = (tentativa_atual self + 1)%nat)
    by (subst self1; destruct o as [[r p] l]; reflexivity).
  eexists. split.
  - rewrite (bind_eq _ _ _ _ _ Hpick). rewrite for_each_cons. cbv beta iota.
    erewrite bind_Raise; [reflexivity|].
    unfold bind at 1, mouse_get_pos. cbn [polls later w1 event_get snd pointer].
    rewrite Hr1, Hfind.
    apply (_processar_escolha_IndexError N self1 (fst x) lista).
    + rewrite Hs1. exact Hl.
    + rewrite Ht1. lia.
  - reflexivity.
Qed.

(** X8. Two clicks on a deck arriving in one batch of events are both
    taken as picks, the second without any feedback in between. At the
    last trial of the schedule the second pick reads past the end of the
    deck's list: [executar] dies with [IndexError] and, the log being
    written only after the loop, nothing of the session is saved. *)
Theorem double_click_on_last_trial (N B fuel : nat) (ts : string)
    (abre : string -> option exn) (self : IowaGamblingTask)
    (b1 b2 : Z) (p1 p2 : Z * Z) (x : string * Rect) (lista : list outcome)
    (w : world) :
  executando self = true ->
  estado self = principal ->
  queue w (polls w) = [MOUSEBUTTONDOWN b1 p1; MOUSEBUTTONDOWN b2 p2] ->
  List.find (fun x : string * Rect =>
               collidepoint (snd x) (pointer w (S (polls w))))
            (retangulos_baralhos self) = Some x ->
  resultados_baralhos self !! fst x = Some lista ->
  length lista = S (tentativa_atual self) ->
  exists w',
    executar N B ts abre (S fuel) self w = (Raise IndexError, w') /\
    files w' = files w.
Proof.
  intros Hex Hst Hq Hfind Hl Hlen.
  assert (Hdraw : exists self0 w0,
            _desenhar_tela_principal self w = (Ok self0, w0) /\
            retangulos_baralhos self0 = retangulos_baralhos self /\
            resultados_baralhos self0 = resultados_baralhos self /\
            tentativa_atual self0 = tentativa_atual self /\
            queue w0 = queue w /\ polls w0 = polls w /\
            pointer w0 = pointer w /\ files w0 = files w).
  { unfold _desenhar_tela_principal. destruct (_ && _).
    - rewrite (bind_eq _ _ _ _ _ (time_eq w)).
      eexists _, _. split; [reflexivity|]. repeat split.
    - eexists _, _. split; [reflexivity|]. repeat split. }
  destruct Hdraw as (self0 & w0 & Hdraw & Hr0 & Hs0 & Ht0 & Hq0 & Hp0 & Hpt0 & Hf0).
  assert (Hframe : exists w', frame N B self w = (Raise IndexError, w') /\
                              files w' = files w).
  { destruct (eventos_double_click N self0 b1 b2 p1 p2 x lista w0)
      as (w' & Hrun & Hf).
    - rewrite Hq0, Hp0. exact Hq.
    - rewrite Hpt0, Hp0, Hr0. exact Hfind.
    - rewrite Hs0. exact Hl.
    - rewrite Ht0. exact Hlen.
    - exists w'. split; [|rewrite Hf; exact Hf0].
      unfold frame. rewrite Hst. rewrite (bind_eq _ _ _ _ _ Hdraw).
      exact Hrun. }
  destruct Hframe as (w' & Hframe & Hf).
  exists w'. split; [|exact Hf].
  unfold executar. erewrite bind_Raise; [reflexivity|].
  cbn [main_loop]. rewrite Hex. apply bind_Raise. exact Hframe.
Qed.

Lemma double_click_on_last_trial_witness :
  exists w',
    executar 4 2 ts0 fs_any 1 igt_last w_double = (Raise IndexError, w') /\
    files w' = files w_double.
Proof.
  apply (double_click_on_last_trial 4 2 0 ts0 fs_any igt_last 1 1
           (200, 300) (200, 300)
           ("A"%string, mkRect 132 264 160 240)
           [(100, 0, 100); (100, 150, -50); (100, 0, 100); (100, 0, 100)]).
  - reflexivity.
  - reflexivity.
  - reflexivity.
  - vm_compute. reflexivity.
  - vm_compute. reflexivity.
  - reflexivity.
Defined.

(** ** The log and the balance *)

Lemma total_liquido_app (l1 l2 : list dado) :
  total_liquido (l1 ++ l2) = total_liquido l1 + total_liquido l2.
Proof.
  unfold total_liquido. rewrite fmap_app, foldr_app.
  induction (d_liquido <$> l1) as [|z zs IH]; simpl; lia.
Qed.

Lemma balanced_picked (inicial : Z) (N : nat) (self : IowaGamblingTask)
    (baralho : string) (o : outcome) (t1 t2 : Q) :
  balanced inicial self -> balanced inicial (picked N self baralho o t1 t2).
Proof.
  intros (Hn & Hm & Hall). destruct o as [[r p] l].
  unfold balanced, picked. cbn [tentativa_atual dados dinheiro].
  split; [|split].
  - rewrite length_app, Hn. simpl. lia.
  - rewrite total_liquido_app, Hm. unfold total_liquido. simpl. lia.
  - intros i d Hd.
    destruct (decide (i < length (dados self))%nat) as [Hlt|Hge].
    + rewrite lookup_app_l in Hd by exact Hlt.
      apply Hall in Hd as [Ht Hb]. split; [exact Ht|].
      rewrite take_app_le by lia. exact Hb.
    + rewrite lookup_app_r in Hd by lia.
      destruct (i - length (dados self))%nat as [|k] eqn:Ek; [|destruct k; discriminate Hd].
      injection Hd as <-. cbn [d_tentativa d_dinheiro_total].
      split; [lia|].
      rewrite take_ge by (rewrite length_app; simpl; lia).
      rewrite total_liquido_app, Hm. unfold total_liquido. simpl. lia.
Qed.

Lemma frame_balanced (inicial : Z) (N B : nat) (self self' : IowaGamblingTask)
    (w w' : world) :
  frame N B self w = (Ok self', w') ->
  balanced inicial self -> balanced inicial self'.
Proof.
  intros H Hbal. unfold frame in H.
  destruct (estado self).
  - inv_bind H. injection H0 as <- <-.
    unfold _processar_eventos_instrucoes in H. inv_bind H.
    injection H0 as <- <-.
    eapply (for_each_inv (fun s _ => balanced inicial s)); [| |exact H];
      [|exact Hbal].
    intros acc x u acc' u' HP Hx.
    destruct x as [|[]|b pos|];
      try destruct (is_some_and _ _);
      injection Hx as <- <-; exact HP.
  - inv_bind H.
    assert (HP0 : balanced inicial a).
    { unfold _desenhar_tela_principal in H0.
      destruct (_ && _).
      - inv_bind H0. injection H1 as <- <-. injection H0 as <- <-.
        exact Hbal.
      - injection H0 as <- <-. exact Hbal. }
    unfold _processar_eventos_principal in H. inv_bind H.
    injection H1 as <- <-.
    eapply (for_each_inv (fun s _ => balanced inicial s)); [| |exact H];
      [|exact HP0].
    intros acc x u acc' u' HP Hx.
    destruct x as [|[]|b pos|];
      try (injection Hx as <- <-; exact HP).
    inv_bind Hx. injection H1 as <- <-.
    destruct (List.find _ _) as [x|].
    + apply _processar_escolha_inv in Hx as (lista & o & _ & _ & -> & _).
      apply balanced_picked. exact HP.
    + injection Hx as <- <-. exact HP.
  - unfold _desenhar_feedback in H.
    destruct (feedback_dados self).
    + inv_bind H. injection H0 as <- <-.
      destruct (Qle_bool _ _); injection H as <- <-; exact Hbal.
    + injection H as <- <-. exact Hbal.
  - inv_bind H. unfold _desenhar_resultados in H0. inv_bind H0.
    injection H0 as <- <-.
    unfold _processar_eventos_resultados in H. inv_bind H.
    injection H0 as <- <-.
    eapply (for_each_inv (fun s _ => balanced inicial s)); [| |exact H];
      [|exact Hbal].
    intros acc x u acc' u' HP Hx.
    destruct x as [|[]|b pos|];
      try destruct (is_some_and _ _);
      injection Hx as <- <-; exact HP.
Qed.

(** X9. The log and the balance always agree. A new session is balanced
    on DINHEIRO_INICIAL: the trial counter is the number of records, the
    balance is the initial amount plus the net results of the records,
    and the record of index i is numbered i + 1 and holds the balance
    reached after it. Every iteration of the loop that returns keeps
    this, and so does any number of them. *)
Theorem log_and_balance_agree (N B : nat) :
  (forall (pid : string) (emb : bool) (w w' : world) (self : IowaGamblingTask),
     IowaGamblingTask_init N pid emb w = (Ok self, w') ->
     balanced DINHEIRO_INICIAL self) /\
  (forall (inicial : Z) (n : nat) (self self' : IowaGamblingTask)
          (w w' : world),
     frames N B n self w = (Ok self', w') ->
     balanced inicial self -> balanced inicial self').
Proof.
  split.
  - intros pid emb w w' self H.
    destruct (IowaGamblingTask_init_spec N pid emb w)
      as (self0 & w0 & Hrun & _ & Hd & Ht & _ & _ & _ & Hm & _).
    rewrite H in Hrun. apply Ok_inj in Hrun as [<- _].
    unfold balanced. rewrite Hd, Ht, Hm.
    split; [reflexivity|]. split; [reflexivity|].
    intros i d Hi. inversion Hi.
  - intros inicial n. induction n as [|n IH]; intros self self' w w' H Hbal.
    + injection H as <- <-. exact Hbal.
    + cbn [frames] in H. inv_bind H.
      eapply IH; [exact H|]. eapply frame_balanced; eassumption.
Qed.

Lemma log_and_balance_agree_witness :
  balanced 2000 (igt_state 6).
Proof.
  destruct (log_and_balance_agree 100 5) as (Hinit & Hkeep).
  apply (Hkeep 2000 6%nat igt_start (igt_state 6) (snd igt_setup) (igt_env 6)).
  - vm_compute. reflexivity.
  - apply (Hinit "p01"%string false igt_world (snd igt_setup)).
    vm_compute. reflexivity.
Defined.

(** ** Block scores and the net score *)

Lemma sum_add (f g : nat -> Z) (l : list nat) :
  foldr Z.add 0 ((fun b => f b + g b) <$> l)
  = foldr Z.add 0 (f <$> l) + foldr Z.add 0 (g <$> l).
Proof.
  induction l as [|b l IH]; [reflexivity|].
  rewrite !fmap_cons. cbn [foldr]. rewrite IH. lia.
Qed.

Lemma sum_indicator (x : nat) (v : Z) (a n : nat) :
  foldr Z.add 0 ((fun b => if (x =? b)%nat then v else 0) <$> seq a n)
  = if ((a <=? x) && (x <? a + n))%nat then v else 0.
Proof.
  revert a. induction n as [|n IH]; intros a.
  - simpl. destruct (a <=? x)%nat eqn:E1; [|reflexivity].
    destruct (x <? a + 0)%nat eqn:E2; [|reflexivity].
    apply Nat.leb_le in E1. apply Nat.ltb_lt in E2. lia.
  - cbn [seq]. rewrite fmap_cons. cbn [foldr]. rewrite IH.
    destruct (Nat.eqb_spec x a) as [->|Hne].
    + replace (S a <=? a)%nat with false by (symmetry; apply Nat.leb_gt; lia).
      replace (a <=? a)%nat with true by (symmetry; apply Nat.leb_le; lia).
      replace (a <? a + S n)%nat with true by (symmetry; apply Nat.ltb_lt; lia).
      simpl. lia.
    + destruct (Nat.leb_spec (S a) x), (Nat.leb_spec a x),
        (Nat.ltb_spec x (S a + n)), (Nat.ltb_spec x (a + S n));
        simpl; lia.
Qed.

Lemma sum_pick_score (l : list dado) :
  foldr Z.add 0 (pick_score <$> l)
  = count_picks advantageous l - count_picks disadvantageous l.
Proof.
  unfold count_picks. induction l as [|d l IH]; [reflexivity|].
  rewrite fmap_cons. cbn [foldr List.filter]. rewrite IH. unfold pick_score.
  destruct (advantageous d) eqn:Ea.
  - assert (Ed : disadvantageous d = false).
    { apply bool_decide_eq_true_1 in Ea. apply bool_decide_eq_false_2.
      rewrite !elem_of_cons, elem_of_nil in *.
      intros [H|[H|[]]]; rewrite H in Ea;
        destruct Ea as [Ea|[Ea|[]]]; discriminate Ea. }
    rewrite Ed. cbn [length]. lia.
  - destruct (disadvantageous d); cbn [length]; lia.
Qed.

Section Blocks.

Variables N B : nat.

Lemma blocks_sum (l : list dado) :
  forall k : nat,
    (forall i, (i < length l)%nat ->
       (k + i < N)%nat /\ ((k + i) / (N / B) < B)%nat) ->
    foldr Z.add 0
      ((fun b => foldr Z.add 0
                   (imap (fun i d => contribution N (N / B) b (k + i) d) l))
         <$> seq 0 B)
    = foldr Z.add 0 (pick_score <$> l).
Proof.
  induction l as [|d l IH]; intros k Hk.
  - cbn [imap fmap list_fmap foldr]. clear.
    induction (seq 0 B) as [|b s IHs]; [reflexivity|].
    rewrite fmap_cons. cbn [foldr]. rewrite IHs. reflexivity.
  - assert (Hext : forall b,
              foldr Z.add 0
                (imap (fun i d => contribution N (N / B) b (k + i) d) (d :: l))
              = (if (k / (N / B) =? b)%nat then pick_score d else 0)
                + foldr Z.add 0
                    (imap (fun i d => contribution N (N / B) b (S k + i) d) l)).
    { intros b. rewrite imap_cons. cbn [foldr]. f_equal.
      - unfold contribution. rewrite Nat.add_0_r.
        destruct (Hk 0%nat) as [Hlt _]; [simpl; lia|].
        rewrite Nat.add_0_r in Hlt. apply Nat.ltb_lt in Hlt. rewrite Hlt.
        reflexivity.
      - f_equal. apply imap_ext. intros i x _. simpl. f_equal. lia. }
    erewrite list_fmap_ext; [|intros i b _; apply Hext].
    rewrite (sum_add (fun b => if (k / (N / B) =? b)%nat then pick_score d else 0)).
    rewrite sum_indicator, IH.
    + destruct (Hk 0%nat) as [_ Hb]; [simpl; lia|].
      rewrite Nat.add_0_r in Hb. apply Nat.ltb_lt in Hb.
      cbn [Nat.add] in *. rewrite Hb. simpl. reflexivity.
    + intros i Hi. destruct (Hk (S i)) as [H1 H2]; [simpl; lia|].
      replace (S k + i)%nat with (k + S i)%nat by lia. split; assumption.
Qed.

End Blocks.

(** X10. When the log does not go beyond the trials the blocks cover (its
    length is at most (NUM_TENTATIVAS // NUM_BLOCOS) * NUM_BLOCOS, as is
    every log of the program's 100 trials in 5 blocks), the per-block
    scores that [_calcular_resultados] returns add up to its net score. *)
Theorem block_scores_add_up (N B : nat) (self : IowaGamblingTask)
    (w : world) :
  (0 < N / B)%nat ->
  (length (dados self) <= N / B * B)%nat ->
  exists r,
    _calcular_resultados N B self w = (Ok r, w) /\
    foldr Z.add 0 (pontuacoes_bloco r) = pontuacao_liquida r.
Proof.
  intros Hsize Hlen.
  destruct (_calcular_resultados_spec N B Hsize self w)
    as (r & Hrun & Hnet & Hlb & Hblocks).
  exists r. split; [exact Hrun|].
  assert (Hl : pontuacoes_bloco r
               = (fun b => block_score N (N / B) b (dados self)) <$> seq 0 B).
  { apply list_eq. intros b. rewrite list_lookup_fmap.
    destruct (decide (b < B)%nat) as [Hb|Hb].
    - rewrite (Hblocks b Hb), lookup_seq_lt by exact Hb. reflexivity.
    - rewrite lookup_ge_None_2 by lia.
      rewrite lookup_seq_ge by lia. reflexivity. }
  rewrite Hl, Hnet, <- sum_pick_score.
  apply (blocks_sum N B (dados self) 0).
  intros i Hi. cbn [Nat.add].
  assert (HB : (N / B * B <= N)%nat).
  { rewrite Nat.mul_comm. apply Nat.Div0.mul_div_le. }
  split; [lia|]. apply Nat.Div0.div_lt_upper_bound. lia.
Qed.

Lemma block_scores_add_up_witness :
  exists r,
    _calcular_resultados 100 5 (igt_state 6) w0 = (Ok r, w0) /\
    foldr Z.add 0 (pontuacoes_bloco r) = pontuacao_liquida r.
Proof.
  apply (block_scores_add_up 100 5 (igt_state 6) w0).
  - vm_compute. lia.
  - vm_compute. lia.
Defined.

(** ** The identifier of the participant *)

Section Identifier.

Variables alnum space : N -> bool.

Lemma isalnum_accepted (u : Entry.text) :
  Entry.isalnum alnum u || Entry.isspace space u = true ->
  Forall (Entry.accepted alnum space) u.
Proof.
  intros H. apply orb_prop in H as [H|H].
  - destruct u as [|c u]; [discriminate H|]. unfold Entry.isalnum in H.
    pose proof (proj1 (forallb_forall _ _) H) as Hall.
    apply Forall_forall. intros x Hx.
    unfold Entry.accepted. rewrite Hall; [reflexivity|].
    apply list_elem_of_In. exact Hx.
  - destruct u as [|c u]; [discriminate H|]. unfold Entry.isspace in H.
    pose proof (proj1 (forallb_forall _ _) H) as Hall.
    apply Forall_forall. intros x Hx.
    unfold Entry.accepted. rewrite (Hall x), orb_true_r; [reflexivity|].
    apply list_elem_of_In. exact Hx.
Qed.

Lemma handle_key_ok (st st' : Entry.entry) (ev : Entry.key_event) :
  (forall k u, ev = Entry.KKEYDOWN k u -> (length u <= 1)%nat) ->
  Entry.entry_ok alnum space st ->
  Entry.handle_key alnum space st ev = Ok st' ->
  Entry.entry_ok alnum space st'.
Proof.
  intros Hu (Hlen & Hall & Hpid) H.
  destruct ev as [|k u|]; [discriminate H| |injection H as <-; exact (conj Hlen (conj Hall Hpid))].
  unfold Entry.handle_key in H.
  destruct (_ && negb _) eqn:E1.
  { injection H as <-. apply andb_prop in E1 as [_ E1].
    apply negb_true_iff, bool_decide_eq_false_1 in E1.
    split; [exact Hlen|]. split; [exact Hall|]. intros _.
    split; [exact E1|]. split; [exact Hlen|exact Hall]. }
  destruct (match k with K_BACKSPACE => true | _ => false end).
  { injection H as <-. unfold Entry.entry_ok.
    cbn [Entry.input_text Entry.input_active Entry.participant_id].
    split; [rewrite length_take; lia|].
    split; [apply Forall_take; exact Hall|exact Hpid]. }
  destruct (length (Entry.input_text st) <? 20)%nat eqn:E3;
    [|injection H as <-; exact (conj Hlen (conj Hall Hpid))].
  destruct (Entry.isalnum alnum u || Entry.isspace space u) eqn:E4;
    [|injection H as <-; exact (conj Hlen (conj Hall Hpid))].
  injection H as <-. unfold Entry.entry_ok.
  cbn [Entry.input_text Entry.input_active Entry.participant_id].
  apply Nat.ltb_lt in E3.
  pose proof (Hu k u eq_refl) as Hu1.
  split; [rewrite length_app; lia|].
  split; [|exact Hpid].
  apply Forall_app. split; [exact Hall|]. apply isalnum_accepted. exact E4.
Qed.

Lemma handle_keys_ok (evs : list Entry.key_event) :
  forall st st' : Entry.entry,
    (forall k u, Entry.KKEYDOWN k u ∈ evs -> (length u <= 1)%nat) ->
    Entry.entry_ok alnum space st ->
    Entry.handle_keys alnum space evs st = Ok st' ->
    Entry.entry_ok alnum space st'.
Proof.
  induction evs as [|ev evs IH]; intros st st' Hu Hst H.
  - injection H as <-. exact Hst.
  - cbn [Entry.handle_keys] in H.
    destruct (Entry.handle_key alnum space st ev) as [st1|e] eqn:E;
      [|discriminate H].
    apply (IH st1 st').
    + intros k u Hin. apply (Hu k u). apply list_elem_of_further. exact Hin.
    + apply (handle_key_ok st st1 ev); [|exact Hst|exact E].
      intros k u ->. apply (Hu k u). apply list_elem_of_here.
    + exact H.
Qed.

Lemma entry_loop_ok (batches : list (list Entry.key_event)) :
  forall st st' : Entry.entry,
    Entry.single_chars batches ->
    Entry.entry_ok alnum space st ->
    Entry.entry_loop alnum space batches st = Ok st' ->
    Entry.entry_ok alnum space st' /\ Entry.input_active st' = false.
Proof.
  induction batches as [|evs batches IH]; intros st st' Hu Hst H.
  - discriminate H.
  - cbn [Entry.entry_loop] in H.
    destruct (Entry.handle_keys alnum space evs st) as [st1|e] eqn:E;
      [|discriminate H].
    assert (H1 : Entry.entry_ok alnum space st1).
    { apply (handle_keys_ok evs st st1); [|exact Hst|exact E].
      intros k u Hin. apply (Hu evs k u); [apply list_elem_of_here|exact Hin]. }
    destruct (Entry.input_active st1) eqn:Ea.
    + apply (IH st1 st'); [|exact H1|exact H].
      intros evs' k u Hin. apply (Hu evs' k u).
      apply list_elem_of_further. exact Hin.
    + injection H as <-. split; [exact H1|exact Ea].
Qed.

(** X11. The identifier that [get_participant_info] returns, when every
    key press produces at most one character: it is not empty, it has at
    most 20 characters and each of them is alphanumeric or whitespace. *)
Theorem participant_id_accepted (batches : list (list Entry.key_event))
    (pid : Entry.text) :
  (forall evs k u, evs ∈ batches -> Entry.KKEYDOWN k u ∈ evs ->
                   (length u <= 1)%nat) ->
  Entry.get_participant_info alnum space batches = Ok pid ->
  pid <> [] /\ (length pid <= 20)%nat /\
  Forall (fun c => alnum c || space c = true) pid.
Proof.
  intros Hu H. unfold Entry.get_participant_info in H.
  destruct (Entry.entry_loop alnum space batches (Entry.mkEntry true [] []))
    as [st|e] eqn:E; [|discriminate H].
  injection H as <-.
  destruct (entry_loop_ok batches (Entry.mkEntry true [] []) st Hu)
    as ((_ & _ & Hpid) & Ha); [|exact E|apply (Hpid Ha)].
  split; [simpl; lia|]. split; [constructor|]. intros Hf. discriminate Hf.
Qed.

(** X12. RETURN on an empty box does not confirm and is not ignored
    either: when the character it produces is whitespace, as a carriage
    return is, that character is typed into the box, and a second RETURN
    confirms an identifier made of it alone. *)
Theorem return_on_empty_box (u : Entry.text) :
  Entry.isspace space u = true ->
  Entry.handle_key alnum space (Entry.mkEntry true [] [])
    (Entry.KKEYDOWN K_RETURN u)
  = Ok (Entry.mkEntry true u []) /\
  Entry.get_participant_info alnum space
    [[Entry.KKEYDOWN K_RETURN u; Entry.KKEYDOWN K_RETURN u]]
  = Ok u.
Proof.
  intros Hs.
  assert (H1 : Entry.handle_key alnum space (Entry.mkEntry true [] [])
                 (Entry.KKEYDOWN K_RETURN u)
               = Ok (Entry.mkEntry true u [])).
  { unfold Entry.handle_key. cbn. rewrite Hs, orb_true_r. reflexivity. }
  split; [exact H1|].
  unfold Entry.get_participant_info. cbn [Entry.entry_loop Entry.handle_keys].
  rewrite H1. unfold Entry.handle_key. cbn [Entry.input_text].
  destruct u as [|c u]; [discriminate Hs|].
  rewrite bool_decide_eq_false_2 by discriminate. reflexivity.
Qed.

End Identifier.

Lemma participant_id_accepted_witness :
  [97%N; 49%N] <> [] /\ (length [97%N; 49%N] <= 20)%nat /\
  Forall (fun c => (c <? 128)%N || (c =? 32)%N = true) [97%N; 49%N].
Proof.
  apply (participant_id_accepted (fun c => (c <? 128)%N) (fun c => (c =? 32)%N)
           [[Entry.KKEYDOWN K_other [97%N]];
            [Entry.KKEYDOWN K_other [49%N]; Entry.KKEYDOWN K_RETURN [13%N]]]).
  - intros evs k u Hevs Hin.
    repeat (apply elem_of_cons in Hevs as [->|Hevs];
            [repeat (apply elem_of_cons in Hin as [Hin|Hin];
                     [injection Hin as _ ->; simpl; lia|]);
             inversion Hin|]).
    inversion Hevs.
  - reflexivity.
Defined.

Lemma return_on_empty_box_witness :
  Entry.get_participant_info (fun c => (c <? 128)%N) (fun c => (c =? 13)%N)
    [[Entry.KKEYDOWN K_RETURN [13%N]; Entry.KKEYDOWN K_RETURN [13%N]]]
  = Ok [13%N].
Proof.
  apply (return_on_empty_box (fun c => (c <? 128)%N) (fun c => (c =? 13)%N)
           [13%N]).
  reflexivity.
Defined.

